(** * The MCAN driver of the ARM BSP: message RAM layout, configuration
      sequence, transmit and receive paths.

    The development follows [src/Mcan/Mcan.c], with the helpers of
    [Utils/Bits.h], [Utils/Utils.h] and [Utils/ErrorCode.h] it calls.

    - Fixed-width C integers are [Z] with the wrap-around written out
      ([u8], [u16], [u32]).
    - The memory-mapped registers belong to a [Device]: every volatile read
      and write goes through it and is recorded in an access log, so that
      the hardware may answer a read with anything it likes.
    - A function that reports failure through [returnError] is a computation
      of the monad [M] ending in [Failed code]; a failed C [assert] ends the
      computation in [Aborted]. *)

From Stdlib Require Import ZArith List Bool Lia.
Import ListNotations.
Open Scope Z_scope.

(** ** Fixed-width integers *)

Definition u8 (x : Z) : Z := x mod 2 ^ 8.
Definition u16 (x : Z) : Z := x mod 2 ^ 16.
Definition u32 (x : Z) : Z := x mod 2 ^ 32.

(** [sizeof(uint32_t)] on the 32-bit target. *)
Definition sizeof_uint32_t : Z := 4.

(** ** Utils/ErrorCode.h *)

Definition ErrorCode := Z.

Definition ERROR_CODE_DEFINE (A B C D : Z) : ErrorCode :=
  Z.lor (Z.lor (Z.lor (u32 (Z.shiftl (Z.land (u32 A) 255) 24))
                      (u32 (Z.shiftl (Z.land (u32 B) 255) 16)))
               (u32 (Z.shiftl (Z.land (u32 C) 255) 8)))
        (u32 (Z.land (u32 D) 255)).

(** The character constants ['C'], ['A'], ['N']. *)
Definition chr_C : Z := 67.
Definition chr_A : Z := 65.
Definition chr_N : Z := 78.

(** ** Utils/Bits.h: the pure helpers *)

Definition shiftValueLeft (value offset mask : Z) : Z :=
  let shifted := u32 (Z.shiftl value offset) in
  Z.land shifted mask.

Definition shiftBitLeft (value : bool) (offset : Z) : Z :=
  let v32 := if value then 1 else 0 in
  u32 (Z.shiftl v32 offset).

Definition getValueAtOffset (value offset mask : Z) : Z :=
  let maskedValue := Z.land value mask in
  Z.shiftr maskedValue offset.

Definition isFieldSet (value mask : Z) : bool :=
  negb (Z.land value mask =? 0).

Definition isBitSet (value offset : Z) : bool :=
  isFieldSet value (u32 (Z.shiftl 1 offset)).

(** A bit field of a register or of a message RAM element, named in the
    header by the pair [name_OFFSET], [name_MASK]. *)
Record BitField : Type := mkBitField { OFFSET : Z; MASK : Z }.

Definition BIT_FIELD_VALUE (f : BitField) (value : Z) : Z :=
  shiftValueLeft (u32 value) (OFFSET f) (MASK f).

Definition BIT_VALUE (f : BitField) (value : bool) : Z :=
  shiftBitLeft value (OFFSET f).

Definition GET_FIELD_VALUE (f : BitField) (registerValue : Z) : Z :=
  getValueAtOffset (u32 registerValue) (OFFSET f) (MASK f).

Definition IS_BIT_SET (f : BitField) (registerValue : Z) : bool :=
  isBitSet (u32 registerValue) (OFFSET f).

(** ** Mcan.h: enumerations *)

Definition Mcan_ErrorCode_InvalidRxFifoId : ErrorCode :=
  ERROR_CODE_DEFINE chr_C chr_A chr_N 1.
Definition Mcan_ErrorCode_RxFifoEmpty : ErrorCode :=
  ERROR_CODE_DEFINE chr_C chr_A chr_N 2.
Definition Mcan_ErrorCode_TxFifoFull : ErrorCode :=
  ERROR_CODE_DEFINE chr_C chr_A chr_N 3.
Definition Mcan_ErrorCode_TxEventFifoEmpty : ErrorCode :=
  ERROR_CODE_DEFINE chr_C chr_A chr_N 4.
Definition Mcan_ErrorCode_InitializationStartTimeout : ErrorCode :=
  ERROR_CODE_DEFINE chr_C chr_A chr_N 5.
Definition Mcan_ErrorCode_ClockStopRequestTimeout : ErrorCode :=
  ERROR_CODE_DEFINE chr_C chr_A chr_N 6.
Definition Mcan_ErrorCode_IndexOutOfRange : ErrorCode :=
  ERROR_CODE_DEFINE chr_C chr_A chr_N 7.
Definition Mcan_ErrorCode_ElementSizeInvalid : ErrorCode :=
  ERROR_CODE_DEFINE chr_C chr_A chr_N 8.
Definition Mcan_ErrorCode_ModeInvalid : ErrorCode :=
  ERROR_CODE_DEFINE chr_C chr_A chr_N 9.

Inductive Mcan_RxFifoId : Type :=
| Mcan_RxFifoId_0
| Mcan_RxFifoId_1.

Inductive Mcan_Mode : Type :=
| Mcan_Mode_Normal
| Mcan_Mode_AutomaticRetransmissionDisabled
| Mcan_Mode_Restricted
| Mcan_Mode_BusMonitoring
| Mcan_Mode_PowerDown
| Mcan_Mode_InternalLoopBackTest
| Mcan_Mode_Invalid.

Inductive Mcan_ElementSize : Type :=
| Mcan_ElementSize_8
| Mcan_ElementSize_12
| Mcan_ElementSize_16
| Mcan_ElementSize_20
| Mcan_ElementSize_24
| Mcan_ElementSize_32
| Mcan_ElementSize_48
| Mcan_ElementSize_64
| Mcan_ElementSize_Invalid.

(** The integer value of an element size selector, as it is written into a
    register field. *)
Definition Mcan_ElementSize_value (s : Mcan_ElementSize) : Z :=
  match s with
  | Mcan_ElementSize_8 => 0
  | Mcan_ElementSize_12 => 1
  | Mcan_ElementSize_16 => 2
  | Mcan_ElementSize_20 => 3
  | Mcan_ElementSize_24 => 4
  | Mcan_ElementSize_32 => 5
  | Mcan_ElementSize_48 => 6
  | Mcan_ElementSize_64 => 7
  | Mcan_ElementSize_Invalid => 8
  end.

(** [Mcan_DataLengthCode] and [Mcan_DataLengthRaw] are used through their
    integer values (the driver casts register fields and [uint8_t] sizes to
    them), so both are [Z] with the enumerators as constants. *)
Definition Mcan_DataLengthCode := Z.
Definition Mcan_DataLengthCode_8 : Mcan_DataLengthCode := 8.
Definition Mcan_DataLengthCode_12 : Mcan_DataLengthCode := 9.
Definition Mcan_DataLengthCode_16 : Mcan_DataLengthCode := 10.
Definition Mcan_DataLengthCode_20 : Mcan_DataLengthCode := 11.
Definition Mcan_DataLengthCode_24 : Mcan_DataLengthCode := 12.
Definition Mcan_DataLengthCode_32 : Mcan_DataLengthCode := 13.
Definition Mcan_DataLengthCode_48 : Mcan_DataLengthCode := 14.
Definition Mcan_DataLengthCode_64 : Mcan_DataLengthCode := 15.
Definition Mcan_DataLengthCode_Invalid : Mcan_DataLengthCode := 247.

Definition Mcan_DataLengthRaw := Z.
Definition Mcan_DataLengthRaw_8 : Mcan_DataLengthRaw := 8.
Definition Mcan_DataLengthRaw_12 : Mcan_DataLengthRaw := 12.
Definition Mcan_DataLengthRaw_16 : Mcan_DataLengthRaw := 16.
Definition Mcan_DataLengthRaw_20 : Mcan_DataLengthRaw := 20.
Definition Mcan_DataLengthRaw_24 : Mcan_DataLengthRaw := 24.
Definition Mcan_DataLengthRaw_32 : Mcan_DataLengthRaw := 32.
Definition Mcan_DataLengthRaw_48 : Mcan_DataLengthRaw := 48.
Definition Mcan_DataLengthRaw_64 : Mcan_DataLengthRaw := 64.
Definition Mcan_DataLengthRaw_Invalid : Mcan_DataLengthRaw := 247.

(** The remaining enumerations only travel into and out of bit fields. *)
Definition Mcan_IdType_Standard : Z := 0.
Definition Mcan_IdType_Extended : Z := 1.
Definition Mcan_InterruptLine_0 : Z := 0.
Definition Mcan_InterruptLine_1 : Z := 1.

Definition Mcan_Interrupt_Reserved1 : Z := 20.
Definition Mcan_Interrupt_Reserved2 : Z := 21.
Definition Mcan_Interrupt_Count : Z := 30.

(** ** Mcan.c: the element codec *)

Definition decodeElementSizeInBytes (size : Mcan_ElementSize)
  : Mcan_DataLengthRaw :=
  match size with
  | Mcan_ElementSize_8 => Mcan_DataLengthRaw_8
  | Mcan_ElementSize_12 => Mcan_DataLengthRaw_12
  | Mcan_ElementSize_16 => Mcan_DataLengthRaw_16
  | Mcan_ElementSize_20 => Mcan_DataLengthRaw_20
  | Mcan_ElementSize_24 => Mcan_DataLengthRaw_24
  | Mcan_ElementSize_32 => Mcan_DataLengthRaw_32
  | Mcan_ElementSize_48 => Mcan_DataLengthRaw_48
  | Mcan_ElementSize_64 => Mcan_DataLengthRaw_64
  | Mcan_ElementSize_Invalid => Mcan_DataLengthRaw_Invalid
  end.

Definition encodeElementSize (size : Z) : Mcan_ElementSize :=
  if size =? 8 then Mcan_ElementSize_8
  else if size =? 12 then Mcan_ElementSize_12
  else if size =? 16 then Mcan_ElementSize_16
  else if size =? 20 then Mcan_ElementSize_20
  else if size =? 24 then Mcan_ElementSize_24
  else if size =? 32 then Mcan_ElementSize_32
  else if size =? 48 then Mcan_ElementSize_48
  else if size =? 64 then Mcan_ElementSize_64
  else Mcan_ElementSize_Invalid.

Definition encodeDataLengthCode (size : Mcan_DataLengthRaw)
  : Mcan_DataLengthCode :=
  if u8 size <=? u8 Mcan_DataLengthRaw_8 then size
  else if size =? Mcan_DataLengthRaw_12 then Mcan_DataLengthCode_12
  else if size =? Mcan_DataLengthRaw_16 then Mcan_DataLengthCode_16
  else if size =? Mcan_DataLengthRaw_20 then Mcan_DataLengthCode_20
  else if size =? Mcan_DataLengthRaw_24 then Mcan_DataLengthCode_24
  else if size =? Mcan_DataLengthRaw_32 then Mcan_DataLengthCode_32
  else if size =? Mcan_DataLengthRaw_48 then Mcan_DataLengthCode_48
  else if size =? Mcan_DataLengthRaw_64 then Mcan_DataLengthCode_64
  else Mcan_DataLengthCode_Invalid.

Definition decodeDataLengthCode (dlc : Mcan_DataLengthCode)
           (isCanFdFrame : bool) : Mcan_DataLengthRaw :=
  if u8 dlc <=? u8 Mcan_DataLengthRaw_8 then dlc
  else if negb isCanFdFrame then Mcan_DataLengthRaw_8
  else if dlc =? Mcan_DataLengthCode_12 then Mcan_DataLengthRaw_12
  else if dlc =? Mcan_DataLengthCode_16 then Mcan_DataLengthRaw_16
  else if dlc =? Mcan_DataLengthCode_20 then Mcan_DataLengthRaw_20
  else if dlc =? Mcan_DataLengthCode_24 then Mcan_DataLengthRaw_24
  else if dlc =? Mcan_DataLengthCode_32 then Mcan_DataLengthRaw_32
  else if dlc =? Mcan_DataLengthCode_48 then Mcan_DataLengthRaw_48
  else Mcan_DataLengthRaw_64.

(** ** McanRegisters.h

    The register header is not part of the sources at hand: the positions of
    the bit fields, the word indices inside message RAM elements and the
    sentinel constants are parameters of the development.  Every field the
    driver names as [X_OFFSET] / [X_MASK] is a [BitField] [X]; [X_WORD] is
    the index of the 32-bit word of an element that holds [X]. *)

Class McanRegisters : Type := {
  (* chip configuration *)
  MCAN_CHIPCFG_CANXDMABA : BitField;
  (* CCCR *)
  MCAN_CCCR_INIT : BitField;
  MCAN_CCCR_CCE : BitField;
  MCAN_CCCR_ASM : BitField;
  MCAN_CCCR_CSA : BitField;
  MCAN_CCCR_CSR : BitField;
  MCAN_CCCR_MON : BitField;
  MCAN_CCCR_DAR : BitField;
  MCAN_CCCR_TEST : BitField;
  MCAN_CCCR_FDOE : BitField;
  (* TEST *)
  MCAN_TEST_LBCK : BitField;
  (* NBTP, DBTP, TDCR *)
  MCAN_NBTP_NBRP : BitField;
  MCAN_NBTP_NTSEG2 : BitField;
  MCAN_NBTP_NTSEG1 : BitField;
  MCAN_NBTP_NSJW : BitField;
  MCAN_DBTP_DBRP : BitField;
  MCAN_DBTP_DTSEG2 : BitField;
  MCAN_DBTP_DTSEG1 : BitField;
  MCAN_DBTP_DSJW : BitField;
  MCAN_DBTP_TDC : BitField;
  MCAN_TDCR_TDCF : BitField;
  MCAN_TDCR_TDCO : BitField;
  (* TSCC, TOCC *)
  MCAN_TSCC_TSS : BitField;
  MCAN_TSCC_TCP : BitField;
  MCAN_TOCC_ETOC : BitField;
  MCAN_TOCC_TOS : BitField;
  MCAN_TOCC_TOP : BitField;
  (* GFC, SIDFC, XIDFC, XIDAM *)
  MCAN_GFC_RRFS : BitField;
  MCAN_GFC_RRFE : BitField;
  MCAN_GFC_ANFS : BitField;
  MCAN_GFC_ANFE : BitField;
  MCAN_SIDFC_FLSSA : BitField;
  MCAN_SIDFC_LSS : BitField;
  MCAN_XIDFC_FLESA : BitField;
  MCAN_XIDFC_LSE : BitField;
  MCAN_XIDAM_EIDM : BitField;
  (* Rx regions *)
  MCAN_RXESC_F0DS : BitField;
  MCAN_RXESC_F1DS : BitField;
  MCAN_RXESC_RBDS : BitField;
  MCAN_RXF0C_F0SA : BitField;
  MCAN_RXF0C_F0S : BitField;
  MCAN_RXF0C_F0WM : BitField;
  MCAN_RXF0C_F0OM : BitField;
  MCAN_RXF1C_F1SA : BitField;
  MCAN_RXF1C_F1S : BitField;
  MCAN_RXF1C_F1WM : BitField;
  MCAN_RXF1C_F1OM : BitField;
  MCAN_RXBC_RBSA : BitField;
  MCAN_RXF0S_F0FL : BitField;
  MCAN_RXF0S_F0GI : BitField;
  MCAN_RXF1S_F1FL : BitField;
  (* Tx regions *)
  MCAN_TXBC_TBSA : BitField;
  MCAN_TXBC_NDTB : BitField;
  MCAN_TXBC_TFQS : BitField;
  MCAN_TXBC_TFQM : BitField;
  MCAN_TXESC_TBDS : BitField;
  MCAN_TXEFC_EFSA : BitField;
  MCAN_TXEFC_EFS : BitField;
  MCAN_TXEFC_EFWM : BitField;
  MCAN_TXFQS_TFQF : BitField;
  MCAN_TXFQS_TFQPI : BitField;
  (* ILE, RWD *)
  MCAN_ILE_EINT0 : BitField;
  MCAN_ILE_EINT1 : BitField;
  MCAN_RWD_WDC : BitField;
  (* IR *)
  MCAN_IR_RF0N : BitField;
  MCAN_IR_RF0W : BitField;
  MCAN_IR_RF0F : BitField;
  MCAN_IR_RF0L : BitField;
  MCAN_IR_RF1N : BitField;
  MCAN_IR_RF1W : BitField;
  MCAN_IR_RF1F : BitField;
  MCAN_IR_RF1L : BitField;
  MCAN_IR_HPM : BitField;
  MCAN_IR_TC : BitField;
  MCAN_IR_TCF : BitField;
  MCAN_IR_TFE : BitField;
  MCAN_IR_TEFN : BitField;
  MCAN_IR_TEFW : BitField;
  MCAN_IR_TEFF : BitField;
  MCAN_IR_TEFL : BitField;
  MCAN_IR_TSW : BitField;
  MCAN_IR_MRAF : BitField;
  MCAN_IR_TOO : BitField;
  MCAN_IR_DRX : BitField;
  MCAN_IR_ELO : BitField;
  MCAN_IR_EP : BitField;
  MCAN_IR_EW : BitField;
  MCAN_IR_BO : BitField;
  MCAN_IR_WDI : BitField;
  MCAN_IR_PEA : BitField;
  MCAN_IR_PED : BitField;
  MCAN_IR_ARA : BitField;
  (* Tx element *)
  MCAN_TXELEMENT_ESI : BitField;
  MCAN_TXELEMENT_ESI_WORD : Z;
  MCAN_TXELEMENT_XTD : BitField;
  MCAN_TXELEMENT_XTD_WORD : Z;
  MCAN_TXELEMENT_RTR : BitField;
  MCAN_TXELEMENT_RTR_WORD : Z;
  MCAN_TXELEMENT_MM : BitField;
  MCAN_TXELEMENT_MM_WORD : Z;
  MCAN_TXELEMENT_STDID : BitField;
  MCAN_TXELEMENT_STDID_WORD : Z;
  MCAN_TXELEMENT_EXTID : BitField;
  MCAN_TXELEMENT_EXTID_WORD : Z;
  MCAN_TXELEMENT_EFC : BitField;
  MCAN_TXELEMENT_EFC_WORD : Z;
  MCAN_TXELEMENT_FDF : BitField;
  MCAN_TXELEMENT_FDF_WORD : Z;
  MCAN_TXELEMENT_BRS : BitField;
  MCAN_TXELEMENT_BRS_WORD : Z;
  MCAN_TXELEMENT_DLC : BitField;
  MCAN_TXELEMENT_DLC_WORD : Z;
  MCAN_TXELEMENT_DATA_WORD : Z;
  MCAN_TXELEMENT_SIZE_INVALID : Z;
  MCAN_DLC_INVALID : Z;
  (* Rx element *)
  MCAN_RXELEMENT_ESI : BitField;
  MCAN_RXELEMENT_ESI_WORD : Z;
  MCAN_RXELEMENT_XTD : BitField;
  MCAN_RXELEMENT_XTD_WORD : Z;
  MCAN_RXELEMENT_RTR : BitField;
  MCAN_RXELEMENT_RTR_WORD : Z;
  MCAN_RXELEMENT_STDID : BitField;
  MCAN_RXELEMENT_STDID_WORD : Z;
  MCAN_RXELEMENT_EXTID : BitField;
  MCAN_RXELEMENT_EXTID_WORD : Z;
  MCAN_RXELEMENT_ANMF : BitField;
  MCAN_RXELEMENT_ANMF_WORD : Z;
  MCAN_RXELEMENT_FIDX : BitField;
  MCAN_RXELEMENT_FIDX_WORD : Z;
  MCAN_RXELEMENT_FDF : BitField;
  MCAN_RXELEMENT_FDF_WORD : Z;
  MCAN_RXELEMENT_BRS : BitField;
  MCAN_RXELEMENT_BRS_WORD : Z;
  MCAN_RXELEMENT_RXTS : BitField;
  MCAN_RXELEMENT_RXTS_WORD : Z;
  MCAN_RXELEMENT_DLC : BitField;
  MCAN_RXELEMENT_DLC_WORD : Z;
  MCAN_RXELEMENT_DATA_WORD : Z
}.

(** ** Mcan.h: structures *)

Module Mcan_BitTiming.
Record t : Type := mk {
  bitRatePrescaler : Z;
  synchronizationJump : Z;
  timeSegmentAfterSamplePoint : Z;
  timeSegmentBeforeSamplePoint : Z }.
End Mcan_BitTiming.

Module Mcan_TransmitterDelayCompensation.
Record t : Type := mk {
  isEnabled : bool;
  filter : Z;
  offset : Z }.
End Mcan_TransmitterDelayCompensation.

Module Mcan_TimeoutConfig.
Record t : Type := mk {
  isEnabled : bool;
  type : Z;
  period : Z }.
End Mcan_TimeoutConfig.

Module Mcan_IdFilter.
Record t : Type := mk {
  isIdRejected : bool;
  nonMatchingPolicy : Z;
  filterListAddress : Z;
  filterListSize : Z }.
End Mcan_IdFilter.

Module Mcan_RxFifoConfig.
Record t : Type := mk {
  isEnabled : bool;
  startAddress : Z;
  size : Z;
  watermark : Z;
  mode : Z;
  elementSize : Mcan_ElementSize }.
End Mcan_RxFifoConfig.

Module Mcan_RxBufferConfig.
Record t : Type := mk {
  startAddress : Z;
  elementSize : Mcan_ElementSize }.
End Mcan_RxBufferConfig.

Module Mcan_TxBufferConfig.
Record t : Type := mk {
  isEnabled : bool;
  startAddress : Z;
  bufferSize : Z;
  queueSize : Z;
  queueType : Z;
  elementSize : Mcan_ElementSize }.
End Mcan_TxBufferConfig.

Module Mcan_TxEventFifoConfig.
Record t : Type := mk {
  isEnabled : bool;
  startAddress : Z;
  size : Z;
  watermark : Z }.
End Mcan_TxEventFifoConfig.

Module Mcan_InterruptConfig.
Record t : Type := mk {
  isEnabled : bool;
  line : Z }.
End Mcan_InterruptConfig.

Module Mcan_Config.
Record t : Type := mk {
  msgRamBaseAddress : Z;
  mode : Mcan_Mode;
  isFdEnabled : bool;
  nominalBitTiming : Mcan_BitTiming.t;
  dataBitTiming : Mcan_BitTiming.t;
  transmitterDelayCompensation : Mcan_TransmitterDelayCompensation.t;
  timestampClk : Z;
  timestampTimeoutPrescaler : Z;
  timeout : Mcan_TimeoutConfig.t;
  standardIdFilter : Mcan_IdFilter.t;
  extendedIdFilter : Mcan_IdFilter.t;
  rxFifo0 : Mcan_RxFifoConfig.t;
  rxFifo1 : Mcan_RxFifoConfig.t;
  rxBuffer : Mcan_RxBufferConfig.t;
  txBuffer : Mcan_TxBufferConfig.t;
  txEventFifo : Mcan_TxEventFifoConfig.t;
  interrupts : list Mcan_InterruptConfig.t;
  isLine0InterruptEnabled : bool;
  isLine1InterruptEnabled : bool;
  wdtCounter : Z }.
End Mcan_Config.

Module Mcan_TxElement.
Record t : Type := mk {
  esiFlag : Z;
  idType : Z;
  frameType : Z;
  id : Z;
  marker : Z;
  isTxEventStored : bool;
  isCanFdFormatEnabled : bool;
  isBitRateSwitchingEnabled : bool;
  dataSize : Z;
  data : list Z;
  isInterruptEnabled : bool }.
End Mcan_TxElement.

Module Mcan_RxElement.
Record t : Type := mk {
  esiFlag : Z;
  idType : Z;
  frameType : Z;
  id : Z;
  isNonMatchingFrame : bool;
  filterIndex : Z;
  isCanFdFormatEnabled : bool;
  isBitRateSwitchingEnabled : bool;
  timestamp : Z;
  dataSize : Z;
  data : list Z }.
End Mcan_RxElement.

Module Mcan_InterruptStatus.
Record t : Type := mk {
  hasRf0nOccurred : bool;
  hasRf0wOccurred : bool;
  hasRf0fOccurred : bool;
  hasRf0lOccurred : bool;
  hasRf1nOccurred : bool;
  hasRf1wOccurred : bool;
  hasRf1fOccurred : bool;
  hasRf1lOccurred : bool;
  hasHpmOccurred : bool;
  hasTcOccurred : bool;
  hasTcfOccurred : bool;
  hasTfeOccurred : bool;
  hasTefnOccurred : bool;
  hasTefwOccurred : bool;
  hasTeffOccurred : bool;
  hasTeflOccurred : bool;
  hasTswOccurred : bool;
  hasMrafOccurred : bool;
  hasTooOccurred : bool;
  hasDrxOccurred : bool;
  hasEloOccurred : bool;
  hasEpOccurred : bool;
  hasEwOccurred : bool;
  hasBoOccurred : bool;
  hasWdiOccurred : bool;
  hasPeaOccurred : bool;
  hasPedOccurred : bool;
  hasAraOccurred : bool }.
End Mcan_InterruptStatus.

(** The Tx descriptor and the Rx FIFO descriptor kept in the device
    descriptor.  Pointers into message RAM are byte addresses, [NULL] is 0. *)
Definition NULL : Z := 0.

Module Mcan_Tx.
Record t : Type := mk {
  bufferAddress : Z;
  bufferSize : Z;
  queueAddress : Z;
  queueSize : Z;
  elementSize : Z }.
End Mcan_Tx.

Module Mcan_RxFifo.
Record t : Type := mk {
  address : Z;
  size : Z;
  elementSize : Z }.
End Mcan_RxFifo.

(** The device descriptor [Mcan].  Its [reg] member (the two register base
    pointers) is the [Device] below. *)
Module Mcan.
Record t : Type := mk {
  msgRamBaseAddress : Z;
  tx : Mcan_Tx.t;
  rxBufferAddress : Z;
  rxBufferElementSize : Z;
  rxFifo0 : Mcan_RxFifo.t;
  rxFifo1 : Mcan_RxFifo.t;
  txEventFifoAddress : Z;
  txEventFifoSize : Z;
  rxStdFilterAddress : Z;
  rxStdFilterSize : Z;
  rxExtFilterAddress : Z;
  rxExtFilterSize : Z }.

Definition set_msgRamBaseAddress (a : Z) (m : t) : t :=
  mk a (tx m) (rxBufferAddress m) (rxBufferElementSize m) (rxFifo0 m)
     (rxFifo1 m) (txEventFifoAddress m) (txEventFifoSize m)
     (rxStdFilterAddress m) (rxStdFilterSize m)
     (rxExtFilterAddress m) (rxExtFilterSize m).

Definition set_tx (x : Mcan_Tx.t) (m : t) : t :=
  mk (msgRamBaseAddress m) x (rxBufferAddress m) (rxBufferElementSize m)
     (rxFifo0 m) (rxFifo1 m) (txEventFifoAddress m) (txEventFifoSize m)
     (rxStdFilterAddress m) (rxStdFilterSize m)
     (rxExtFilterAddress m) (rxExtFilterSize m).

Definition set_rxBuffer (a s : Z) (m : t) : t :=
  mk (msgRamBaseAddress m) (tx m) a s (rxFifo0 m) (rxFifo1 m)
     (txEventFifoAddress m) (txEventFifoSize m)
     (rxStdFilterAddress m) (rxStdFilterSize m)
     (rxExtFilterAddress m) (rxExtFilterSize m).

Definition set_rxFifo0 (x : Mcan_RxFifo.t) (m : t) : t :=
  mk (msgRamBaseAddress m) (tx m) (rxBufferAddress m)
     (rxBufferElementSize m) x (rxFifo1 m)
     (txEventFifoAddress m) (txEventFifoSize m)
     (rxStdFilterAddress m) (rxStdFilterSize m)
     (rxExtFilterAddress m) (rxExtFilterSize m).

Definition set_rxFifo1 (x : Mcan_RxFifo.t) (m : t) : t :=
  mk (msgRamBaseAddress m) (tx m) (rxBufferAddress m)
     (rxBufferElementSize m) (rxFifo0 m) x
     (txEventFifoAddress m) (txEventFifoSize m)
     (rxStdFilterAddress m) (rxStdFilterSize m)
     (rxExtFilterAddress m) (rxExtFilterSize m).

Definition set_txEventFifo (a s : Z) (m : t) : t :=
  mk (msgRamBaseAddress m) (tx m) (rxBufferAddress m)
     (rxBufferElementSize m) (rxFifo0 m) (rxFifo1 m) a s
     (rxStdFilterAddress m) (rxStdFilterSize m)
     (rxExtFilterAddress m) (rxExtFilterSize m).

Definition set_rxStdFilter (a s : Z) (m : t) : t :=
  mk (msgRamBaseAddress m) (tx m) (rxBufferAddress m)
     (rxBufferElementSize m) (rxFifo0 m) (rxFifo1 m)
     (txEventFifoAddress m) (txEventFifoSize m) a s
     (rxExtFilterAddress m) (rxExtFilterSize m).

Definition set_rxExtFilter (a s : Z) (m : t) : t :=
  mk (msgRamBaseAddress m) (tx m) (rxBufferAddress m)
     (rxBufferElementSize m) (rxFifo0 m) (rxFifo1 m)
     (txEventFifoAddress m) (txEventFifoSize m)
     (rxStdFilterAddress m) (rxStdFilterSize m) a s.
End Mcan.

(** ** The hardware: registers, devices, access log *)

(** The registers of [Mcan_BaseRegisters] the driver touches, and the chip
    configuration register behind [reg.canDmaBase]. *)
Inductive Reg : Type :=
| cccr | test | nbtp | dbtp | tdcr | tscc | tscv | tocc
| gfc | sidfc | xidfc | xidam
| rxesc | rxf0c | rxf0s | rxf0a | rxf1c | rxf1s | rxf1a | rxbc
| txbc | txesc | txefc | txfqs | txbar | txbtie | txbcie
| ir | ie | ils | ile | rwd
| canDmaBase.

Definition Reg_eq_dec : forall a b : Reg, {a = b} + {a <> b}.
Proof. decide equality. Defined.

Definition Reg_eqb (a b : Reg) : bool :=
  if Reg_eq_dec a b then true else false.

(** A device answers volatile accesses.  A read may depend on, and change,
    the hidden hardware state. *)
Class Device : Type := {
  dev_state : Type;
  dev_read : Reg -> dev_state -> Z * dev_state;
  dev_write : Reg -> Z -> dev_state -> dev_state
}.

Inductive Event : Type :=
| EvRead (r : Reg) (v : Z)
| EvWrite (r : Reg) (v : Z).

(** Message RAM and the caller's buffers: byte-addressed, little-endian. *)
Definition Ram : Type := Z -> Z.

Definition load32 (m : Ram) (a : Z) : Z :=
  Z.lor (Z.lor (Z.lor (u8 (m a))
                      (Z.shiftl (u8 (m (a + 1))) 8))
               (Z.shiftl (u8 (m (a + 2))) 16))
        (Z.shiftl (u8 (m (a + 3))) 24).

Definition store8 (m : Ram) (a v : Z) : Ram :=
  fun x => if x =? a then u8 v else m x.

Definition store32 (m : Ram) (a v : Z) : Ram :=
  store8 (store8 (store8 (store8 m a v)
                         (a + 1) (Z.shiftr v 8))
                 (a + 2) (Z.shiftr v 16))
         (a + 3) (Z.shiftr v 24).

Fixpoint memset (m : Ram) (a c : Z) (n : nat) : Ram :=
  match n with
  | O => m
  | S n' => memset (store8 m a c) (a + 1) c n'
  end.

(** [memcpy] from a caller buffer, given as the list of its bytes. *)
Fixpoint memcpy_from_list (m : Ram) (a : Z) (src : list Z) (n : nat) : Ram :=
  match n with
  | O => m
  | S n' => memcpy_from_list (store8 m a (hd 0 src)) (a + 1) (tl src) n'
  end.

(** [memcpy] into a caller buffer: the bytes copied. *)
Fixpoint memcpy_to_list (m : Ram) (a : Z) (n : nat) : list Z :=
  match n with
  | O => []
  | S n' => u8 (m a) :: memcpy_to_list m (a + 1) n'
  end.

(** How a driver call ends: it returns ([Done], for a [bool] function that
    reports errors this is [true]), it fails with an error code
    ([returnError]), or an [assert] stops the program. *)
Inductive Outcome (A : Type) : Type :=
| Done (a : A)
| Failed (e : ErrorCode)
| Aborted.

Arguments Done {A} a.
Arguments Failed {A} e.
Arguments Aborted {A}.

Section Driver.

Context {L : McanRegisters} {D : Device}.

(** What a driver call can see and change: the hardware state, message RAM,
    the device descriptor [*mcan], the caller's cell behind the [index]
    out-parameter of [Mcan_txQueuePush], and the log of register accesses. *)
Record World : Type := mkWorld {
  hw : dev_state;
  ram : Ram;
  mcan : Mcan.t;
  index_out : Z;
  log : list Event
}.

Definition M (A : Type) : Type := World -> Outcome A * World.

Definition ret {A} (a : A) : M A := fun w => (Done a, w).

Definition bind {A B} (m : M A) (k : A -> M B) : M B :=
  fun w =>
    match m w with
    | (Done a, w') => k a w'
    | (Failed e, w') => (Failed e, w')
    | (Aborted, w') => (Aborted, w')
    end.

Notation "x <- m ;; k" := (bind m (fun x => k))
  (at level 61, m at next level, right associativity).
Notation "m ;; k" := (bind m (fun _ => k))
  (at level 61, right associativity).

(** [return returnError(errCode, e);]: the code is stored through [errCode]
    and the function returns [false]. *)
Definition returnError {A} (returnedError : ErrorCode) : M A :=
  fun w => (Failed returnedError, w).

(** [assert(b);] *)
Definition assert (b : bool) : M unit :=
  fun w => if b then (Done tt, w) else (Aborted, w).

(** A volatile 32-bit read, and a volatile 32-bit write. *)
Definition reg_read (r : Reg) : M Z :=
  fun w =>
    let v := u32 (fst (dev_read r (hw w))) in
    (Done v,
     mkWorld (snd (dev_read r (hw w))) (ram w) (mcan w) (index_out w)
             (log w ++ [EvRead r v])).

Definition reg_write (r : Reg) (v : Z) : M unit :=
  fun w =>
    (Done tt,
     mkWorld (dev_write r (u32 v) (hw w)) (ram w) (mcan w) (index_out w)
             (log w ++ [EvWrite r (u32 v)])).

(** [reg |= mask;] and [reg &= mask;] *)
Definition reg_or (r : Reg) (mask : Z) : M unit :=
  v <- reg_read r ;; reg_write r (Z.lor v mask).

Definition reg_and (r : Reg) (mask : Z) : M unit :=
  v <- reg_read r ;; reg_write r (Z.land v mask).

Definition get_mcan : M Mcan.t := fun w => (Done (mcan w), w).

Definition modify_mcan (f : Mcan.t -> Mcan.t) : M unit :=
  fun w =>
    (Done tt, mkWorld (hw w) (ram w) (f (mcan w)) (index_out w) (log w)).

Definition set_index_out (v : Z) : M unit :=
  fun w => (Done tt, mkWorld (hw w) (ram w) (mcan w) v (log w)).

Definition ram_load32 (a : Z) : M Z := fun w => (Done (load32 (ram w) a), w).

Definition modify_ram (f : Ram -> Ram) : M unit :=
  fun w =>
    (Done tt, mkWorld (hw w) (f (ram w)) (mcan w) (index_out w) (log w)).

(** [p[word] |= v;] on a [uint32_t *p] into message RAM. *)
Definition ram_or32 (p word v : Z) : M unit :=
  let a := p + sizeof_uint32_t * word in
  modify_ram (fun m => store32 m a (Z.lor (load32 m a) v)).

(** [&p[k]] for [uint32_t *p]. *)
Definition word_ptr (p k : Z) : Z := p + sizeof_uint32_t * k.

(** [for (uint32_t i = from; ...; i++) body(i)], for [n] iterations. *)
Fixpoint for_each (from : Z) (n : nat) (body : Z -> M unit) : M unit :=
  match n with
  | O => ret tt
  | S n' => body from ;; for_each (from + 1) n' body
  end.

(** ** Utils/Bits.h: the register helpers *)

Definition changeBitAtOffset (reg : Reg) (offset : Z) (value : bool)
  : M unit :=
  current <- reg_read reg ;;
  if value
  then reg_write reg (Z.lor current (u32 (Z.shiftl 1 offset)))
  else reg_write reg
         (Z.land current (u32 (Z.lnot (u32 (Z.shiftl 1 offset))))).

Definition setValueAtOffset (reg : Reg) (value offset mask : Z) : M unit :=
  regVal <- reg_read reg ;;
  let regVal1 := Z.land regVal (u32 (Z.lnot mask)) in
  let regVal2 := Z.lor regVal1 (shiftValueLeft value offset mask) in
  reg_write reg regVal2.

Definition SET_FIELD_VALUE (f : BitField) (registerAddress : Reg)
           (fieldValue : Z) : M unit :=
  setValueAtOffset registerAddress (u32 fieldValue) (OFFSET f) (MASK f).

(** ** Utils/Utils.h *)

(** The loop of [waitForRegisterWithTimeout], with [n] iterations left. *)
Fixpoint waitForRegister_loop (address : Reg) (mask : Z) (n : nat)
  : M bool :=
  match n with
  | O => ret false
  | S n' =>
      v <- reg_read address ;;
      if negb (Z.land v mask =? 0) then ret true
      else waitForRegister_loop address mask n'
  end.

Definition waitForRegisterWithTimeout (address : Reg) (mask timeout : Z)
  : M bool :=
  waitForRegister_loop address mask (Z.to_nat (u32 timeout)).

(** ** Mcan.c: element sizes in bytes *)

Definition decodeTxElementSizeInBytes (size : Mcan_ElementSize) : Z :=
  let elementSize := decodeElementSizeInBytes size in
  u8 (u32 (u32 elementSize
           + u32 (MCAN_TXELEMENT_DATA_WORD * sizeof_uint32_t))).

Definition decodeRxElementSizeInBytes (size : Mcan_ElementSize) : Z :=
  let elementSize := decodeElementSizeInBytes size in
  u8 (u32 (u32 elementSize
           + u32 (MCAN_RXELEMENT_DATA_WORD * sizeof_uint32_t))).

Definition encodeTxElementSizeInBytes (size : Z) : Mcan_ElementSize :=
  encodeElementSize
    (u8 (u32 (size - u32 (MCAN_TXELEMENT_DATA_WORD * sizeof_uint32_t)))).

Definition encodeRxElementSizeInBytes (size : Z) : Mcan_ElementSize :=
  encodeElementSize
    (u8 (u32 (size - u32 (MCAN_RXELEMENT_DATA_WORD * sizeof_uint32_t)))).

(** ** Mcan.c: the configuration sequence *)

Definition setMsgRamBaseAddress (config : Mcan_Config.t) : M unit :=
  modify_mcan
    (Mcan.set_msgRamBaseAddress (Mcan_Config.msgRamBaseAddress config)) ;;
  let addressMsb :=
    Z.shiftr (u32 (Mcan_Config.msgRamBaseAddress config)) 16 in
  SET_FIELD_VALUE MCAN_CHIPCFG_CANXDMABA canDmaBase addressMsb.

Definition setPowerDownMode (timeoutLimit : Z) : M unit :=
  reg_or cccr (MASK MCAN_CCCR_CSR) ;;
  acked <- waitForRegisterWithTimeout cccr (MASK MCAN_CCCR_CSA)
             timeoutLimit ;;
  if negb acked
  then returnError Mcan_ErrorCode_ClockStopRequestTimeout
  else ret tt.

Definition setMode (config : Mcan_Config.t) (timeoutLimit : Z) : M unit :=
  (if Mcan_Config.isFdEnabled config
   then reg_or cccr (MASK MCAN_CCCR_FDOE)
   else ret tt) ;;
  match Mcan_Config.mode config with
  | Mcan_Mode_Normal => ret tt
  | Mcan_Mode_AutomaticRetransmissionDisabled =>
      reg_or cccr (MASK MCAN_CCCR_DAR)
  | Mcan_Mode_Restricted => reg_or cccr (MASK MCAN_CCCR_ASM)
  | Mcan_Mode_BusMonitoring => reg_or cccr (MASK MCAN_CCCR_MON)
  | Mcan_Mode_PowerDown => setPowerDownMode timeoutLimit
  | Mcan_Mode_InternalLoopBackTest =>
      reg_or cccr (MASK MCAN_CCCR_TEST) ;;
      reg_or cccr (MASK MCAN_CCCR_MON) ;;
      reg_write test (MASK MCAN_TEST_LBCK)
  | Mcan_Mode_Invalid => returnError Mcan_ErrorCode_ModeInvalid
  end.

Definition setNominalTiming (config : Mcan_Config.t) : M unit :=
  let timing := Mcan_Config.nominalBitTiming config in
  assert (0 <? Mcan_BitTiming.timeSegmentBeforeSamplePoint timing) ;;
  reg_write nbtp
    (Z.lor (Z.lor (Z.lor
       (BIT_FIELD_VALUE MCAN_NBTP_NBRP
          (Mcan_BitTiming.bitRatePrescaler timing))
       (BIT_FIELD_VALUE MCAN_NBTP_NTSEG2
          (Mcan_BitTiming.timeSegmentAfterSamplePoint timing)))
       (BIT_FIELD_VALUE MCAN_NBTP_NTSEG1
          (Mcan_BitTiming.timeSegmentBeforeSamplePoint timing)))
       (BIT_FIELD_VALUE MCAN_NBTP_NSJW
          (Mcan_BitTiming.synchronizationJump timing))).

Definition setDataTiming (config : Mcan_Config.t) : M unit :=
  let timing := Mcan_Config.dataBitTiming config in
  assert (0 <? Mcan_BitTiming.timeSegmentBeforeSamplePoint timing) ;;
  reg_write dbtp
    (Z.lor (Z.lor (Z.lor
       (BIT_FIELD_VALUE MCAN_DBTP_DBRP
          (Mcan_BitTiming.bitRatePrescaler timing))
       (BIT_FIELD_VALUE MCAN_DBTP_DTSEG2
          (Mcan_BitTiming.timeSegmentAfterSamplePoint timing)))
       (BIT_FIELD_VALUE MCAN_DBTP_DTSEG1
          (Mcan_BitTiming.timeSegmentBeforeSamplePoint timing)))
       (BIT_FIELD_VALUE MCAN_DBTP_DSJW
          (Mcan_BitTiming.synchronizationJump timing))).

Definition setTransmitterDelayCompensation
           (config : Mcan_TransmitterDelayCompensation.t) : M unit :=
  changeBitAtOffset dbtp (OFFSET MCAN_DBTP_TDC)
    (Mcan_TransmitterDelayCompensation.isEnabled config) ;;
  reg_write tdcr
    (Z.lor (BIT_FIELD_VALUE MCAN_TDCR_TDCF
              (Mcan_TransmitterDelayCompensation.filter config))
           (BIT_FIELD_VALUE MCAN_TDCR_TDCO
              (Mcan_TransmitterDelayCompensation.offset config))).

Definition setTimestamp (config : Mcan_Config.t) : M unit :=
  reg_write tscc
    (Z.lor (BIT_FIELD_VALUE MCAN_TSCC_TSS (Mcan_Config.timestampClk config))
           (BIT_FIELD_VALUE MCAN_TSCC_TCP
              (Mcan_Config.timestampTimeoutPrescaler config))) ;;
  reg_write tscv 0.

Definition setTimeout (config : Mcan_TimeoutConfig.t) : M unit :=
  if Mcan_TimeoutConfig.isEnabled config
  then reg_write tocc
         (Z.lor (Z.lor (MASK MCAN_TOCC_ETOC)
                       (BIT_FIELD_VALUE MCAN_TOCC_TOS
                          (Mcan_TimeoutConfig.type config)))
                (BIT_FIELD_VALUE MCAN_TOCC_TOP
                   (Mcan_TimeoutConfig.period config)))
  else reg_write tocc 0.

Definition setStandardIdFiltering (config : Mcan_Config.t) : M unit :=
  let f := Mcan_Config.standardIdFilter config in
  if Mcan_IdFilter.isIdRejected f
  then
    reg_or gfc (MASK MCAN_GFC_RRFS) ;;
    reg_write sidfc 0 ;;
    modify_mcan (Mcan.set_rxStdFilter NULL 0)
  else
    reg_or gfc
      (BIT_FIELD_VALUE MCAN_GFC_ANFS (Mcan_IdFilter.nonMatchingPolicy f)) ;;
    let filterListAddress := u32 (Mcan_IdFilter.filterListAddress f) in
    reg_write sidfc
      (Z.lor (Z.land filterListAddress (MASK MCAN_SIDFC_FLSSA))
             (BIT_FIELD_VALUE MCAN_SIDFC_LSS
                (Mcan_IdFilter.filterListSize f))) ;;
    modify_mcan
      (Mcan.set_rxStdFilter (Mcan_IdFilter.filterListAddress f)
                            (Mcan_IdFilter.filterListSize f)).

Definition setExtendedIdFiltering (config : Mcan_Config.t) : M unit :=
  let f := Mcan_Config.extendedIdFilter config in
  if Mcan_IdFilter.isIdRejected f
  then
    reg_or gfc (MASK MCAN_GFC_RRFE) ;;
    reg_write xidfc 0 ;;
    modify_mcan (Mcan.set_rxExtFilter NULL 0)
  else
    reg_or gfc
      (BIT_FIELD_VALUE MCAN_GFC_ANFE (Mcan_IdFilter.nonMatchingPolicy f)) ;;
    let filterListAddress := u32 (Mcan_IdFilter.filterListAddress f) in
    reg_write xidfc
      (Z.lor (Z.land filterListAddress (MASK MCAN_XIDFC_FLESA))
             (BIT_FIELD_VALUE MCAN_XIDFC_LSE
                (Mcan_IdFilter.filterListSize f))) ;;
    modify_mcan
      (Mcan.set_rxExtFilter (Mcan_IdFilter.filterListAddress f)
                            (Mcan_IdFilter.filterListSize f)).

Definition setRxFifo0 (config : Mcan_Config.t) : M unit :=
  let c := Mcan_Config.rxFifo0 config in
  reg_and rxesc (u32 (Z.lnot (MASK MCAN_RXESC_F0DS))) ;;
  if Mcan_RxFifoConfig.isEnabled c
  then
    let startAddress := u32 (Mcan_RxFifoConfig.startAddress c) in
    reg_write rxf0c
      (Z.lor (Z.lor (Z.lor
         (Z.land startAddress (MASK MCAN_RXF0C_F0SA))
         (BIT_FIELD_VALUE MCAN_RXF0C_F0S (Mcan_RxFifoConfig.size c)))
         (BIT_FIELD_VALUE MCAN_RXF0C_F0WM (Mcan_RxFifoConfig.watermark c)))
         (BIT_FIELD_VALUE MCAN_RXF0C_F0OM (Mcan_RxFifoConfig.mode c))) ;;
    reg_or rxesc
      (BIT_FIELD_VALUE MCAN_RXESC_F0DS
         (Mcan_ElementSize_value (Mcan_RxFifoConfig.elementSize c))) ;;
    modify_mcan
      (Mcan.set_rxFifo0
         (Mcan_RxFifo.mk (Mcan_RxFifoConfig.startAddress c)
            (Mcan_RxFifoConfig.size c)
            (decodeRxElementSizeInBytes (Mcan_RxFifoConfig.elementSize c))))
  else
    reg_write rxf0c 0 ;;
    modify_mcan (Mcan.set_rxFifo0 (Mcan_RxFifo.mk NULL 0 0)).

Definition setRxFifo1 (config : Mcan_Config.t) : M unit :=
  let c := Mcan_Config.rxFifo1 config in
  reg_and rxesc (u32 (Z.lnot (MASK MCAN_RXESC_F1DS))) ;;
  if Mcan_RxFifoConfig.isEnabled c
  then
    let startAddress := u32 (Mcan_RxFifoConfig.startAddress c) in
    reg_write rxf1c
      (Z.lor (Z.lor (Z.lor
         (Z.land startAddress (MASK MCAN_RXF1C_F1SA))
         (BIT_FIELD_VALUE MCAN_RXF1C_F1S (Mcan_RxFifoConfig.size c)))
         (BIT_FIELD_VALUE MCAN_RXF1C_F1WM (Mcan_RxFifoConfig.watermark c)))
         (BIT_FIELD_VALUE MCAN_RXF1C_F1OM (Mcan_RxFifoConfig.mode c))) ;;
    reg_or rxesc
      (BIT_FIELD_VALUE MCAN_RXESC_F1DS
         (Mcan_ElementSize_value (Mcan_RxFifoConfig.elementSize c))) ;;
    modify_mcan
      (Mcan.set_rxFifo1
         (Mcan_RxFifo.mk (Mcan_RxFifoConfig.startAddress c)
            (Mcan_RxFifoConfig.size c)
            (decodeRxElementSizeInBytes (Mcan_RxFifoConfig.elementSize c))))
  else
    reg_write rxf1c 0 ;;
    modify_mcan (Mcan.set_rxFifo1 (Mcan_RxFifo.mk NULL 0 0)).

Definition setRxBuffer (config : Mcan_Config.t) : M unit :=
  let c := Mcan_Config.rxBuffer config in
  reg_write rxbc
    (Z.land (u32 (Mcan_RxBufferConfig.startAddress c))
            (MASK MCAN_RXBC_RBSA)) ;;
  SET_FIELD_VALUE MCAN_RXESC_RBDS rxesc
    (Mcan_ElementSize_value (Mcan_RxBufferConfig.elementSize c)) ;;
  modify_mcan
    (Mcan.set_rxBuffer (Mcan_RxBufferConfig.startAddress c)
       (decodeRxElementSizeInBytes (Mcan_RxBufferConfig.elementSize c))).

Definition setTxBuffer (config : Mcan_Config.t) : M bool :=
  let c := Mcan_Config.txBuffer config in
  if Mcan_TxBufferConfig.isEnabled c
  then
    let txElementSize :=
      decodeTxElementSizeInBytes (Mcan_TxBufferConfig.elementSize c) in
    if txElementSize =? MCAN_TXELEMENT_SIZE_INVALID then ret false
    else
      assert (Mcan_TxBufferConfig.bufferSize c
              + Mcan_TxBufferConfig.queueSize c <=? 32) ;;
      let startAddress := u32 (Mcan_TxBufferConfig.startAddress c) in
      reg_write txbc
        (Z.lor (Z.lor (Z.lor
           (Z.land startAddress (MASK MCAN_TXBC_TBSA))
           (BIT_FIELD_VALUE MCAN_TXBC_NDTB
              (Mcan_TxBufferConfig.bufferSize c)))
           (BIT_FIELD_VALUE MCAN_TXBC_TFQS
              (Mcan_TxBufferConfig.queueSize c)))
           (BIT_FIELD_VALUE MCAN_TXBC_TFQM
              (Mcan_TxBufferConfig.queueType c))) ;;
      reg_write txesc
        (BIT_FIELD_VALUE MCAN_TXESC_TBDS
           (Mcan_ElementSize_value (Mcan_TxBufferConfig.elementSize c))) ;;
      modify_mcan
        (Mcan.set_tx
           (Mcan_Tx.mk
              (Mcan_TxBufferConfig.startAddress c)
              (Mcan_TxBufferConfig.bufferSize c)
              (word_ptr (Mcan_TxBufferConfig.startAddress c)
                 (u32 (txElementSize
                       * u32 (Mcan_TxBufferConfig.bufferSize c))
                  / sizeof_uint32_t))
              (Mcan_TxBufferConfig.queueSize c)
              txElementSize)) ;;
      ret true
  else
    reg_write txbc 0 ;;
    reg_write txesc 0 ;;
    modify_mcan (Mcan.set_tx (Mcan_Tx.mk NULL 0 NULL 0 0)) ;;
    ret true.

Definition setTxEventFifo (config : Mcan_Config.t) : M unit :=
  let c := Mcan_Config.txEventFifo config in
  if Mcan_TxEventFifoConfig.isEnabled c
  then
    let startAddress := u32 (Mcan_TxEventFifoConfig.startAddress c) in
    reg_write txefc
      (Z.lor (Z.lor
         (Z.land startAddress (MASK MCAN_TXEFC_EFSA))
         (BIT_FIELD_VALUE MCAN_TXEFC_EFS (Mcan_TxEventFifoConfig.size c)))
         (BIT_FIELD_VALUE MCAN_TXEFC_EFWM
            (Mcan_TxEventFifoConfig.watermark c))) ;;
    modify_mcan
      (Mcan.set_txEventFifo (Mcan_TxEventFifoConfig.startAddress c)
                            (Mcan_TxEventFifoConfig.size c))
  else
    reg_write txefc 0 ;;
    modify_mcan (Mcan.set_txEventFifo NULL 0).

(** [config->interrupts[i]] *)
Definition interrupt_at (config : Mcan_Config.t) (i : Z)
  : Mcan_InterruptConfig.t :=
  nth (Z.to_nat i) (Mcan_Config.interrupts config)
      (Mcan_InterruptConfig.mk false Mcan_InterruptLine_0).

Definition setInterrupts (config : Mcan_Config.t) : M unit :=
  for_each 0 (Z.to_nat Mcan_Interrupt_Count)
    (fun i =>
       if negb (i =? Mcan_Interrupt_Reserved1)
          && negb (i =? Mcan_Interrupt_Reserved2)
       then
         reg_write ir (shiftBitLeft true i) ;;
         changeBitAtOffset ie i
           (Mcan_InterruptConfig.isEnabled (interrupt_at config i)) ;;
         changeBitAtOffset ils i
           (negb (Mcan_InterruptConfig.line (interrupt_at config i)
                  =? Mcan_InterruptLine_0))
       else ret tt) ;;
  reg_write ile
    (Z.lor (BIT_VALUE MCAN_ILE_EINT0
              (Mcan_Config.isLine0InterruptEnabled config))
           (BIT_VALUE MCAN_ILE_EINT1
              (Mcan_Config.isLine1InterruptEnabled config))) ;;
  reg_write txbtie 0 ;;
  reg_write txbcie 0.

Definition Mcan_setConfig (config : Mcan_Config.t) (timeoutLimit : Z)
  : M unit :=
  setMsgRamBaseAddress config ;;
  reg_write cccr (MASK MCAN_CCCR_INIT) ;;
  started <- waitForRegisterWithTimeout cccr (MASK MCAN_CCCR_INIT)
               timeoutLimit ;;
  if negb started
  then returnError Mcan_ErrorCode_InitializationStartTimeout
  else
    reg_or cccr (MASK MCAN_CCCR_CCE) ;;
    reg_write cccr
      (u32 (Z.lor (MASK MCAN_CCCR_CCE) (MASK MCAN_CCCR_INIT))) ;;
    reg_write gfc 0 ;;
    setMode config timeoutLimit ;;
    setNominalTiming config ;;
    (if Mcan_Config.isFdEnabled config
     then
       setDataTiming config ;;
       setTransmitterDelayCompensation
         (Mcan_Config.transmitterDelayCompensation config)
     else ret tt) ;;
    setTimestamp config ;;
    setTimeout (Mcan_Config.timeout config) ;;
    setStandardIdFiltering config ;;
    setExtendedIdFiltering config ;;
    setRxFifo0 config ;;
    setRxFifo1 config ;;
    setRxBuffer config ;;
    txOk <- setTxBuffer config ;;
    if negb txOk
    then returnError Mcan_ErrorCode_ElementSizeInvalid
    else
      setTxEventFifo config ;;
      setInterrupts config ;;
      reg_write rwd
        (BIT_FIELD_VALUE MCAN_RWD_WDC (Mcan_Config.wdtCounter config)) ;;
      reg_write xidam (MASK MCAN_XIDAM_EIDM) ;;
      reg_and cccr (u32 (Z.lnot (MASK MCAN_CCCR_INIT))).

(** ** Mcan.c: the transmit path *)

Definition txAddElement (element : Mcan_TxElement.t) (baseAddress : Z)
           (index : Z) : M bool :=
  let dataLengthCode :=
    u32 (encodeDataLengthCode (Mcan_TxElement.dataSize element)) in
  if dataLengthCode =? MCAN_DLC_INVALID then ret false
  else
    m <- get_mcan ;;
    modify_ram
      (fun r => memset r baseAddress 0
                  (Z.to_nat (Mcan_Tx.elementSize (Mcan.tx m)))) ;;
    ram_or32 baseAddress MCAN_TXELEMENT_ESI_WORD
      (BIT_FIELD_VALUE MCAN_TXELEMENT_ESI (Mcan_TxElement.esiFlag element)) ;;
    ram_or32 baseAddress MCAN_TXELEMENT_XTD_WORD
      (BIT_FIELD_VALUE MCAN_TXELEMENT_XTD (Mcan_TxElement.idType element)) ;;
    ram_or32 baseAddress MCAN_TXELEMENT_RTR_WORD
      (BIT_FIELD_VALUE MCAN_TXELEMENT_RTR
         (Mcan_TxElement.frameType element)) ;;
    ram_or32 baseAddress MCAN_TXELEMENT_MM_WORD
      (BIT_FIELD_VALUE MCAN_TXELEMENT_MM (Mcan_TxElement.marker element)) ;;
    (if Mcan_TxElement.idType element =? Mcan_IdType_Standard
     then ram_or32 baseAddress MCAN_TXELEMENT_STDID_WORD
            (BIT_FIELD_VALUE MCAN_TXELEMENT_STDID (Mcan_TxElement.id element))
     else ram_or32 baseAddress MCAN_TXELEMENT_EXTID_WORD
            (BIT_FIELD_VALUE MCAN_TXELEMENT_EXTID
               (Mcan_TxElement.id element))) ;;
    (if Mcan_TxElement.isTxEventStored element
     then ram_or32 baseAddress MCAN_TXELEMENT_EFC_WORD
            (MASK MCAN_TXELEMENT_EFC)
     else ret tt) ;;
    (if Mcan_TxElement.isCanFdFormatEnabled element
     then ram_or32 baseAddress MCAN_TXELEMENT_FDF_WORD
            (MASK MCAN_TXELEMENT_FDF)
     else ret tt) ;;
    (if Mcan_TxElement.isBitRateSwitchingEnabled element
     then ram_or32 baseAddress MCAN_TXELEMENT_BRS_WORD
            (MASK MCAN_TXELEMENT_BRS)
     else ret tt) ;;
    ram_or32 baseAddress MCAN_TXELEMENT_DLC_WORD
      (BIT_FIELD_VALUE MCAN_TXELEMENT_DLC dataLengthCode) ;;
    let dataPointer := word_ptr baseAddress MCAN_TXELEMENT_DATA_WORD in
    modify_ram
      (fun r => memcpy_from_list r dataPointer (Mcan_TxElement.data element)
                  (Z.to_nat (Mcan_TxElement.dataSize element))) ;;
    changeBitAtOffset txbtie index
      (Mcan_TxElement.isInterruptEnabled element) ;;
    ret true.

Definition Mcan_txBufferAdd (element : Mcan_TxElement.t) (index : Z)
  : M unit :=
  m <- get_mcan ;;
  if Mcan_Tx.bufferSize (Mcan.tx m) <=? index
  then returnError Mcan_ErrorCode_IndexOutOfRange
  else
    let bufferPointer :=
      word_ptr (Mcan_Tx.bufferAddress (Mcan.tx m))
        (u32 (Mcan_Tx.elementSize (Mcan.tx m) * u32 index)
         / sizeof_uint32_t) in
    added <- txAddElement element bufferPointer index ;;
    if negb added
    then returnError Mcan_ErrorCode_ElementSizeInvalid
    else reg_write txbar (u32 (Z.shiftl 1 index)).

(** The out-parameter [*index] is the cell [index_out] of the world. *)
Definition Mcan_txQueuePush (element : Mcan_TxElement.t) : M unit :=
  txfqsVal <- reg_read txfqs ;;
  let full := IS_BIT_SET MCAN_TXFQS_TFQF txfqsVal in
  if full
  then returnError Mcan_ErrorCode_TxFifoFull
  else
    let index := u8 (GET_FIELD_VALUE MCAN_TXFQS_TFQPI txfqsVal) in
    set_index_out index ;;
    m <- get_mcan ;;
    let baseAddr :=
      word_ptr (Mcan_Tx.bufferAddress (Mcan.tx m))
        (u32 (Mcan_Tx.elementSize (Mcan.tx m) * u32 index)
         / sizeof_uint32_t) in
    added <- txAddElement element baseAddr index ;;
    if negb added
    then returnError Mcan_ErrorCode_ElementSizeInvalid
    else reg_write txbar (u32 (Z.shiftl 1 index)).

(** ** Mcan.c: the receive path *)

Definition getRxElement (baseAddr : Z) : M Mcan_RxElement.t :=
  fun w =>
    let word k := load32 (ram w) (word_ptr baseAddr k) in
    let esiFlag :=
      GET_FIELD_VALUE MCAN_RXELEMENT_ESI (word MCAN_RXELEMENT_ESI_WORD) in
    let idType :=
      GET_FIELD_VALUE MCAN_RXELEMENT_XTD (word MCAN_RXELEMENT_XTD_WORD) in
    let frameType :=
      GET_FIELD_VALUE MCAN_RXELEMENT_RTR (word MCAN_RXELEMENT_RTR_WORD) in
    let id :=
      if idType =? Mcan_IdType_Standard
      then GET_FIELD_VALUE MCAN_RXELEMENT_STDID
             (word MCAN_RXELEMENT_STDID_WORD)
      else GET_FIELD_VALUE MCAN_RXELEMENT_EXTID
             (word MCAN_RXELEMENT_EXTID_WORD) in
    let isNonMatchingFrame :=
      negb (GET_FIELD_VALUE MCAN_RXELEMENT_ANMF
              (word MCAN_RXELEMENT_ANMF_WORD) =? 0) in
    let filterIndex :=
      u8 (GET_FIELD_VALUE MCAN_RXELEMENT_FIDX
            (word MCAN_RXELEMENT_FIDX_WORD)) in
    let isCanFdFormatEnabled :=
      IS_BIT_SET MCAN_RXELEMENT_FDF (word MCAN_RXELEMENT_FDF_WORD) in
    let isBitRateSwitchingEnabled :=
      IS_BIT_SET MCAN_RXELEMENT_BRS (word MCAN_RXELEMENT_BRS_WORD) in
    let timestamp :=
      u16 (GET_FIELD_VALUE MCAN_RXELEMENT_RXTS
             (word MCAN_RXELEMENT_RXTS_WORD)) in
    let dataSize :=
      decodeDataLengthCode
        (u8 (GET_FIELD_VALUE MCAN_RXELEMENT_DLC
               (word MCAN_RXELEMENT_DLC_WORD)))
        isCanFdFormatEnabled in
    let dataPointer := word_ptr baseAddr MCAN_RXELEMENT_DATA_WORD in
    (Done
       (Mcan_RxElement.mk esiFlag idType frameType id isNonMatchingFrame
          filterIndex isCanFdFormatEnabled isBitRateSwitchingEnabled
          timestamp (u8 dataSize)
          (memcpy_to_list (ram w) dataPointer (Z.to_nat (u8 dataSize)))),
     w).

Definition Mcan_rxFifoPull (id : Mcan_RxFifoId) : M Mcan_RxElement.t :=
  sel <- match id with
         | Mcan_RxFifoId_0 =>
             rxfs <- reg_read rxf0s ;;
             m <- get_mcan ;;
             ret (rxfs, Mcan_RxFifo.address (Mcan.rxFifo0 m),
                  u32 (Mcan_RxFifo.elementSize (Mcan.rxFifo0 m)), rxf0a)
         | Mcan_RxFifoId_1 =>
             rxfs <- reg_read rxf1s ;;
             m <- get_mcan ;;
             ret (rxfs, Mcan_RxFifo.address (Mcan.rxFifo1 m),
                  u32 (Mcan_RxFifo.elementSize (Mcan.rxFifo1 m)), rxf1a)
         end ;;
  let '(rxfs, fifoAddress, elementSize, ackReg) := sel in
  if fifoAddress =? NULL
  then returnError Mcan_ErrorCode_InvalidRxFifoId
  else
    let count := u8 (GET_FIELD_VALUE MCAN_RXF0S_F0FL rxfs) in
    if count =? 0
    then returnError Mcan_ErrorCode_RxFifoEmpty
    else
      let getIndex := u8 (GET_FIELD_VALUE MCAN_RXF0S_F0GI rxfs) in
      let baseAddress :=
        word_ptr fifoAddress
          (u32 (elementSize * getIndex) / sizeof_uint32_t) in
      element <- getRxElement baseAddress ;;
      reg_write ackReg getIndex ;;
      ret element.

(** ** Mcan.c: interrupt status *)

Definition Mcan_getInterruptStatus : M Mcan_InterruptStatus.t :=
  flags <- reg_read ir ;;
  reg_write ir flags ;;
  let occurred (f : BitField) := negb (Z.land flags (MASK f) =? 0) in
  ret (Mcan_InterruptStatus.mk
         (occurred MCAN_IR_RF0N) (occurred MCAN_IR_RF0W)
         (occurred MCAN_IR_RF0F) (occurred MCAN_IR_RF0L)
         (occurred MCAN_IR_RF1N) (occurred MCAN_IR_RF1W)
         (occurred MCAN_IR_RF1F) (occurred MCAN_IR_RF1L)
         (occurred MCAN_IR_HPM) (occurred MCAN_IR_TC)
         (occurred MCAN_IR_TCF) (occurred MCAN_IR_TFE)
         (occurred MCAN_IR_TEFN) (occurred MCAN_IR_TEFW)
         (occurred MCAN_IR_TEFF) (occurred MCAN_IR_TEFL)
         (occurred MCAN_IR_TSW) (occurred MCAN_IR_MRAF)
         (occurred MCAN_IR_TOO) (occurred MCAN_IR_DRX)
         (occurred MCAN_IR_ELO) (occurred MCAN_IR_EP)
         (occurred MCAN_IR_EW) (occurred MCAN_IR_BO)
         (occurred MCAN_IR_WDI) (occurred MCAN_IR_PEA)
         (occurred MCAN_IR_PED) (occurred MCAN_IR_ARA)).

End Driver.

Arguments World {D}.
Arguments mkWorld {D} hw ram mcan index_out log.
Arguments M {D} A.

Notation "x <- m ;; k" := (bind m (fun x => k))
  (at level 61, m at next level, right associativity).
Notation "m ;; k" := (bind m (fun _ => k))
  (at level 61, right associativity).

(** ** Reading the access log *)

Definition is_write_to (r : Reg) (e : Event) : bool :=
  match e with
  | EvWrite r' _ => Reg_eqb r r'
  | EvRead _ _ => false
  end.

Definition is_read_of (r : Reg) (e : Event) : bool :=
  match e with
  | EvRead r' _ => Reg_eqb r r'
  | EvWrite _ _ => false
  end.

Definition is_write (e : Event) : bool :=
  match e with
  | EvWrite _ _ => true
  | EvRead _ _ => false
  end.

(** The registers that place a region in message RAM: the two filter
    lists, Rx FIFO 0 and 1, the Rx buffer, the Tx buffer and queue, the Tx
    Event FIFO, and the two element size registers. *)
Definition is_region_register (r : Reg) : bool :=
  match r with
  | sidfc | xidfc | rxf0c | rxf1c | rxbc | rxesc | txbc | txesc | txefc =>
      true
  | _ => false
  end.

Definition is_region_write (e : Event) : bool :=
  match e with
  | EvWrite r _ => is_region_register r
  | EvRead _ _ => false
  end.

(** The fill level field of the status register of an Rx FIFO. *)
Definition rxFifoStatusRegister (id : Mcan_RxFifoId) : Reg :=
  match id with
  | Mcan_RxFifoId_0 => rxf0s
  | Mcan_RxFifoId_1 => rxf1s
  end.

Definition rxFifoFillLevel {L : McanRegisters} (id : Mcan_RxFifoId)
           (status : Z) : Z :=
  match id with
  | Mcan_RxFifoId_0 => GET_FIELD_VALUE MCAN_RXF0S_F0FL status
  | Mcan_RxFifoId_1 => GET_FIELD_VALUE MCAN_RXF1S_F1FL status
  end.

Definition rxFifoDescriptor (id : Mcan_RxFifoId) (m : Mcan.t)
  : Mcan_RxFifo.t :=
  match id with
  | Mcan_RxFifoId_0 => Mcan.rxFifo0 m
  | Mcan_RxFifoId_1 => Mcan.rxFifo1 m
  end.

(** The data lengths that have a data length code. *)
Definition dataLengths : list Z :=
  [0; 1; 2; 3; 4; 5; 6; 7; 8; 12; 16; 20; 24; 32; 48; 64].

(** [Mcan_Interrupt]: the position of each interrupt source. *)
Definition Mcan_Interrupt_Rf0n : Z := 0.
Definition Mcan_Interrupt_Rf0w : Z := 1.
Definition Mcan_Interrupt_Rf0f : Z := 2.
Definition Mcan_Interrupt_Rf0l : Z := 3.
Definition Mcan_Interrupt_Rf1n : Z := 4.
Definition Mcan_Interrupt_Rf1w : Z := 5.
Definition Mcan_Interrupt_Rf1f : Z := 6.
Definition Mcan_Interrupt_Rf1l : Z := 7.
Definition Mcan_Interrupt_Hpm : Z := 8.
Definition Mcan_Interrupt_Tc : Z := 9.
Definition Mcan_Interrupt_Tcf : Z := 10.
Definition Mcan_Interrupt_Tfe : Z := 11.
Definition Mcan_Interrupt_Tefn : Z := 12.
Definition Mcan_Interrupt_Tefw : Z := 13.
Definition Mcan_Interrupt_Teff : Z := 14.
Definition Mcan_Interrupt_Tefl : Z := 15.
Definition Mcan_Interrupt_Tsw : Z := 16.
Definition Mcan_Interrupt_Mraf : Z := 17.
Definition Mcan_Interrupt_Too : Z := 18.
Definition Mcan_Interrupt_Drx : Z := 19.
Definition Mcan_Interrupt_Elo : Z := 22.
Definition Mcan_Interrupt_Ep : Z := 23.
Definition Mcan_Interrupt_Ew : Z := 24.
Definition Mcan_Interrupt_Bo : Z := 25.
Definition Mcan_Interrupt_Wdi : Z := 26.
Definition Mcan_Interrupt_Pea : Z := 27.
Definition Mcan_Interrupt_Ped : Z := 28.
Definition Mcan_Interrupt_Ara : Z := 29.

(** Each field of [Mcan_InterruptStatus] with the IR mask the driver tests
    for it and the interrupt source it reports. *)
Definition interruptStatusTable {L : McanRegisters}
  : list ((Mcan_InterruptStatus.t -> bool) * BitField * Z) :=
  [ (Mcan_InterruptStatus.hasRf0nOccurred, MCAN_IR_RF0N, Mcan_Interrupt_Rf0n);
    (Mcan_InterruptStatus.hasRf0wOccurred, MCAN_IR_RF0W, Mcan_Interrupt_Rf0w);
    (Mcan_InterruptStatus.hasRf0fOccurred, MCAN_IR_RF0F, Mcan_Interrupt_Rf0f);
    (Mcan_InterruptStatus.hasRf0lOccurred, MCAN_IR_RF0L, Mcan_Interrupt_Rf0l);
    (Mcan_InterruptStatus.hasRf1nOccurred, MCAN_IR_RF1N, Mcan_Interrupt_Rf1n);
    (Mcan_InterruptStatus.hasRf1wOccurred, MCAN_IR_RF1W, Mcan_Interrupt_Rf1w);
    (Mcan_InterruptStatus.hasRf1fOccurred, MCAN_IR_RF1F, Mcan_Interrupt_Rf1f);
    (Mcan_InterruptStatus.hasRf1lOccurred, MCAN_IR_RF1L, Mcan_Interrupt_Rf1l);
    (Mcan_InterruptStatus.hasHpmOccurred, MCAN_IR_HPM, Mcan_Interrupt_Hpm);
    (Mcan_InterruptStatus.hasTcOccurred, MCAN_IR_TC, Mcan_Interrupt_Tc);
    (Mcan_InterruptStatus.hasTcfOccurred, MCAN_IR_TCF, Mcan_Interrupt_Tcf);
    (Mcan_InterruptStatus.hasTfeOccurred, MCAN_IR_TFE, Mcan_Interrupt_Tfe);
    (Mcan_InterruptStatus.hasTefnOccurred, MCAN_IR_TEFN, Mcan_Interrupt_Tefn);
    (Mcan_InterruptStatus.hasTefwOccurred, MCAN_IR_TEFW, Mcan_Interrupt_Tefw);
    (Mcan_InterruptStatus.hasTeffOccurred, MCAN_IR_TEFF, Mcan_Interrupt_Teff);
    (Mcan_InterruptStatus.hasTeflOccurred, MCAN_IR_TEFL, Mcan_Interrupt_Tefl);
    (Mcan_InterruptStatus.hasTswOccurred, MCAN_IR_TSW, Mcan_Interrupt_Tsw);
    (Mcan_InterruptStatus.hasMrafOccurred, MCAN_IR_MRAF, Mcan_Interrupt_Mraf);
    (Mcan_InterruptStatus.hasTooOccurred, MCAN_IR_TOO, Mcan_Interrupt_Too);
    (Mcan_InterruptStatus.hasDrxOccurred, MCAN_IR_DRX, Mcan_Interrupt_Drx);
    (Mcan_InterruptStatus.hasEloOccurred, MCAN_IR_ELO, Mcan_Interrupt_Elo);
    (Mcan_InterruptStatus.hasEpOccurred, MCAN_IR_EP, Mcan_Interrupt_Ep);
    (Mcan_InterruptStatus.hasEwOccurred, MCAN_IR_EW, Mcan_Interrupt_Ew);
    (Mcan_InterruptStatus.hasBoOccurred, MCAN_IR_BO, Mcan_Interrupt_Bo);
    (Mcan_InterruptStatus.hasWdiOccurred, MCAN_IR_WDI, Mcan_Interrupt_Wdi);
    (Mcan_InterruptStatus.hasPeaOccurred, MCAN_IR_PEA, Mcan_Interrupt_Pea);
    (Mcan_InterruptStatus.hasPedOccurred, MCAN_IR_PED, Mcan_Interrupt_Ped);
    (Mcan_InterruptStatus.hasAraOccurred, MCAN_IR_ARA, Mcan_Interrupt_Ara) ].

(** The IR masks are single bits placed as [setInterrupts] addresses them:
    the mask of a source is bit [i] for source number [i] of
    [Mcan_Interrupt]. *)
Definition irMasksFollowInterrupts {L : McanRegisters} : bool :=
  forallb (fun e => MASK (snd (fst e)) =? Z.shiftl 1 (snd e))
          interruptStatusTable.

(** ** A register layout and two devices to run the driver on

    [mcan_layout] places the fields as the M_CAN register map does; the
    theorems below hold for every layout, this one serves to evaluate the
    driver on concrete inputs. *)

Definition bits (lo width : Z) : BitField :=
  mkBitField lo (Z.shiftl (2 ^ width - 1) lo).

Definition mcan_layout : McanRegisters := {|
  MCAN_CHIPCFG_CANXDMABA := bits 16 16;
  MCAN_CCCR_INIT := bits 0 1;
  MCAN_CCCR_CCE := bits 1 1;
  MCAN_CCCR_ASM := bits 2 1;
  MCAN_CCCR_CSA := bits 3 1;
  MCAN_CCCR_CSR := bits 4 1;
  MCAN_CCCR_MON := bits 5 1;
  MCAN_CCCR_DAR := bits 6 1;
  MCAN_CCCR_TEST := bits 7 1;
  MCAN_CCCR_FDOE := bits 8 1;
  MCAN_TEST_LBCK := bits 4 1;
  MCAN_NBTP_NBRP := bits 16 9;
  MCAN_NBTP_NTSEG2 := bits 0 7;
  MCAN_NBTP_NTSEG1 := bits 8 8;
  MCAN_NBTP_NSJW := bits 25 7;
  MCAN_DBTP_DBRP := bits 16 5;
  MCAN_DBTP_DTSEG2 := bits 4 4;
  MCAN_DBTP_DTSEG1 := bits 8 5;
  MCAN_DBTP_DSJW := bits 0 4;
  MCAN_DBTP_TDC := bits 23 1;
  MCAN_TDCR_TDCF := bits 0 7;
  MCAN_TDCR_TDCO := bits 8 7;
  MCAN_TSCC_TSS := bits 0 2;
  MCAN_TSCC_TCP := bits 16 4;
  MCAN_TOCC_ETOC := bits 0 1;
  MCAN_TOCC_TOS := bits 1 2;
  MCAN_TOCC_TOP := bits 16 16;
  MCAN_GFC_RRFS := bits 1 1;
  MCAN_GFC_RRFE := bits 0 1;
  MCAN_GFC_ANFS := bits 4 2;
  MCAN_GFC_ANFE := bits 2 2;
  MCAN_SIDFC_FLSSA := bits 2 14;
  MCAN_SIDFC_LSS := bits 16 8;
  MCAN_XIDFC_FLESA := bits 2 14;
  MCAN_XIDFC_LSE := bits 16 7;
  MCAN_XIDAM_EIDM := bits 0 29;
  MCAN_RXESC_F0DS := bits 0 3;
  MCAN_RXESC_F1DS := bits 4 3;
  MCAN_RXESC_RBDS := bits 8 3;
  MCAN_RXF0C_F0SA := bits 2 14;
  MCAN_RXF0C_F0S := bits 16 7;
  MCAN_RXF0C_F0WM := bits 24 7;
  MCAN_RXF0C_F0OM := bits 31 1;
  MCAN_RXF1C_F1SA := bits 2 14;
  MCAN_RXF1C_F1S := bits 16 7;
  MCAN_RXF1C_F1WM := bits 24 7;
  MCAN_RXF1C_F1OM := bits 31 1;
  MCAN_RXBC_RBSA := bits 2 14;
  MCAN_RXF0S_F0FL := bits 0 7;
  MCAN_RXF0S_F0GI := bits 8 6;
  MCAN_RXF1S_F1FL := bits 0 7;
  MCAN_TXBC_TBSA := bits 2 14;
  MCAN_TXBC_NDTB := bits 16 6;
  MCAN_TXBC_TFQS := bits 24 6;
  MCAN_TXBC_TFQM := bits 30 1;
  MCAN_TXESC_TBDS := bits 0 3;
  MCAN_TXEFC_EFSA := bits 2 14;
  MCAN_TXEFC_EFS := bits 16 6;
  MCAN_TXEFC_EFWM := bits 24 6;
  MCAN_TXFQS_TFQF := bits 21 1;
  MCAN_TXFQS_TFQPI := bits 16 5;
  MCAN_ILE_EINT0 := bits 0 1;
  MCAN_ILE_EINT1 := bits 1 1;
  MCAN_RWD_WDC := bits 0 8;
  MCAN_IR_RF0N := bits 0 1;
  MCAN_IR_RF0W := bits 1 1;
  MCAN_IR_RF0F := bits 2 1;
  MCAN_IR_RF0L := bits 3 1;
  MCAN_IR_RF1N := bits 4 1;
  MCAN_IR_RF1W := bits 5 1;
  MCAN_IR_RF1F := bits 6 1;
  MCAN_IR_RF1L := bits 7 1;
  MCAN_IR_HPM := bits 8 1;
  MCAN_IR_TC := bits 9 1;
  MCAN_IR_TCF := bits 10 1;
  MCAN_IR_TFE := bits 11 1;
  MCAN_IR_TEFN := bits 12 1;
  MCAN_IR_TEFW := bits 13 1;
  MCAN_IR_TEFF := bits 14 1;
  MCAN_IR_TEFL := bits 15 1;
  MCAN_IR_TSW := bits 16 1;
  MCAN_IR_MRAF := bits 17 1;
  MCAN_IR_TOO := bits 18 1;
  MCAN_IR_DRX := bits 19 1;
  MCAN_IR_ELO := bits 22 1;
  MCAN_IR_EP := bits 23 1;
  MCAN_IR_EW := bits 24 1;
  MCAN_IR_BO := bits 25 1;
  MCAN_IR_WDI := bits 26 1;
  MCAN_IR_PEA := bits 27 1;
  MCAN_IR_PED := bits 28 1;
  MCAN_IR_ARA := bits 29 1;
  MCAN_TXELEMENT_ESI := bits 31 1;
  MCAN_TXELEMENT_ESI_WORD := 0;
  MCAN_TXELEMENT_XTD := bits 30 1;
  MCAN_TXELEMENT_XTD_WORD := 0;
  MCAN_TXELEMENT_RTR := bits 29 1;
  MCAN_TXELEMENT_RTR_WORD := 0;
  MCAN_TXELEMENT_MM := bits 24 8;
  MCAN_TXELEMENT_MM_WORD := 1;
  MCAN_TXELEMENT_STDID := bits 18 11;
  MCAN_TXELEMENT_STDID_WORD := 0;
  MCAN_TXELEMENT_EXTID := bits 0 29;
  MCAN_TXELEMENT_EXTID_WORD := 0;
  MCAN_TXELEMENT_EFC := bits 23 1;
  MCAN_TXELEMENT_EFC_WORD := 1;
  MCAN_TXELEMENT_FDF := bits 21 1;
  MCAN_TXELEMENT_FDF_WORD := 1;
  MCAN_TXELEMENT_BRS := bits 20 1;
  MCAN_TXELEMENT_BRS_WORD := 1;
  MCAN_TXELEMENT_DLC := bits 16 4;
  MCAN_TXELEMENT_DLC_WORD := 1;
  MCAN_TXELEMENT_DATA_WORD := 2;
  MCAN_TXELEMENT_SIZE_INVALID := 255;
  MCAN_DLC_INVALID := 247;
  MCAN_RXELEMENT_ESI := bits 31 1;
  MCAN_RXELEMENT_ESI_WORD := 0;
  MCAN_RXELEMENT_XTD := bits 30 1;
  MCAN_RXELEMENT_XTD_WORD := 0;
  MCAN_RXELEMENT_RTR := bits 29 1;
  MCAN_RXELEMENT_RTR_WORD := 0;
  MCAN_RXELEMENT_STDID := bits 18 11;
  MCAN_RXELEMENT_STDID_WORD := 0;
  MCAN_RXELEMENT_EXTID := bits 0 29;
  MCAN_RXELEMENT_EXTID_WORD := 0;
  MCAN_RXELEMENT_ANMF := bits 31 1;
  MCAN_RXELEMENT_ANMF_WORD := 1;
  MCAN_RXELEMENT_FIDX := bits 24 7;
  MCAN_RXELEMENT_FIDX_WORD := 1;
  MCAN_RXELEMENT_FDF := bits 21 1;
  MCAN_RXELEMENT_FDF_WORD := 1;
  MCAN_RXELEMENT_BRS := bits 20 1;
  MCAN_RXELEMENT_BRS_WORD := 1;
  MCAN_RXELEMENT_RXTS := bits 0 16;
  MCAN_RXELEMENT_RXTS_WORD := 1;
  MCAN_RXELEMENT_DLC := bits 16 4;
  MCAN_RXELEMENT_DLC_WORD := 1;
  MCAN_RXELEMENT_DATA_WORD := 2
|}.

(** A register file: a read returns the value written last (0 before any
    write); the state is the list of writes, newest first. *)
Fixpoint regfile_lookup (r : Reg) (s : list (Reg * Z)) : Z :=
  match s with
  | [] => 0
  | (r', v) :: s' => if Reg_eqb r r' then v else regfile_lookup r s'
  end.

Definition regfile : Device := {|
  dev_state := list (Reg * Z);
  dev_read := fun r s => (regfile_lookup r s, s);
  dev_write := fun r v s => (r, v) :: s
|}.

(** A device that ignores writes and answers every read with 0: its
    control register never shows the initialization bit. *)
Definition silent : Device := {|
  dev_state := unit;
  dev_read := fun _ s => (0, s);
  dev_write := fun _ _ s => s
|}.

Definition empty_ram : Ram := fun _ => 0.

Definition blank_mcan : Mcan.t :=
  Mcan.mk 0 (Mcan_Tx.mk NULL 0 NULL 0 0) NULL 0
          (Mcan_RxFifo.mk NULL 0 0) (Mcan_RxFifo.mk NULL 0 0)
          NULL 0 NULL 0 NULL 0.

(** A descriptor as a successful configuration leaves it: four dedicated
    Tx buffers and four queue slots of 16 bytes at 0x20400400, Rx FIFO 0
    and 1 of eight elements each. *)
Definition sample_mcan : Mcan.t :=
  Mcan.mk 541065216
          (Mcan_Tx.mk 541066240 4 541066304 4 16)
          541066496 16
          (Mcan_RxFifo.mk 541066752 8 16) (Mcan_RxFifo.mk 541067008 8 16)
          541067264 4 541067520 4 541067776 4.

Definition regfile_world (regs : list (Reg * Z)) (m : Mcan.t)
  : World (D := regfile) :=
  mkWorld (D := regfile) regs empty_ram m 0 [].

Definition silent_world (m : Mcan.t) : World (D := silent) :=
  mkWorld (D := silent) tt empty_ram m 0 [].

Definition sample_timing : Mcan_BitTiming.t := Mcan_BitTiming.mk 0 3 3 10.

Definition sample_txBuffer (enabled : bool) (bufferSize queueSize : Z)
  : Mcan_TxBufferConfig.t :=
  Mcan_TxBufferConfig.mk enabled 541066240 bufferSize queueSize 0
                         Mcan_ElementSize_8.

Definition sample_config (tx : Mcan_TxBufferConfig.t) : Mcan_Config.t :=
  Mcan_Config.mk 541065216 Mcan_Mode_Normal false
    sample_timing sample_timing
    (Mcan_TransmitterDelayCompensation.mk false 0 0)
    0 0
    (Mcan_TimeoutConfig.mk false 0 0)
    (Mcan_IdFilter.mk true 2 NULL 0)
    (Mcan_IdFilter.mk true 2 NULL 0)
    (Mcan_RxFifoConfig.mk true 541066752 8 0 0 Mcan_ElementSize_8)
    (Mcan_RxFifoConfig.mk false NULL 0 0 0 Mcan_ElementSize_8)
    (Mcan_RxBufferConfig.mk 541066496 Mcan_ElementSize_8)
    tx
    (Mcan_TxEventFifoConfig.mk false NULL 0 0)
    (repeat (Mcan_InterruptConfig.mk false Mcan_InterruptLine_0) 30)
    false false 0.

Definition sample_element (dataSize : Z) : Mcan_TxElement.t :=
  Mcan_TxElement.mk 0 Mcan_IdType_Standard 0 291 0 false false false
                    dataSize [1; 2; 3; 4; 5; 6; 7; 8; 9; 10] false.

(** ** Frame conditions on driver calls *)

(** [keeps R m]: whatever [m] does, the world it leaves is related to the
    world it started from by [R]. *)
Definition keeps {D : Device} {A : Type}
           (R : World -> World -> Prop) (m : M A) : Prop :=
  forall w, R w (snd (m w)).

(** [m] never returns normally. *)
Definition never_returns {D : Device} {A : Type} (m : M A) : Prop :=
  forall w a, fst (m w) <> Done a.

(** The Tx descriptor of [*mcan] is the same in both worlds. *)
Definition same_tx {D : Device} (w w' : World) : Prop :=
  Mcan.tx (mcan w') = Mcan.tx (mcan w).

(** Writes to the Tx buffer configuration registers. *)
Definition is_tx_config_write (e : Event) : bool :=
  is_write_to txbc e || is_write_to txesc e.

Definition same_tx_config_writes {D : Device} (w w' : World) : Prop :=
  filter is_tx_config_write (log w') = filter is_tx_config_write (log w).

(** Neither the Tx descriptor nor the Tx buffer configuration registers
    have been written between the two worlds. *)
Definition tx_config_kept {D : Device} (w w' : World) : Prop :=
  same_tx w w' /\ same_tx_config_writes w w'.

(** * More of the driver

    The rest of [Utils/Utils.h] and of [Mcan.c] that works on the registers
    above: the remaining wait loop, the BCD helpers, [Mcan_init], the read
    back of the configuration, the status queries, the dedicated Rx buffer
    and the filter lists. *)

(** ** Utils/Utils.h *)

Definition uint8ToBcd (x : Z) : Z :=
  u8 (Z.lor (u8 (u32 (x mod 10)))
            (u8 (Z.land (u32 (Z.shiftl (u32 (x / 10)) 4)) 240))).

Definition bcdToUint8 (bcd : Z) : Z :=
  u8 (u8 (Z.land bcd 15)
      + u8 (u32 (Z.shiftr (Z.land bcd 240) 4 * 10))).

(** The constants of [McanRegisters.h] that the functions below name and
    the ones above do not: again parameters. *)
Class McanStatusRegisters : Type := {
  MCAN_RXF0S_F0F : BitField;
  MCAN_RXF0S_RF0L : BitField;
  MCAN_RXF1S_F1F : BitField;
  MCAN_RXF1S_RF1L : BitField;
  MCAN_TXFQS_TFFL : BitField;
  MCAN_STDRXFILTERELEMENT_SIZE : Z;
  MCAN_STDRXFILTERELEMENT_SFT : BitField;
  MCAN_STDRXFILTERELEMENT_SFEC : BitField;
  MCAN_STDRXFILTERELEMENT_SFID1 : BitField;
  MCAN_STDRXFILTERELEMENT_SFID2 : BitField;
  MCAN_EXTRXFILTERELEMENT_SIZE : Z;
  MCAN_EXTRXFILTERELEMENT_EFT : BitField;
  MCAN_EXTRXFILTERELEMENT_EFT_WORD : Z;
  MCAN_EXTRXFILTERELEMENT_EFEC : BitField;
  MCAN_EXTRXFILTERELEMENT_EFEC_WORD : Z;
  MCAN_EXTRXFILTERELEMENT_EFID1 : BitField;
  MCAN_EXTRXFILTERELEMENT_EFID1_WORD : Z;
  MCAN_EXTRXFILTERELEMENT_EFID2 : BitField;
  MCAN_EXTRXFILTERELEMENT_EFID2_WORD : Z
}.

Module Mcan_RxFifoStatus.
Record t : Type := mk {
  count : Z;
  isFull : bool;
  isMessageLost : bool }.
End Mcan_RxFifoStatus.

Module Mcan_RxFilterElement.
Record t : Type := mk {
  type : Z;
  config : Z;
  id1 : Z;
  id2 : Z }.
End Mcan_RxFilterElement.

Section DriverMore.

Context {L : McanRegisters} {LS : McanStatusRegisters} {D : Device}.

(** The loop of [waitForRegisterClearWithTimeout], with [n] iterations
    left. *)
Fixpoint waitForRegisterClear_loop (address : Reg) (mask : Z) (n : nat)
  : M bool :=
  match n with
  | O => ret false
  | S n' =>
      v <- reg_read address ;;
      if Z.land v mask =? 0 then ret true
      else waitForRegisterClear_loop address mask n'
  end.

Definition waitForRegisterClearWithTimeout (address : Reg)
           (mask timeout : Z) : M bool :=
  waitForRegisterClear_loop address mask (Z.to_nat (u32 timeout)).

(** ** Mcan.c: initialization of the descriptor *)

(** [memset(mcan, 0, sizeof(Mcan)); mcan->reg = regs;] *)
Definition Mcan_init : M unit :=
  modify_mcan
    (fun _ => Mcan.mk 0 (Mcan_Tx.mk 0 0 0 0 0) 0 0
                (Mcan_RxFifo.mk 0 0 0) (Mcan_RxFifo.mk 0 0 0)
                0 0 0 0 0 0).

(** ** Mcan.c: reading the configuration back

    Each [getX] fills a part of the caller's [Mcan_Config]; here it returns
    that part. *)

Definition getMsgRamBaseAddress : M Z :=
  m <- get_mcan ;; ret (Mcan.msgRamBaseAddress m).

(** [config->isFdEnabled] and [config->mode]. *)
Definition getMode : M (bool * Mcan_Mode) :=
  cccrVal <- reg_read cccr ;;
  let isFdEnabled := IS_BIT_SET MCAN_CCCR_FDOE cccrVal in
  if IS_BIT_SET MCAN_CCCR_INIT cccrVal
  then
    if IS_BIT_SET MCAN_CCCR_CSR cccrVal && IS_BIT_SET MCAN_CCCR_CSA cccrVal
    then ret (isFdEnabled, Mcan_Mode_PowerDown)
    else ret (isFdEnabled, Mcan_Mode_Invalid)
  else
    if IS_BIT_SET MCAN_CCCR_CSR cccrVal || IS_BIT_SET MCAN_CCCR_CSA cccrVal
    then ret (isFdEnabled, Mcan_Mode_Invalid)
    else if IS_BIT_SET MCAN_CCCR_TEST cccrVal
            && IS_BIT_SET MCAN_CCCR_MON cccrVal
    then
      testVal <- reg_read test ;;
      if IS_BIT_SET MCAN_TEST_LBCK testVal
      then ret (isFdEnabled, Mcan_Mode_InternalLoopBackTest)
      else ret (isFdEnabled, Mcan_Mode_Invalid)
    else if IS_BIT_SET MCAN_CCCR_MON cccrVal
    then ret (isFdEnabled, Mcan_Mode_BusMonitoring)
    else if IS_BIT_SET MCAN_CCCR_TEST cccrVal
    then ret (isFdEnabled, Mcan_Mode_Invalid)
    else if IS_BIT_SET MCAN_CCCR_ASM cccrVal
    then ret (isFdEnabled, Mcan_Mode_Restricted)
    else if IS_BIT_SET MCAN_CCCR_DAR cccrVal
    then ret (isFdEnabled, Mcan_Mode_AutomaticRetransmissionDisabled)
    else ret (isFdEnabled, Mcan_Mode_Normal).

Definition getNominalTiming : M Mcan_BitTiming.t :=
  nbtpVal <- reg_read nbtp ;;
  ret (Mcan_BitTiming.mk
         (u16 (GET_FIELD_VALUE MCAN_NBTP_NBRP nbtpVal))
         (u8 (GET_FIELD_VALUE MCAN_NBTP_NSJW nbtpVal))
         (u8 (GET_FIELD_VALUE MCAN_NBTP_NTSEG2 nbtpVal))
         (u8 (GET_FIELD_VALUE MCAN_NBTP_NTSEG1 nbtpVal))).

Definition getDataTiming : M Mcan_BitTiming.t :=
  dbtpVal <- reg_read dbtp ;;
  ret (Mcan_BitTiming.mk
         (u16 (GET_FIELD_VALUE MCAN_DBTP_DBRP dbtpVal))
         (u8 (GET_FIELD_VALUE MCAN_DBTP_DSJW dbtpVal))
         (u8 (GET_FIELD_VALUE MCAN_DBTP_DTSEG2 dbtpVal))
         (u8 (GET_FIELD_VALUE MCAN_DBTP_DTSEG1 dbtpVal))).

Definition getTransmitterDelayCompensation
  : M Mcan_TransmitterDelayCompensation.t :=
  dbtpVal <- reg_read dbtp ;;
  tdcrVal <- reg_read tdcr ;;
  ret (Mcan_TransmitterDelayCompensation.mk
         (IS_BIT_SET MCAN_DBTP_TDC dbtpVal)
         (u8 (GET_FIELD_VALUE MCAN_TDCR_TDCF tdcrVal))
         (u8 (GET_FIELD_VALUE MCAN_TDCR_TDCO tdcrVal))).

(** [config->timestampClk] and [config->timestampTimeoutPrescaler]. *)
Definition getTimestamp : M (Z * Z) :=
  tsccVal <- reg_read tscc ;;
  ret (GET_FIELD_VALUE MCAN_TSCC_TSS tsccVal,
       u8 (GET_FIELD_VALUE MCAN_TSCC_TCP tsccVal)).

Definition getTimeout : M Mcan_TimeoutConfig.t :=
  toccVal <- reg_read tocc ;;
  ret (Mcan_TimeoutConfig.mk
         (IS_BIT_SET MCAN_TOCC_ETOC toccVal)
         (GET_FIELD_VALUE MCAN_TOCC_TOS toccVal)
         (u16 (GET_FIELD_VALUE MCAN_TOCC_TOP toccVal))).

Definition getStandardIdFiltering : M Mcan_IdFilter.t :=
  gfcVal <- reg_read gfc ;;
  m <- get_mcan ;;
  ret (Mcan_IdFilter.mk
         (IS_BIT_SET MCAN_GFC_RRFS gfcVal)
         (GET_FIELD_VALUE MCAN_GFC_ANFS gfcVal)
         (Mcan.rxStdFilterAddress m)
         (Mcan.rxStdFilterSize m)).

Definition getExtendedIdFiltering : M Mcan_IdFilter.t :=
  gfcVal <- reg_read gfc ;;
  m <- get_mcan ;;
  ret (Mcan_IdFilter.mk
         (IS_BIT_SET MCAN_GFC_RRFE gfcVal)
         (GET_FIELD_VALUE MCAN_GFC_ANFE gfcVal)
         (Mcan.rxExtFilterAddress m)
         (Mcan.rxExtFilterSize m)).

Definition getRxFifo0 : M Mcan_RxFifoConfig.t :=
  rxf0cVal <- reg_read rxf0c ;;
  m <- get_mcan ;;
  ret (Mcan_RxFifoConfig.mk
         (negb (rxf0cVal =? 0))
         (Mcan_RxFifo.address (Mcan.rxFifo0 m))
         (Mcan_RxFifo.size (Mcan.rxFifo0 m))
         (u8 (GET_FIELD_VALUE MCAN_RXF0C_F0WM rxf0cVal))
         (GET_FIELD_VALUE MCAN_RXF0C_F0OM rxf0cVal)
         (encodeRxElementSizeInBytes
            (Mcan_RxFifo.elementSize (Mcan.rxFifo0 m)))).

Definition getRxFifo1 : M Mcan_RxFifoConfig.t :=
  rxf1cVal <- reg_read rxf1c ;;
  m <- get_mcan ;;
  ret (Mcan_RxFifoConfig.mk
         (negb (rxf1cVal =? 0))
         (Mcan_RxFifo.address (Mcan.rxFifo1 m))
         (Mcan_RxFifo.size (Mcan.rxFifo1 m))
         (u8 (Z.shiftr (Z.land rxf1cVal (MASK MCAN_RXF1C_F1WM))
                       (OFFSET MCAN_RXF1C_F1WM)))
         (Z.shiftr (Z.land rxf1cVal (MASK MCAN_RXF1C_F1OM))
                   (OFFSET MCAN_RXF1C_F1OM))
         (encodeRxElementSizeInBytes
            (Mcan_RxFifo.elementSize (Mcan.rxFifo1 m)))).

Definition getRxBuffer : M Mcan_RxBufferConfig.t :=
  m <- get_mcan ;;
  ret (Mcan_RxBufferConfig.mk
         (Mcan.rxBufferAddress m)
         (encodeRxElementSizeInBytes (Mcan.rxBufferElementSize m))).

Definition getTxBuffer : M Mcan_TxBufferConfig.t :=
  txbcVal <- reg_read txbc ;;
  m <- get_mcan ;;
  ret (Mcan_TxBufferConfig.mk
         (negb (txbcVal =? 0))
         (Mcan_Tx.bufferAddress (Mcan.tx m))
         (Mcan_Tx.bufferSize (Mcan.tx m))
         (Mcan_Tx.queueSize (Mcan.tx m))
         (GET_FIELD_VALUE MCAN_TXBC_TFQM txbcVal)
         (encodeTxElementSizeInBytes (Mcan_Tx.elementSize (Mcan.tx m)))).

Definition getTxEventFifo : M Mcan_TxEventFifoConfig.t :=
  txefcVal <- reg_read txefc ;;
  m <- get_mcan ;;
  ret (Mcan_TxEventFifoConfig.mk
         (negb (txefcVal =? 0))
         (Mcan.txEventFifoAddress m)
         (Mcan.txEventFifoSize m)
         (u8 (GET_FIELD_VALUE MCAN_TXEFC_EFWM txefcVal))).

(** One turn of the loop of [getInterrupts]: entry [i] of
    [config->interrupts], given what the caller's array holds there.  For a
    reserved index only [isEnabled] is assigned. *)
Definition getInterrupts_entry (ieVal ilsVal : Z)
           (old : Mcan_InterruptConfig.t) (i : Z) : Mcan_InterruptConfig.t :=
  if negb (i =? Mcan_Interrupt_Reserved1)
     && negb (i =? Mcan_Interrupt_Reserved2)
  then Mcan_InterruptConfig.mk
         (isBitSet ieVal i)
         (if isBitSet ilsVal i
          then Mcan_InterruptLine_1 else Mcan_InterruptLine_0)
  else Mcan_InterruptConfig.mk false (Mcan_InterruptConfig.line old).

Fixpoint getInterrupts_loop (ieVal ilsVal : Z)
         (old : list Mcan_InterruptConfig.t) (i : Z) (n : nat)
  : list Mcan_InterruptConfig.t :=
  match n with
  | O => []
  | S n' =>
      getInterrupts_entry ieVal ilsVal
        (nth (Z.to_nat i) old
             (Mcan_InterruptConfig.mk false Mcan_InterruptLine_0)) i
      :: getInterrupts_loop ieVal ilsVal old (i + 1) n'
  end.

(** [config->interrupts], [config->isLine0InterruptEnabled] and
    [config->isLine1InterruptEnabled]. *)
Definition getInterrupts (old : list Mcan_InterruptConfig.t)
  : M (list Mcan_InterruptConfig.t * bool * bool) :=
  ieVal <- reg_read ie ;;
  ileVal <- reg_read ile ;;
  ilsVal <- reg_read ils ;;
  ret (getInterrupts_loop ieVal ilsVal old 0
         (Z.to_nat Mcan_Interrupt_Count),
       IS_BIT_SET MCAN_ILE_EINT0 ileVal,
       IS_BIT_SET MCAN_ILE_EINT1 ileVal).

(** [config] is the caller's structure as it is before the call; every
    member is assigned, except [line] of the two reserved interrupts. *)
Definition Mcan_getConfig (config : Mcan_Config.t) : M Mcan_Config.t :=
  msgRamBaseAddress <- getMsgRamBaseAddress ;;
  fdMode <- getMode ;;
  nominalBitTiming <- getNominalTiming ;;
  dataBitTiming <- getDataTiming ;;
  transmitterDelayCompensation <- getTransmitterDelayCompensation ;;
  timestamp <- getTimestamp ;;
  timeout <- getTimeout ;;
  standardIdFilter <- getStandardIdFiltering ;;
  extendedIdFilter <- getExtendedIdFiltering ;;
  rxFifo0 <- getRxFifo0 ;;
  rxFifo1 <- getRxFifo1 ;;
  rxBuffer <- getRxBuffer ;;
  txBuffer <- getTxBuffer ;;
  txEventFifo <- getTxEventFifo ;;
  irq <- getInterrupts (Mcan_Config.interrupts config) ;;
  rwdVal <- reg_read rwd ;;
  ret (Mcan_Config.mk
         msgRamBaseAddress (snd fdMode) (fst fdMode)
         nominalBitTiming dataBitTiming transmitterDelayCompensation
         (fst timestamp) (snd timestamp) timeout
         standardIdFilter extendedIdFilter
         rxFifo0 rxFifo1 rxBuffer txBuffer txEventFifo
         (fst (fst irq)) (snd (fst irq)) (snd irq)
         (u8 (GET_FIELD_VALUE MCAN_RWD_WDC rwdVal))).

(** ** Mcan.c: the dedicated Rx buffer and the status queries *)

Definition Mcan_rxBufferGet (index : Z) : M Mcan_RxElement.t :=
  m <- get_mcan ;;
  let bufferPointer :=
    word_ptr (Mcan.rxBufferAddress m)
      (u32 (Mcan.rxBufferElementSize m * u32 index) / sizeof_uint32_t) in
  getRxElement bufferPointer.

Definition Mcan_getRxFifoStatus (id : Mcan_RxFifoId)
  : M Mcan_RxFifoStatus.t :=
  match id with
  | Mcan_RxFifoId_0 =>
      rxf0sVal <- reg_read rxf0s ;;
      ret (Mcan_RxFifoStatus.mk
             (u8 (GET_FIELD_VALUE MCAN_RXF0S_F0FL rxf0sVal))
             (IS_BIT_SET MCAN_RXF0S_F0F rxf0sVal)
             (IS_BIT_SET MCAN_RXF0S_RF0L rxf0sVal))
  | Mcan_RxFifoId_1 =>
      rxf1sVal <- reg_read rxf1s ;;
      ret (Mcan_RxFifoStatus.mk
             (u8 (GET_FIELD_VALUE MCAN_RXF1S_F1FL rxf1sVal))
             (IS_BIT_SET MCAN_RXF1S_F1F rxf1sVal)
             (IS_BIT_SET MCAN_RXF1S_RF1L rxf1sVal))
  end.

(** [status->isFull] *)
Definition Mcan_getTxQueueStatus : M bool :=
  txfqsVal <- reg_read txfqs ;;
  ret (IS_BIT_SET MCAN_TXFQS_TFQF txfqsVal).


(** ** Mcan.c: the filter lists *)

Definition Mcan_setStandardIdFilter (element : Mcan_RxFilterElement.t)
           (index : Z) : M unit :=
  m <- get_mcan ;;
  if Mcan.rxStdFilterSize m <=? index
  then returnError Mcan_ErrorCode_IndexOutOfRange
  else
    let bufferPointer :=
      word_ptr (Mcan.rxStdFilterAddress m)
        (u32 (MCAN_STDRXFILTERELEMENT_SIZE * index) / sizeof_uint32_t) in
    modify_ram
      (fun r =>
         store32 r bufferPointer
           (Z.lor (Z.lor (Z.lor
              (BIT_FIELD_VALUE MCAN_STDRXFILTERELEMENT_SFT
                 (Mcan_RxFilterElement.type element))
              (BIT_FIELD_VALUE MCAN_STDRXFILTERELEMENT_SFEC
                 (Mcan_RxFilterElement.config element)))
              (BIT_FIELD_VALUE MCAN_STDRXFILTERELEMENT_SFID1
                 (Mcan_RxFilterElement.id1 element)))
              (BIT_FIELD_VALUE MCAN_STDRXFILTERELEMENT_SFID2
                 (Mcan_RxFilterElement.id2 element)))).

Definition Mcan_setExtendedIdFilter (element : Mcan_RxFilterElement.t)
           (index : Z) : M unit :=
  m <- get_mcan ;;
  if Mcan.rxExtFilterSize m <=? index
  then returnError Mcan_ErrorCode_IndexOutOfRange
  else
    let bufferPointer :=
      word_ptr (Mcan.rxExtFilterAddress m)
        (u32 (MCAN_EXTRXFILTERELEMENT_SIZE * index) / sizeof_uint32_t) in
    modify_ram
      (fun r => memset r bufferPointer 0
                  (Z.to_nat MCAN_EXTRXFILTERELEMENT_SIZE)) ;;
    ram_or32 bufferPointer MCAN_EXTRXFILTERELEMENT_EFT_WORD
      (BIT_FIELD_VALUE MCAN_EXTRXFILTERELEMENT_EFT
         (Mcan_RxFilterElement.type element)) ;;
    ram_or32 bufferPointer MCAN_EXTRXFILTERELEMENT_EFEC_WORD
      (BIT_FIELD_VALUE MCAN_EXTRXFILTERELEMENT_EFEC
         (Mcan_RxFilterElement.config element)) ;;
    ram_or32 bufferPointer MCAN_EXTRXFILTERELEMENT_EFID1_WORD
      (BIT_FIELD_VALUE MCAN_EXTRXFILTERELEMENT_EFID1
         (Mcan_RxFilterElement.id1 element)) ;;
    ram_or32 bufferPointer MCAN_EXTRXFILTERELEMENT_EFID2_WORD
      (BIT_FIELD_VALUE MCAN_EXTRXFILTERELEMENT_EFID2
         (Mcan_RxFilterElement.id2 element)).

End DriverMore.

(** ** Statements about message RAM and the descriptor *)

(** The word indices at which [txAddElement] places the fields of the
    element header. *)
Definition txElementHeaderWords {L : McanRegisters} : list Z :=
  [ MCAN_TXELEMENT_ESI_WORD; MCAN_TXELEMENT_XTD_WORD;
    MCAN_TXELEMENT_RTR_WORD; MCAN_TXELEMENT_MM_WORD;
    MCAN_TXELEMENT_STDID_WORD; MCAN_TXELEMENT_EXTID_WORD;
    MCAN_TXELEMENT_EFC_WORD; MCAN_TXELEMENT_FDF_WORD;
    MCAN_TXELEMENT_BRS_WORD; MCAN_TXELEMENT_DLC_WORD ].

(** The two memories agree everywhere outside [[lo, hi)]. *)
Definition same_outside (lo hi : Z) (m m' : Ram) : Prop :=
  forall a, a < lo \/ hi <= a -> m' a = m a.

(** The address of slot [index] of the Tx area, as [Mcan_txBufferAdd] and
    [Mcan_txQueuePush] compute it. *)
Definition txSlotAddress (m : Mcan.t) (index : Z) : Z :=
  word_ptr (Mcan_Tx.bufferAddress (Mcan.tx m))
    (u32 (Mcan_Tx.elementSize (Mcan.tx m) * u32 index) / sizeof_uint32_t).

(** The acknowledge register of an Rx FIFO, as [Mcan_rxFifoPull] selects
    it. *)
Definition rxFifoAckRegister (id : Mcan_RxFifoId) : Reg :=
  match id with
  | Mcan_RxFifoId_0 => rxf0a
  | Mcan_RxFifoId_1 => rxf1a
  end.

(** The address of element [index] of an Rx area of elements of
    [elementSize] bytes, as [Mcan_rxFifoPull] and [Mcan_rxBufferGet]
    compute it. *)
Definition rxSlotAddress (address elementSize index : Z) : Z :=
  word_ptr address (u32 (elementSize * index) / sizeof_uint32_t).

(** A layout for the constants of [McanStatusRegisters], in the manner of
    [mcan_layout]. *)
Definition mcan_status_layout : McanStatusRegisters := {|
  MCAN_RXF0S_F0F := bits 24 1;
  MCAN_RXF0S_RF0L := bits 25 1;
  MCAN_RXF1S_F1F := bits 24 1;
  MCAN_RXF1S_RF1L := bits 25 1;
  MCAN_TXFQS_TFFL := bits 0 6;
  MCAN_STDRXFILTERELEMENT_SIZE := 4;
  MCAN_STDRXFILTERELEMENT_SFT := bits 30 2;
  MCAN_STDRXFILTERELEMENT_SFEC := bits 27 3;
  MCAN_STDRXFILTERELEMENT_SFID1 := bits 16 11;
  MCAN_STDRXFILTERELEMENT_SFID2 := bits 0 11;
  MCAN_EXTRXFILTERELEMENT_SIZE := 8;
  MCAN_EXTRXFILTERELEMENT_EFT := bits 30 2;
  MCAN_EXTRXFILTERELEMENT_EFT_WORD := 1;
  MCAN_EXTRXFILTERELEMENT_EFEC := bits 29 3;
  MCAN_EXTRXFILTERELEMENT_EFEC_WORD := 0;
  MCAN_EXTRXFILTERELEMENT_EFID1 := bits 0 29;
  MCAN_EXTRXFILTERELEMENT_EFID1_WORD := 0;
  MCAN_EXTRXFILTERELEMENT_EFID2 := bits 0 29;
  MCAN_EXTRXFILTERELEMENT_EFID2_WORD := 1
|}.

(** A message RAM that holds one received classic frame of three bytes in
    element 2 of Rx FIFO 0 of [sample_mcan] (at 0x20400620). *)
Definition sample_rx_ram : Ram :=
  memcpy_from_list
    (store32 (store32 empty_ram 541066784 76283904) 541066788 196608)
    541066792 [17; 34; 51] 3.


(** ** Statements about whole calls *)

(** [w'] is [w] after register reads and nothing else: message RAM, the
    descriptor and the index cell are the same, and the log has grown by
    reads only. *)
Definition only_read {D : Device} (w w' : World) : Prop :=
  ram w' = ram w /\ mcan w' = mcan w /\ index_out w' = index_out w /\
  exists reads,
    log w' = log w ++ reads /\ Forall (fun e => is_write e = false) reads.

(** [m] returns whatever the device answers, and only reads registers. *)
Definition reads_only {D : Device} {A : Type} (m : M A) : Prop :=
  forall w, exists a w', m w = (Done a, w') /\ only_read w w'.

(** Whenever [m] returns, the descriptor is [f] of what it was. *)
Definition descriptor_after {D : Device} {A : Type}
           (m : M A) (f : Mcan.t -> Mcan.t) : Prop :=
  forall w a w', m w = (Done a, w') -> mcan w' = f (mcan w).

(** The descriptor as the [setX] functions of [Mcan_setConfig] assign it,
    member by member, from a configuration. *)
Definition configuredDescriptor {L : McanRegisters} (config : Mcan_Config.t)
  : Mcan.t :=
  let std := Mcan_Config.standardIdFilter config in
  let ext := Mcan_Config.extendedIdFilter config in
  let rx0 := Mcan_Config.rxFifo0 config in
  let rx1 := Mcan_Config.rxFifo1 config in
  let rxb := Mcan_Config.rxBuffer config in
  let txb := Mcan_Config.txBuffer config in
  let tef := Mcan_Config.txEventFifo config in
  let rxFifo (c : Mcan_RxFifoConfig.t) :=
    if Mcan_RxFifoConfig.isEnabled c
    then Mcan_RxFifo.mk (Mcan_RxFifoConfig.startAddress c)
           (Mcan_RxFifoConfig.size c)
           (decodeRxElementSizeInBytes (Mcan_RxFifoConfig.elementSize c))
    else Mcan_RxFifo.mk NULL 0 0 in
  let txElementSize :=
    decodeTxElementSizeInBytes (Mcan_TxBufferConfig.elementSize txb) in
  Mcan.mk
    (Mcan_Config.msgRamBaseAddress config)
    (if Mcan_TxBufferConfig.isEnabled txb
     then Mcan_Tx.mk
            (Mcan_TxBufferConfig.startAddress txb)
            (Mcan_TxBufferConfig.bufferSize txb)
            (word_ptr (Mcan_TxBufferConfig.startAddress txb)
               (u32 (txElementSize * u32 (Mcan_TxBufferConfig.bufferSize txb))
                / sizeof_uint32_t))
            (Mcan_TxBufferConfig.queueSize txb)
            txElementSize
     else Mcan_Tx.mk NULL 0 NULL 0 0)
    (Mcan_RxBufferConfig.startAddress rxb)
    (decodeRxElementSizeInBytes (Mcan_RxBufferConfig.elementSize rxb))
    (rxFifo rx0) (rxFifo rx1)
    (if Mcan_TxEventFifoConfig.isEnabled tef
     then Mcan_TxEventFifoConfig.startAddress tef else NULL)
    (if Mcan_TxEventFifoConfig.isEnabled tef
     then Mcan_TxEventFifoConfig.size tef else 0)
    (if Mcan_IdFilter.isIdRejected std
     then NULL else Mcan_IdFilter.filterListAddress std)
    (if Mcan_IdFilter.isIdRejected std
     then 0 else Mcan_IdFilter.filterListSize std)
    (if Mcan_IdFilter.isIdRejected ext
     then NULL else Mcan_IdFilter.filterListAddress ext)
    (if Mcan_IdFilter.isIdRejected ext
     then 0 else Mcan_IdFilter.filterListSize ext).

(** A configuration with another mode. *)
Definition with_mode (mode : Mcan_Mode) (c : Mcan_Config.t)
  : Mcan_Config.t :=
  Mcan_Config.mk
    (Mcan_Config.msgRamBaseAddress c) mode (Mcan_Config.isFdEnabled c)
    (Mcan_Config.nominalBitTiming c) (Mcan_Config.dataBitTiming c)
    (Mcan_Config.transmitterDelayCompensation c)
    (Mcan_Config.timestampClk c) (Mcan_Config.timestampTimeoutPrescaler c)
    (Mcan_Config.timeout c)
    (Mcan_Config.standardIdFilter c) (Mcan_Config.extendedIdFilter c)
    (Mcan_Config.rxFifo0 c) (Mcan_Config.rxFifo1 c) (Mcan_Config.rxBuffer c)
    (Mcan_Config.txBuffer c) (Mcan_Config.txEventFifo c)
    (Mcan_Config.interrupts c)
    (Mcan_Config.isLine0InterruptEnabled c)
    (Mcan_Config.isLine1InterruptEnabled c)
    (Mcan_Config.wdtCounter c).


(** Whenever [m] returns, [P] holds: a condition that success needs. *)
Definition requires {D : Device} {A : Type} (m : M A) (P : Prop) : Prop :=
  forall w a w', m w = (Done a, w') -> P.

(** [m] returns in every world; it does not fail. *)
Definition returns {D : Device} {A : Type} (m : M A) : Prop :=
  forall w, exists a w', m w = (Done a, w').


(** * Theorems *)

Ltac Zify.zify_post_hook ::= Z.div_mod_to_equations.

Ltac unfold_ints :=
  unfold u8, u16, u32 in *;
  change (2 ^ 8) with 256 in *;
  change (2 ^ 16) with 65536 in *;
  change (2 ^ 32) with 4294967296 in *.

(** ** Fixed-width arithmetic and bit tests *)

Lemma u32_idem (x : Z) : u32 (u32 x) = u32 x.
Proof. unfold_ints. lia. Qed.

Lemma u32_range (x : Z) : 0 <= u32 x < 2 ^ 32.
Proof. unfold u32. apply Z.mod_pos_bound. reflexivity. Qed.

Lemma u8_small (x : Z) : 0 <= x < 256 -> u8 x = x.
Proof. unfold_ints. lia. Qed.

Lemma u32_small (x : Z) : 0 <= x < 4294967296 -> u32 x = x.
Proof. unfold_ints. lia. Qed.

Lemma land_pow2_testbit (v k : Z) :
  0 <= k -> Z.land v (2 ^ k) = if Z.testbit v k then 2 ^ k else 0.
Proof.
  intros Hk. apply Z.bits_inj'. intros n Hn.
  rewrite Z.land_spec, Z.pow2_bits_eqb by assumption.
  destruct (Z.eqb_spec k n) as [->|Hne].
  - rewrite andb_true_r. destruct (Z.testbit v n) eqn:E.
    + now rewrite Z.pow2_bits_eqb, Z.eqb_refl by assumption.
    + now rewrite Z.bits_0.
  - rewrite andb_false_r. destruct (Z.testbit v k).
    + rewrite Z.pow2_bits_eqb by assumption.
      symmetry. now apply Z.eqb_neq.
    + now rewrite Z.bits_0.
Qed.

Lemma pow2_u32 (k : Z) : 0 <= k < 32 -> u32 (Z.shiftl 1 k) = 2 ^ k.
Proof.
  intros Hk. rewrite Z.shiftl_1_l. apply u32_small.
  split; [apply Z.pow_nonneg; lia|].
  change 4294967296 with (2 ^ 32). apply Z.pow_lt_mono_r; lia.
Qed.

Lemma isFieldSet_pow2 (v k : Z) :
  0 <= k -> isFieldSet v (2 ^ k) = Z.testbit v k.
Proof.
  intros Hk. unfold isFieldSet. rewrite land_pow2_testbit by assumption.
  destruct (Z.testbit v k); [|reflexivity].
  assert (0 < 2 ^ k) by (apply Z.pow_pos_nonneg; lia).
  destruct (Z.eqb_spec (2 ^ k) 0); [lia | reflexivity].
Qed.

Lemma isBitSet_testbit (v k : Z) :
  0 <= k < 32 -> isBitSet v k = Z.testbit v k.
Proof.
  intros Hk. unfold isBitSet. rewrite pow2_u32 by assumption.
  apply isFieldSet_pow2. lia.
Qed.

(** ** The element codec *)

(** C5. For every DLC code from 0 to 8, [decodeDataLengthCode] returns the
    code itself as the length, whatever the CAN-FD flag; for every code
    from 9 to 15 it returns 8 when the CAN-FD flag is false. *)
Theorem decodeDataLengthCode_classic_lengths :
  (forall dlc isCanFdFrame,
      0 <= dlc <= 8 -> decodeDataLengthCode dlc isCanFdFrame = dlc) /\
  (forall dlc,
      9 <= dlc <= 15 -> decodeDataLengthCode dlc false = 8).
Proof.
  split.
  - intros dlc fd H. unfold decodeDataLengthCode.
    rewrite (u8_small dlc) by lia.
    change (u8 Mcan_DataLengthRaw_8) with 8.
    destruct (Z.leb_spec dlc 8); [reflexivity | lia].
  - intros dlc H. unfold decodeDataLengthCode.
    rewrite (u8_small dlc) by lia.
    change (u8 Mcan_DataLengthRaw_8) with 8.
    destruct (Z.leb_spec dlc 8); [lia | reflexivity].
Qed.

Lemma decodeDataLengthCode_classic_lengths_witness :
  decodeDataLengthCode 5 true = 5 /\
  decodeDataLengthCode 5 false = 5 /\
  decodeDataLengthCode 13 false = 8.
Proof.
  split; [|split].
  - apply (proj1 decodeDataLengthCode_classic_lengths 5 true). lia.
  - apply (proj1 decodeDataLengthCode_classic_lengths 5 false). lia.
  - apply (proj2 decodeDataLengthCode_classic_lengths 13). lia.
Defined.

Section ElementSizes.

Context {L : McanRegisters}.

Lemma encodeElementSize_decode (x : Mcan_ElementSize) :
  encodeElementSize (u8 (decodeElementSizeInBytes x)) = x.
Proof. destruct x; reflexivity. Qed.

Lemma encodeElementSize_valid (y : Z) :
  encodeElementSize y <> Mcan_ElementSize_Invalid ->
  exists x, x <> Mcan_ElementSize_Invalid /\
            decodeElementSizeInBytes x = y /\ 0 <= y < 256.
Proof.
  unfold encodeElementSize.
  repeat match goal with
         | |- context [?a =? ?b] =>
             destruct (Z.eqb_spec a b) as [->|?]
         end; intros H;
    [ exists Mcan_ElementSize_8 | exists Mcan_ElementSize_12
    | exists Mcan_ElementSize_16 | exists Mcan_ElementSize_20
    | exists Mcan_ElementSize_24 | exists Mcan_ElementSize_32
    | exists Mcan_ElementSize_48 | exists Mcan_ElementSize_64
    | now elim H ];
    (split; [discriminate | split; [reflexivity | lia]]).
Qed.

Lemma encodeElementSize_not_word_aligned (y : Z) :
  y mod 4 = 2 -> encodeElementSize y = Mcan_ElementSize_Invalid.
Proof.
  intros H. unfold encodeElementSize.
  repeat match goal with
         | |- context [?a =? ?b] =>
             destruct (Z.eqb_spec a b) as [->|?]; [discriminate H|]
         end.
  reflexivity.
Qed.

(** The header bytes of an element, [X_DATA_WORD * sizeof(uint32_t)], drop
    out of encode after decode, for every number of header words. *)
Lemma header_roundtrip (r h : Z) :
  u8 (u32 (u8 (u32 (u32 r + u32 h)) - u32 h)) = u8 r.
Proof. unfold_ints. lia. Qed.

Lemma header_preimage (b h : Z) :
  0 <= b < 256 ->
  u8 (u32 (u32 (u8 (u32 (b - u32 h))) + u32 h)) = b.
Proof. unfold_ints. lia. Qed.

Lemma header_keeps_alignment (h : Z) :
  u8 (u32 (10 - u32 (h * sizeof_uint32_t))) mod 4 = 2.
Proof. unfold sizeof_uint32_t. unfold_ints. lia. Qed.

Lemma encode_of_decode (h : Z) (x : Mcan_ElementSize) :
  encodeElementSize
    (u8 (u32 (u8 (u32 (u32 (decodeElementSizeInBytes x) + u32 h))
              - u32 h))) = x.
Proof. rewrite header_roundtrip. apply encodeElementSize_decode. Qed.

Lemma encode_outside_image (h b : Z) :
  0 <= b < 256 ->
  (forall x, x <> Mcan_ElementSize_Invalid ->
             u8 (u32 (u32 (decodeElementSizeInBytes x) + u32 h)) <> b) ->
  encodeElementSize (u8 (u32 (b - u32 h))) = Mcan_ElementSize_Invalid.
Proof.
  intros Hb Himg.
  destruct (encodeElementSize (u8 (u32 (b - u32 h)))) eqn:E;
    try reflexivity;
    (destruct (encodeElementSize_valid (u8 (u32 (b - u32 h))))
       as (x & Hx & Hd & _); [rewrite E; discriminate|];
     exfalso; apply (Himg x Hx); rewrite Hd;
     now apply header_preimage).
Qed.

(** C6. For each of the eight legal element size selectors, encoding the
    decoded byte size gives the selector back, for Tx and for Rx elements;
    and each encode function returns [Mcan_ElementSize_Invalid] for every
    byte count that is not the decoded size of a legal selector, 10 among
    them. *)
Theorem elementSize_encode_decode :
  (forall x, x <> Mcan_ElementSize_Invalid ->
     encodeTxElementSizeInBytes (decodeTxElementSizeInBytes x) = x /\
     encodeRxElementSizeInBytes (decodeRxElementSizeInBytes x) = x) /\
  (forall b, 0 <= b < 256 ->
     (forall x, x <> Mcan_ElementSize_Invalid ->
                decodeTxElementSizeInBytes x <> b) ->
     encodeTxElementSizeInBytes b = Mcan_ElementSize_Invalid) /\
  (forall b, 0 <= b < 256 ->
     (forall x, x <> Mcan_ElementSize_Invalid ->
                decodeRxElementSizeInBytes x <> b) ->
     encodeRxElementSizeInBytes b = Mcan_ElementSize_Invalid) /\
  encodeTxElementSizeInBytes 10 = Mcan_ElementSize_Invalid /\
  encodeRxElementSizeInBytes 10 = Mcan_ElementSize_Invalid.
Proof.
  unfold encodeTxElementSizeInBytes, encodeRxElementSizeInBytes,
    decodeTxElementSizeInBytes, decodeRxElementSizeInBytes.
  split; [|split; [|split; [|split]]].
  - intros x Hx. split; apply encode_of_decode.
  - intros b Hb Himg. now apply encode_outside_image.
  - intros b Hb Himg. now apply encode_outside_image.
  - apply encodeElementSize_not_word_aligned, header_keeps_alignment.
  - apply encodeElementSize_not_word_aligned, header_keeps_alignment.
Qed.

End ElementSizes.

Lemma elementSize_encode_decode_witness :
  encodeTxElementSizeInBytes (L := mcan_layout)
    (decodeTxElementSizeInBytes (L := mcan_layout) Mcan_ElementSize_24)
  = Mcan_ElementSize_24 /\
  encodeRxElementSizeInBytes (L := mcan_layout)
    (decodeRxElementSizeInBytes (L := mcan_layout) Mcan_ElementSize_64)
  = Mcan_ElementSize_64 /\
  encodeTxElementSizeInBytes (L := mcan_layout) 17
  = Mcan_ElementSize_Invalid /\
  encodeRxElementSizeInBytes (L := mcan_layout) 255
  = Mcan_ElementSize_Invalid.
Proof.
  pose proof (elementSize_encode_decode (L := mcan_layout))
    as (Hrt & Htx & Hrx & _).
  split; [|split; [|split]].
  - apply (Hrt Mcan_ElementSize_24). discriminate.
  - apply (Hrt Mcan_ElementSize_64). discriminate.
  - apply (Htx 17); [lia|]. intros x Hx.
    destruct x; vm_compute; congruence.
  - apply (Hrx 255); [lia|]. intros x Hx.
    destruct x; vm_compute; congruence.
Defined.

(** ** Running driver code *)

Section DriverFacts.

Context {L : McanRegisters} {D : Device}.

Lemma bind_Done {A B} (m : M A) (k : A -> M B) (w w1 : World) (a : A) :
  m w = (Done a, w1) -> bind m k w = k a w1.
Proof. intros H. unfold bind. now rewrite H. Qed.

Lemma bind_Failed {A B} (m : M A) (k : A -> M B) (w w1 : World) e :
  m w = (Failed e, w1) -> bind m k w = (Failed e, w1).
Proof. intros H. unfold bind. now rewrite H. Qed.

Lemma bind_Aborted {A B} (m : M A) (k : A -> M B) (w w1 : World) :
  m w = (Aborted, w1) -> bind m k w = (Aborted, w1).
Proof. intros H. unfold bind. now rewrite H. Qed.

Lemma bind_Done_inv {A B} (m : M A) (k : A -> M B) (w w' : World) (b : B) :
  bind m k w = (Done b, w') ->
  exists a w1, m w = (Done a, w1) /\ k a w1 = (Done b, w').
Proof.
  unfold bind. destruct (m w) as [[a|e|] w1]; intros H;
    [eauto | discriminate | discriminate].
Qed.

(** *** Polling a register that never shows the awaited bits *)

Lemma waitForRegister_loop_never (address : Reg) (mask : Z) (n : nat) :
  (forall s, Z.land (u32 (fst (dev_read address s))) mask = 0) ->
  forall w,
  exists s polls,
    waitForRegister_loop address mask n w
    = (Done false,
       mkWorld s (ram w) (mcan w) (index_out w) (log w ++ polls)) /\
    length polls = n /\
    Forall (fun e => exists v, e = EvRead address v) polls.
Proof.
  intros Hnever. induction n as [|n IH]; intros w.
  - exists (hw w), []. rewrite app_nil_r. destruct w. simpl. auto.
  - cbn [waitForRegister_loop]. unfold bind at 1. cbn [reg_read].
    rewrite Hnever. cbn [Z.eqb negb].
    match goal with
    | |- context [waitForRegister_loop _ _ _ ?w1] =>
        destruct (IH w1) as (s & polls & Hrun & Hlen & Hall)
    end.
    exists s, (EvRead address (u32 (fst (dev_read address (hw w)))) :: polls).
    rewrite Hrun. cbn [ram mcan index_out log length].
    rewrite <- app_assoc. cbn [app].
    repeat split; [congruence | constructor; eauto].
Qed.

Lemma polls_counted (address : Reg) (polls : list Event) :
  Forall (fun e => exists v, e = EvRead address v) polls ->
  filter (is_read_of address) polls = polls /\
  Forall (fun e => is_write e = false) polls.
Proof.
  induction 1 as [|e l [v ->] _ [IHf IHw]]; [now split|].
  cbn [filter is_read_of]. unfold Reg_eqb.
  destruct (Reg_eq_dec address address); [|congruence].
  rewrite IHf. split; [reflexivity | now constructor].
Qed.

Lemma setConfig_stalled_run
      (config : Mcan_Config.t) (w : World) :
  (forall s, Z.land (u32 (fst (dev_read cccr s))) (MASK MCAN_CCCR_INIT) = 0) ->
  exists s v polls,
    Mcan_setConfig config 100 w
    = (Failed Mcan_ErrorCode_InitializationStartTimeout,
       mkWorld s (ram w)
         (Mcan.set_msgRamBaseAddress
            (Mcan_Config.msgRamBaseAddress config) (mcan w))
         (index_out w)
         (log w ++
          EvRead canDmaBase (u32 (fst (dev_read canDmaBase (hw w))))
          :: EvWrite canDmaBase v
          :: EvWrite cccr (u32 (MASK MCAN_CCCR_INIT)) :: polls)) /\
    length polls = 100%nat /\
    Forall (fun e => exists x, e = EvRead cccr x) polls.
Proof.
  intros Hnever.
  unfold Mcan_setConfig, setMsgRamBaseAddress, SET_FIELD_VALUE,
    setValueAtOffset, waitForRegisterWithTimeout.
  change (Z.to_nat (u32 100)) with 100%nat.
  unfold bind at 1. unfold bind at 1. cbn [modify_mcan].
  unfold bind at 1. cbn [reg_read reg_write hw ram mcan index_out log].
  unfold bind at 1. cbn [reg_write hw ram mcan index_out log].
  match goal with
  | |- context [bind (waitForRegister_loop cccr ?m ?n) _ ?w1] =>
      destruct (waitForRegister_loop_never cccr m n Hnever w1)
        as (s & polls & Hrun & Hlen & Hall)
  end.
  cbn [hw ram mcan index_out log] in Hrun.
  exists s. eexists. exists polls.
  rewrite (bind_Done _ _ _ _ _ Hrun). cbn [negb returnError].
  rewrite <- !app_assoc. cbn [app].
  split; [reflexivity | split; assumption].
Qed.

(** C1. When the control register never shows the initialization bit,
    [Mcan_setConfig] with a timeout limit of 100 fails with
    [Mcan_ErrorCode_InitializationStartTimeout]; the call reads the control
    register exactly 100 times and writes no register that places a region
    of message RAM (filter lists, Rx FIFOs, Rx buffer, Tx buffer and queue,
    Tx Event FIFO). *)
Theorem setConfig_initialization_timeout
        (config : Mcan_Config.t) (w : World) :
  (forall s, Z.land (u32 (fst (dev_read cccr s))) (MASK MCAN_CCCR_INIT) = 0) ->
  fst (Mcan_setConfig config 100 w)
  = Failed Mcan_ErrorCode_InitializationStartTimeout /\
  exists calls,
    log (snd (Mcan_setConfig config 100 w)) = log w ++ calls /\
    length (filter (is_read_of cccr) calls) = 100%nat /\
    Forall (fun e => is_region_write e = false) calls.
Proof.
  intros Hnever.
  destruct (setConfig_stalled_run config w Hnever)
    as (s & v & polls & Hrun & Hlen & Hall).
  rewrite Hrun. cbn [fst snd log].
  split; [reflexivity|].
  destruct (polls_counted cccr polls Hall) as [Hfilter Hwrites].
  eexists. split; [reflexivity|]. split.
  - simpl. rewrite Hfilter. exact Hlen.
  - repeat constructor.
    eapply Forall_impl; [|exact Hall].
    intros e [x ->]. reflexivity.
Qed.

End DriverFacts.

Lemma setConfig_initialization_timeout_witness :
  fst (Mcan_setConfig (L := mcan_layout) (D := silent)
         (sample_config (sample_txBuffer true 4 4)) 100
         (silent_world blank_mcan))
  = Failed Mcan_ErrorCode_InitializationStartTimeout /\
  exists calls,
    log (snd (Mcan_setConfig (L := mcan_layout) (D := silent)
                (sample_config (sample_txBuffer true 4 4)) 100
                (silent_world blank_mcan)))
    = log (silent_world blank_mcan) ++ calls /\
    length (filter (is_read_of cccr) calls) = 100%nat /\
    Forall (fun e => is_region_write e = false) calls.
Proof.
  apply (setConfig_initialization_timeout (L := mcan_layout) (D := silent)).
  intros s. reflexivity.
Defined.

(** ** The transmit path *)

Section TransmitFacts.

Context {L : McanRegisters} {D : Device}.

Lemma encodeDataLengthCode_no_code (size : Z) :
  0 <= size < 256 -> ~ In size dataLengths ->
  encodeDataLengthCode size = Mcan_DataLengthCode_Invalid.
Proof.
  intros Hr Hn. unfold encodeDataLengthCode.
  rewrite (u8_small size) by lia. change (u8 Mcan_DataLengthRaw_8) with 8.
  unfold dataLengths in Hn. cbn [In] in Hn.
  destruct (Z.leb_spec size 8); [lia|].
  repeat match goal with
         | |- context [?a =? ?b] =>
             destruct (Z.eqb_spec a b) as [E|_];
             [unfold Mcan_DataLengthRaw_12, Mcan_DataLengthRaw_16,
                Mcan_DataLengthRaw_20, Mcan_DataLengthRaw_24,
                Mcan_DataLengthRaw_32, Mcan_DataLengthRaw_48,
                Mcan_DataLengthRaw_64 in E; exfalso; lia|]
         end.
  reflexivity.
Qed.

(** What [txAddElement] does with a data size that has no code: nothing. *)
Lemma txAddElement_no_code
      (element : Mcan_TxElement.t) (baseAddress index : Z) (w : World) :
  MCAN_DLC_INVALID = Mcan_DataLengthCode_Invalid ->
  0 <= Mcan_TxElement.dataSize element < 256 ->
  ~ In (Mcan_TxElement.dataSize element) dataLengths ->
  txAddElement element baseAddress index w = (Done false, w).
Proof.
  intros Hinv Hr Hn. unfold txAddElement.
  rewrite encodeDataLengthCode_no_code by assumption.
  rewrite Hinv. reflexivity.
Qed.

(** C7. For every index greater than or equal to the configured number of
    dedicated Tx buffers, [Mcan_txBufferAdd] fails with
    [Mcan_ErrorCode_IndexOutOfRange] and leaves the world as it was: no
    register is read or written (so no add request bit is set), and
    message RAM and the descriptor are untouched. *)
Theorem txBufferAdd_index_out_of_range
        (element : Mcan_TxElement.t) (index : Z) (w : World) :
  Mcan_Tx.bufferSize (Mcan.tx (mcan w)) <= index ->
  Mcan_txBufferAdd element index w
  = (Failed Mcan_ErrorCode_IndexOutOfRange, w).
Proof.
  intros H. unfold Mcan_txBufferAdd. unfold bind at 1. cbn [get_mcan].
  destruct (Z.leb_spec (Mcan_Tx.bufferSize (Mcan.tx (mcan w))) index);
    [reflexivity | lia].
Qed.

(** C3. In every state in which the Tx queue status register shows the
    queue full flag, [Mcan_txQueuePush] fails with
    [Mcan_ErrorCode_TxFifoFull]; its only access to the device is the read
    of that status register: no register is written, and message RAM, the
    descriptor and the caller's index cell are unchanged. *)
Theorem txQueuePush_full (element : Mcan_TxElement.t) (w : World) :
  0 <= OFFSET MCAN_TXFQS_TFQF < 32 ->
  Z.testbit (u32 (fst (dev_read txfqs (hw w)))) (OFFSET MCAN_TXFQS_TFQF)
  = true ->
  Mcan_txQueuePush element w
  = (Failed Mcan_ErrorCode_TxFifoFull,
     mkWorld (snd (dev_read txfqs (hw w))) (ram w) (mcan w) (index_out w)
       (log w ++ [EvRead txfqs (u32 (fst (dev_read txfqs (hw w))))])).
Proof.
  intros Hoff Hfull. unfold Mcan_txQueuePush. unfold bind at 1.
  cbn [reg_read]. unfold IS_BIT_SET.
  rewrite u32_idem, isBitSet_testbit, Hfull by assumption.
  reflexivity.
Qed.

(** C10. When the queue is not full but the data size of the element has
    no data length code, [Mcan_txQueuePush] fails with
    [Mcan_ErrorCode_ElementSizeInvalid]: message RAM is untouched and no
    register is written (no add request), yet the caller's index cell
    already holds the put index read from the status register. *)
Theorem txQueuePush_invalid_size (element : Mcan_TxElement.t) (w : World) :
  0 <= OFFSET MCAN_TXFQS_TFQF < 32 ->
  MCAN_DLC_INVALID = Mcan_DataLengthCode_Invalid ->
  Z.testbit (u32 (fst (dev_read txfqs (hw w)))) (OFFSET MCAN_TXFQS_TFQF)
  = false ->
  0 <= Mcan_TxElement.dataSize element < 256 ->
  ~ In (Mcan_TxElement.dataSize element) dataLengths ->
  Mcan_txQueuePush element w
  = (Failed Mcan_ErrorCode_ElementSizeInvalid,
     mkWorld (snd (dev_read txfqs (hw w))) (ram w) (mcan w)
       (u8 (GET_FIELD_VALUE MCAN_TXFQS_TFQPI
              (u32 (fst (dev_read txfqs (hw w))))))
       (log w ++ [EvRead txfqs (u32 (fst (dev_read txfqs (hw w))))])).
Proof.
  intros Hoff Hinv Hfree Hr Hn. unfold Mcan_txQueuePush. unfold bind at 1.
  cbn [reg_read]. unfold IS_BIT_SET.
  rewrite u32_idem, isBitSet_testbit, Hfree by assumption.
  unfold bind at 1. cbn [set_index_out hw ram mcan index_out log].
  unfold bind at 1. cbn [get_mcan mcan].
  erewrite bind_Done by (now apply txAddElement_no_code).
  reflexivity.
Qed.

End TransmitFacts.

Lemma txBufferAdd_index_out_of_range_witness :
  Mcan_txBufferAdd (L := mcan_layout) (D := regfile)
    (sample_element 8) 4 (regfile_world [] sample_mcan)
  = (Failed Mcan_ErrorCode_IndexOutOfRange, regfile_world [] sample_mcan).
Proof.
  apply (txBufferAdd_index_out_of_range (L := mcan_layout) (D := regfile)).
  simpl. lia.
Defined.

Lemma txQueuePush_full_witness :
  Mcan_txQueuePush (L := mcan_layout) (D := regfile)
    (sample_element 8) (regfile_world [(txfqs, 2097152)] sample_mcan)
  = (Failed Mcan_ErrorCode_TxFifoFull,
     mkWorld (D := regfile) [(txfqs, 2097152)] empty_ram sample_mcan 0
       [EvRead txfqs 2097152]).
Proof.
  apply (txQueuePush_full (L := mcan_layout) (D := regfile)).
  - simpl. lia.
  - reflexivity.
Defined.

Lemma txQueuePush_invalid_size_witness :
  Mcan_txQueuePush (L := mcan_layout) (D := regfile)
    (sample_element 9) (regfile_world [(txfqs, 196608)] sample_mcan)
  = (Failed Mcan_ErrorCode_ElementSizeInvalid,
     mkWorld (D := regfile) [(txfqs, 196608)] empty_ram sample_mcan 3
       [EvRead txfqs 196608]).
Proof.
  apply (txQueuePush_invalid_size (L := mcan_layout) (D := regfile)).
  - simpl. lia.
  - reflexivity.
  - reflexivity.
  - simpl. lia.
  - simpl. lia.
Defined.

(** ** The receive path *)

Section ReceiveFacts.

Context {L : McanRegisters} {D : Device}.

(** C4. For an Rx FIFO (0 or 1) that is configured, that is, whose
    descriptor holds a non-null address, and whose status register reads a
    fill level of 0, [Mcan_rxFifoPull] fails with
    [Mcan_ErrorCode_RxFifoEmpty]; its only access to the device is the read
    of the status register: the acknowledge register is not written, and
    message RAM, the descriptor and the index cell are unchanged. *)
Theorem rxFifoPull_empty (id : Mcan_RxFifoId) (w : World) :
  MCAN_RXF1S_F1FL = MCAN_RXF0S_F0FL ->
  Mcan_RxFifo.address (rxFifoDescriptor id (mcan w)) <> NULL ->
  rxFifoFillLevel id
    (u32 (fst (dev_read (rxFifoStatusRegister id) (hw w)))) = 0 ->
  Mcan_rxFifoPull id w
  = (Failed Mcan_ErrorCode_RxFifoEmpty,
     mkWorld (snd (dev_read (rxFifoStatusRegister id) (hw w)))
       (ram w) (mcan w) (index_out w)
       (log w ++
        [EvRead (rxFifoStatusRegister id)
           (u32 (fst (dev_read (rxFifoStatusRegister id) (hw w))))])).
Proof.
  intros Hlayout Hconf Hlevel. unfold rxFifoFillLevel in Hlevel.
  unfold Mcan_rxFifoPull.
  destruct id; cbn [rxFifoStatusRegister rxFifoDescriptor] in *;
    try rewrite Hlayout in Hlevel;
    unfold bind at 1; unfold bind at 1; cbn [reg_read];
    unfold bind at 1; cbn [get_mcan mcan ret];
    match goal with
    | |- context [?a =? NULL] =>
        destruct (Z.eqb_spec a NULL); [contradiction|]
    end;
    rewrite Hlevel; reflexivity.
Qed.

End ReceiveFacts.

Lemma rxFifoPull_empty_witness :
  Mcan_rxFifoPull (L := mcan_layout) (D := regfile) Mcan_RxFifoId_1
    (regfile_world [(rxf1s, 768)] sample_mcan)
  = (Failed Mcan_ErrorCode_RxFifoEmpty,
     mkWorld (D := regfile) [(rxf1s, 768)] empty_ram sample_mcan 0
       [EvRead rxf1s 768]).
Proof.
  apply (rxFifoPull_empty (L := mcan_layout) (D := regfile)
           Mcan_RxFifoId_1).
  - reflexivity.
  - simpl. unfold NULL. lia.
  - reflexivity.
Defined.

(** ** Interrupt status *)

Section InterruptFacts.

Context {L : McanRegisters} {D : Device}.

Lemma masks_pick_bits (v : Z)
      (table : list ((Mcan_InterruptStatus.t -> bool) * BitField * Z)) :
  forallb (fun e => MASK (snd (fst e)) =? Z.shiftl 1 (snd e)) table = true ->
  Forall (fun e => 0 <= snd e) table ->
  Forall (fun e => isFieldSet v (MASK (snd (fst e))) = Z.testbit v (snd e))
         table.
Proof.
  induction table as [|e table IH]; intros Hm Hpos; [constructor|].
  cbn [forallb] in Hm. apply andb_prop in Hm as [He Hm].
  inversion Hpos as [|? ? Hk Hpos']; subst.
  constructor; [|now apply IH].
  apply Z.eqb_eq in He. rewrite He, Z.shiftl_1_l.
  now apply isFieldSet_pow2.
Qed.

Lemma interruptStatusTable_positions :
  Forall (fun e : (Mcan_InterruptStatus.t -> bool) * BitField * Z =>
            0 <= snd e) interruptStatusTable.
Proof. unfold interruptStatusTable. repeat constructor; discriminate. Qed.

(** C9. [Mcan_getInterruptStatus] reads the interrupt register once and
    then writes back the value it read, and these are its only accesses;
    each field of the status it returns is the bit of the value read at
    the position of its interrupt source. *)
Theorem getInterruptStatus_read_then_clear (w : World) :
  exists status,
    Mcan_getInterruptStatus w
    = (Done status,
       mkWorld
         (dev_write ir (u32 (fst (dev_read ir (hw w))))
                    (snd (dev_read ir (hw w))))
         (ram w) (mcan w) (index_out w)
         (log w ++ [EvRead ir (u32 (fst (dev_read ir (hw w))));
                    EvWrite ir (u32 (fst (dev_read ir (hw w))))])) /\
    (irMasksFollowInterrupts = true ->
     Forall (fun e => fst (fst e) status
                      = Z.testbit (u32 (fst (dev_read ir (hw w)))) (snd e))
            interruptStatusTable).
Proof.
  unfold Mcan_getInterruptStatus.
  unfold bind at 1. cbn [reg_read].
  unfold bind at 1. cbn [reg_write hw ram mcan index_out log ret].
  rewrite u32_idem, <- app_assoc. cbn [app].
  eexists. split; [reflexivity|].
  intros Hmasks.
  pose proof (masks_pick_bits (u32 (fst (dev_read ir (hw w))))
                interruptStatusTable Hmasks interruptStatusTable_positions)
    as Hbits.
  unfold interruptStatusTable in *.
  repeat match goal with
         | H : Forall _ (_ :: _) |- _ =>
             let Hh := fresh "Hh" in
             inversion H as [|? ? Hh ?]; clear H; subst;
             cbn [fst snd] in Hh
         end.
  repeat (constructor;
          [cbn [fst snd Mcan_InterruptStatus.hasRf0nOccurred]; assumption|]).
  constructor.
Qed.

End InterruptFacts.

Lemma getInterruptStatus_read_then_clear_witness :
  exists status,
    Mcan_getInterruptStatus (L := mcan_layout) (D := regfile)
      (regfile_world [(ir, 513)] sample_mcan)
    = (Done status,
       mkWorld (D := regfile) [(ir, 513); (ir, 513)] empty_ram sample_mcan 0
         [EvRead ir 513; EvWrite ir 513]) /\
    Forall (fun e => fst (fst e) status = Z.testbit 513 (snd e))
           (interruptStatusTable (L := mcan_layout)).
Proof.
  destruct (getInterruptStatus_read_then_clear (L := mcan_layout)
              (D := regfile) (regfile_world [(ir, 513)] sample_mcan))
    as (status & Hrun & Hbits).
  exists status. split; [exact Hrun | apply Hbits; reflexivity].
Defined.

(** ** The configuration sequence and the Tx area *)

Section TxAreaFacts.

Context {L : McanRegisters} {D : Device}.

(** *** What the sequence leaves alone *)

Lemma tx_config_kept_refl (w : World) : tx_config_kept w w.
Proof. split; reflexivity. Qed.

Lemma tx_config_kept_trans (a b c : World) :
  tx_config_kept a b -> tx_config_kept b c -> tx_config_kept a c.
Proof.
  unfold tx_config_kept, same_tx, same_tx_config_writes.
  intros [H1 H2] [H3 H4]. split; congruence.
Qed.

Lemma keeps_ret {A} (a : A) : keeps tx_config_kept (ret a).
Proof. intros w. apply tx_config_kept_refl. Qed.

Lemma keeps_returnError {A} (e : ErrorCode) :
  keeps tx_config_kept (returnError (A := A) e).
Proof. intros w. apply tx_config_kept_refl. Qed.

Lemma keeps_assert (b : bool) : keeps tx_config_kept (assert b).
Proof. intros w. unfold assert. destruct b; apply tx_config_kept_refl. Qed.

Lemma keeps_bind {A B} (m : M A) (k : A -> M B) :
  keeps tx_config_kept m -> (forall a, keeps tx_config_kept (k a)) ->
  keeps tx_config_kept (bind m k).
Proof.
  intros Hm Hk w. unfold bind. specialize (Hm w).
  destruct (m w) as [[a|e|] w1]; cbn [snd] in *; try assumption.
  eapply tx_config_kept_trans; [exact Hm | apply Hk].
Qed.

Lemma keeps_reg_read (r : Reg) : keeps tx_config_kept (reg_read r).
Proof.
  intros w. split; [reflexivity|].
  unfold same_tx_config_writes. cbn [reg_read snd log].
  rewrite filter_app. cbn. apply app_nil_r.
Qed.

Lemma keeps_reg_write (r : Reg) (v : Z) :
  is_tx_config_write (EvWrite r 0) = false ->
  keeps tx_config_kept (reg_write r v).
Proof.
  intros Hr w. split; [reflexivity|].
  unfold same_tx_config_writes. cbn [reg_write snd log].
  rewrite filter_app. cbn [filter].
  change (is_tx_config_write (EvWrite r (u32 v)))
    with (is_tx_config_write (EvWrite r 0)).
  rewrite Hr. apply app_nil_r.
Qed.

Lemma keeps_modify_mcan (f : Mcan.t -> Mcan.t) :
  (forall m, Mcan.tx (f m) = Mcan.tx m) ->
  keeps tx_config_kept (modify_mcan f).
Proof. intros Hf w. split; [apply Hf | reflexivity]. Qed.

Lemma keeps_for_each (n : nat) (body : Z -> M unit) :
  (forall i, keeps tx_config_kept (body i)) ->
  forall from, keeps tx_config_kept (for_each from n body).
Proof.
  intros Hbody. induction n as [|n IH]; intros from; cbn [for_each].
  - apply keeps_ret.
  - apply keeps_bind; [apply Hbody | intros _; apply IH].
Qed.

Lemma keeps_waitForRegister_loop (address : Reg) (mask : Z) (n : nat) :
  keeps tx_config_kept (waitForRegister_loop address mask n).
Proof.
  induction n as [|n IH]; cbn [waitForRegister_loop].
  - apply keeps_ret.
  - apply keeps_bind; [apply keeps_reg_read|].
    intros v. destruct (negb (Z.land v mask =? 0));
      [apply keeps_ret | apply IH].
Qed.

Ltac frame_step :=
  first
    [ assumption
    | apply keeps_ret
    | apply keeps_returnError
    | apply keeps_assert
    | apply keeps_reg_read
    | apply keeps_reg_write; reflexivity
    | apply keeps_modify_mcan; intro; reflexivity
    | apply keeps_waitForRegister_loop
    | apply keeps_for_each; intro
    | apply keeps_bind; [|intro]
    | match goal with
      | |- keeps _ (if ?c then _ else _) => destruct c
      | |- keeps _ (match ?c with _ => _ end) => destruct c
      end ].

Ltac frame := cbv beta; repeat (frame_step; cbv beta).

Lemma keeps_changeBitAtOffset (r : Reg) (offset : Z) (value : bool) :
  is_tx_config_write (EvWrite r 0) = false ->
  keeps tx_config_kept (changeBitAtOffset r offset value).
Proof.
  intros Hr. unfold changeBitAtOffset.
  apply keeps_bind; [apply keeps_reg_read|]. intros v.
  destruct value; now apply keeps_reg_write.
Qed.

Lemma keeps_setInterrupts (config : Mcan_Config.t) :
  keeps tx_config_kept (setInterrupts config).
Proof.
  unfold setInterrupts.
  apply keeps_bind.
  - apply keeps_for_each. intros i.
    destruct (negb (i =? Mcan_Interrupt_Reserved1)
              && negb (i =? Mcan_Interrupt_Reserved2));
      [|apply keeps_ret].
    apply keeps_bind; [now apply keeps_reg_write|]. intros _.
    apply keeps_bind; intros; now apply keeps_changeBitAtOffset.
  - intros _. frame.
Qed.

Lemma keeps_suffix (config : Mcan_Config.t) :
  keeps tx_config_kept
    (setTxEventFifo config ;;
     setInterrupts config ;;
     reg_write rwd
       (BIT_FIELD_VALUE MCAN_RWD_WDC (Mcan_Config.wdtCounter config)) ;;
     reg_write xidam (MASK MCAN_XIDAM_EIDM) ;;
     reg_and cccr (u32 (Z.lnot (MASK MCAN_CCCR_INIT)))).
Proof.
  apply keeps_bind; [unfold setTxEventFifo; frame|]. intros _.
  apply keeps_bind; [apply keeps_setInterrupts|]. intros _.
  unfold reg_and. frame.
Qed.


Lemma keeps_setConfig (config : Mcan_Config.t) (timeoutLimit : Z) :
  keeps tx_config_kept (setTxBuffer config) ->
  keeps tx_config_kept (Mcan_setConfig config timeoutLimit).
Proof.
  intros Htx. pose proof (keeps_setInterrupts config) as Hint.
  unfold Mcan_setConfig, setMsgRamBaseAddress, setMode, setPowerDownMode,
    waitForRegisterWithTimeout, setNominalTiming, setDataTiming,
    setTransmitterDelayCompensation, setTimestamp, setTimeout,
    setStandardIdFiltering, setExtendedIdFiltering, setRxFifo0, setRxFifo1,
    setRxBuffer, setTxEventFifo, SET_FIELD_VALUE, setValueAtOffset,
    changeBitAtOffset, reg_or, reg_and.
  frame.
Qed.

(** *** [setTxBuffer] *)

Lemma setTxBuffer_enabled_returns
      (config : Mcan_Config.t) (w w1 : World) (ok : bool) :
  Mcan_TxBufferConfig.isEnabled (Mcan_Config.txBuffer config) = true ->
  setTxBuffer config w = (Done ok, w1) ->
  ok = false \/
  (decodeTxElementSizeInBytes
     (Mcan_TxBufferConfig.elementSize (Mcan_Config.txBuffer config))
   <> MCAN_TXELEMENT_SIZE_INVALID /\
   Mcan_TxBufferConfig.bufferSize (Mcan_Config.txBuffer config)
   + Mcan_TxBufferConfig.queueSize (Mcan_Config.txBuffer config) <= 32 /\
   Mcan.tx (mcan w1)
   = Mcan_Tx.mk
       (Mcan_TxBufferConfig.startAddress (Mcan_Config.txBuffer config))
       (Mcan_TxBufferConfig.bufferSize (Mcan_Config.txBuffer config))
       (word_ptr
          (Mcan_TxBufferConfig.startAddress (Mcan_Config.txBuffer config))
          (u32 (decodeTxElementSizeInBytes
                  (Mcan_TxBufferConfig.elementSize
                     (Mcan_Config.txBuffer config))
                * u32 (Mcan_TxBufferConfig.bufferSize
                         (Mcan_Config.txBuffer config)))
           / sizeof_uint32_t))
       (Mcan_TxBufferConfig.queueSize (Mcan_Config.txBuffer config))
       (decodeTxElementSizeInBytes
          (Mcan_TxBufferConfig.elementSize (Mcan_Config.txBuffer config)))).
Proof.
  intros Hen. unfold setTxBuffer. rewrite Hen.
  destruct (Z.eqb_spec
              (decodeTxElementSizeInBytes
                 (Mcan_TxBufferConfig.elementSize
                    (Mcan_Config.txBuffer config)))
              MCAN_TXELEMENT_SIZE_INVALID) as [E|E].
  - intros H. left. inversion H. reflexivity.
  - unfold bind at 1. unfold assert.
    destruct (Z.leb_spec
                (Mcan_TxBufferConfig.bufferSize (Mcan_Config.txBuffer config)
                 + Mcan_TxBufferConfig.queueSize
                     (Mcan_Config.txBuffer config)) 32) as [Hle|Hgt];
      [|discriminate].
    unfold bind. cbn [reg_write modify_mcan ret mcan].
    intros H. right. inversion H. cbn [mcan Mcan.set_tx Mcan.tx]. auto.
Qed.

Lemma setTxBuffer_oversized (config : Mcan_Config.t) (w : World) :
  Mcan_TxBufferConfig.isEnabled (Mcan_Config.txBuffer config) = true ->
  32 < Mcan_TxBufferConfig.bufferSize (Mcan_Config.txBuffer config)
       + Mcan_TxBufferConfig.queueSize (Mcan_Config.txBuffer config) ->
  setTxBuffer config w
  = (if decodeTxElementSizeInBytes
          (Mcan_TxBufferConfig.elementSize (Mcan_Config.txBuffer config))
        =? MCAN_TXELEMENT_SIZE_INVALID
     then Done false else Aborted, w).
Proof.
  intros Hen Hsum. unfold setTxBuffer. rewrite Hen.
  destruct (_ =? MCAN_TXELEMENT_SIZE_INVALID); [reflexivity|].
  unfold bind at 1. unfold assert.
  destruct (Z.leb_spec
              (Mcan_TxBufferConfig.bufferSize (Mcan_Config.txBuffer config)
               + Mcan_TxBufferConfig.queueSize
                   (Mcan_Config.txBuffer config)) 32); [lia | reflexivity].
Qed.

(** *** Calls that cannot succeed *)

Lemma never_returns_bind_r {A B} (m : M A) (k : A -> M B) :
  (forall a, never_returns (k a)) -> never_returns (bind m k).
Proof.
  intros Hk w b. unfold bind.
  destruct (m w) as [[a|e|] w1]; [apply Hk | discriminate | discriminate].
Qed.

Lemma never_returns_returnError {A} (e : ErrorCode) :
  never_returns (returnError (A := A) e).
Proof. intros w a. discriminate. Qed.

Lemma never_returns_oversized
      (config : Mcan_Config.t) (k : M unit) :
  Mcan_TxBufferConfig.isEnabled (Mcan_Config.txBuffer config) = true ->
  32 < Mcan_TxBufferConfig.bufferSize (Mcan_Config.txBuffer config)
       + Mcan_TxBufferConfig.queueSize (Mcan_Config.txBuffer config) ->
  never_returns
    (txOk <- setTxBuffer config ;;
     if negb txOk
     then returnError Mcan_ErrorCode_ElementSizeInvalid
     else k).
Proof.
  intros Hen Hsum w a. unfold bind.
  rewrite setTxBuffer_oversized by assumption.
  destruct (_ =? MCAN_TXELEMENT_SIZE_INVALID); discriminate.
Qed.

Lemma setConfig_oversized_never_returns
      (config : Mcan_Config.t) (timeoutLimit : Z) :
  Mcan_TxBufferConfig.isEnabled (Mcan_Config.txBuffer config) = true ->
  32 < Mcan_TxBufferConfig.bufferSize (Mcan_Config.txBuffer config)
       + Mcan_TxBufferConfig.queueSize (Mcan_Config.txBuffer config) ->
  never_returns (Mcan_setConfig config timeoutLimit).
Proof.
  intros Hen Hsum. unfold Mcan_setConfig.
  do 3 (apply never_returns_bind_r; intro).
  match goal with
  | |- never_returns (if ?c then _ else _) =>
      destruct c; [apply never_returns_returnError|]
  end.
  do 13 (apply never_returns_bind_r; intro).
  now apply never_returns_oversized.
Qed.


(** C2, as the code has it. For every configuration with the Tx buffer
    enabled and [bufferSize + queueSize > 32], [Mcan_setConfig] never
    returns success, and it writes neither the Tx buffer configuration
    registers (TXBC, TXESC) nor the Tx descriptor: [setTxBuffer] stops
    before its first write, by the failed assertion or, for an element
    size without encoding, by returning [false]. *)
Theorem setConfig_oversized_tx_area
        (config : Mcan_Config.t) (timeoutLimit : Z) (w : World) :
  Mcan_TxBufferConfig.isEnabled (Mcan_Config.txBuffer config) = true ->
  32 < Mcan_TxBufferConfig.bufferSize (Mcan_Config.txBuffer config)
       + Mcan_TxBufferConfig.queueSize (Mcan_Config.txBuffer config) ->
  (forall a, fst (Mcan_setConfig config timeoutLimit w) <> Done a) /\
  (forall w1,
      setTxBuffer config w1
      = (if decodeTxElementSizeInBytes
              (Mcan_TxBufferConfig.elementSize (Mcan_Config.txBuffer config))
            =? MCAN_TXELEMENT_SIZE_INVALID
         then Done false else Aborted, w1)) /\
  Mcan.tx (mcan (snd (Mcan_setConfig config timeoutLimit w)))
  = Mcan.tx (mcan w) /\
  filter is_tx_config_write
         (log (snd (Mcan_setConfig config timeoutLimit w)))
  = filter is_tx_config_write (log w).
Proof.
  intros Hen Hsum.
  split; [now apply setConfig_oversized_never_returns|].
  split; [intros w1; now apply setTxBuffer_oversized|].
  apply (keeps_setConfig config timeoutLimit).
  intros w1. rewrite setTxBuffer_oversized by assumption.
  apply tx_config_kept_refl.
Qed.

(** *** The queue follows the buffers *)

Lemma tx_stride_aligned (x : Mcan_ElementSize) :
  x <> Mcan_ElementSize_Invalid ->
  decodeTxElementSizeInBytes x mod 4 = 0 /\
  0 <= decodeTxElementSizeInBytes x < 256.
Proof.
  intros Hx. unfold decodeTxElementSizeInBytes, sizeof_uint32_t.
  destruct x; try (now elim Hx);
    cbn [decodeElementSizeInBytes];
    unfold Mcan_DataLengthRaw_8, Mcan_DataLengthRaw_12,
      Mcan_DataLengthRaw_16, Mcan_DataLengthRaw_20, Mcan_DataLengthRaw_24,
      Mcan_DataLengthRaw_32, Mcan_DataLengthRaw_48, Mcan_DataLengthRaw_64;
    unfold_ints; lia.
Qed.

Lemma queue_address_exact (start es bs : Z) :
  es mod 4 = 0 -> 0 <= es < 256 -> 0 <= bs < 256 ->
  word_ptr start (u32 (es * u32 bs) / sizeof_uint32_t) = start + bs * es.
Proof.
  intros Hal Hes Hbs. unfold word_ptr, sizeof_uint32_t.
  rewrite (u32_small bs) by lia.
  rewrite u32_small by nia.
  assert (Hq : es = es / 4 * 4) by lia.
  rewrite Hq at 1.
  replace (es / 4 * 4 * bs) with (es / 4 * bs * 4) by ring.
  rewrite Z.div_mul by discriminate. lia.
Qed.

(** C8. After a successful [Mcan_setConfig] with the Tx buffer enabled,
    the descriptor records the start address, the number of dedicated
    buffers and the decoded Tx element size of the configuration, and the
    Tx queue base address is the Tx buffer base address plus the number of
    dedicated buffers times that element size in bytes: the queue starts
    where the dedicated buffers end. *)
Theorem setConfig_tx_queue_follows_buffer
        (config : Mcan_Config.t) (timeoutLimit : Z) (w w' : World) :
  MCAN_TXELEMENT_SIZE_INVALID
  = decodeTxElementSizeInBytes Mcan_ElementSize_Invalid ->
  Mcan_TxBufferConfig.isEnabled (Mcan_Config.txBuffer config) = true ->
  0 <= Mcan_TxBufferConfig.bufferSize (Mcan_Config.txBuffer config) < 256 ->
  Mcan_setConfig config timeoutLimit w = (Done tt, w') ->
  Mcan_Tx.bufferAddress (Mcan.tx (mcan w'))
  = Mcan_TxBufferConfig.startAddress (Mcan_Config.txBuffer config) /\
  Mcan_Tx.bufferSize (Mcan.tx (mcan w'))
  = Mcan_TxBufferConfig.bufferSize (Mcan_Config.txBuffer config) /\
  Mcan_Tx.elementSize (Mcan.tx (mcan w'))
  = decodeTxElementSizeInBytes
      (Mcan_TxBufferConfig.elementSize (Mcan_Config.txBuffer config)) /\
  Mcan_Tx.queueAddress (Mcan.tx (mcan w'))
  = Mcan_Tx.bufferAddress (Mcan.tx (mcan w'))
    + Mcan_Tx.bufferSize (Mcan.tx (mcan w'))
      * Mcan_Tx.elementSize (Mcan.tx (mcan w')).
Proof.
  intros Hinv Hen Hbs Hrun. unfold Mcan_setConfig in Hrun.
  do 3 (apply bind_Done_inv in Hrun;
        destruct Hrun as (? & ? & _ & Hrun)).
  match type of Hrun with
  | (if negb ?started then _ else _) _ = _ =>
      destruct started; [cbn [negb] in Hrun | discriminate Hrun]
  end.
  do 13 (apply bind_Done_inv in Hrun;
         destruct Hrun as (? & ? & _ & Hrun)).
  apply bind_Done_inv in Hrun.
  destruct Hrun as (txOk & w1 & Htx & Hrun).
  destruct (setTxBuffer_enabled_returns config _ _ _ Hen Htx)
    as [-> | (Hvalid & Hsum & Hdesc)]; [discriminate Hrun|].
  destruct txOk; [cbn [negb] in Hrun | discriminate Hrun].
  pose proof (keeps_suffix config w1) as [Hsame _].
  rewrite Hrun in Hsame. unfold same_tx in Hsame. cbn [snd] in Hsame.
  rewrite Hsame, Hdesc. cbn [Mcan_Tx.bufferAddress Mcan_Tx.bufferSize
                               Mcan_Tx.elementSize Mcan_Tx.queueAddress].
  repeat split.
  assert (Hx : Mcan_TxBufferConfig.elementSize (Mcan_Config.txBuffer config)
               <> Mcan_ElementSize_Invalid).
  { intros E. apply Hvalid. rewrite E. symmetry. exact Hinv. }
  destruct (tx_stride_aligned _ Hx) as [Hal Hrange].
  now apply queue_address_exact.
Qed.

End TxAreaFacts.

Lemma setConfig_oversized_tx_area_counterexample :
  32 < Mcan_TxBufferConfig.bufferSize (sample_txBuffer false 32 1)
       + Mcan_TxBufferConfig.queueSize (sample_txBuffer false 32 1) /\
  fst (Mcan_setConfig (L := mcan_layout) (D := regfile)
         (sample_config (sample_txBuffer false 32 1)) 100
         (regfile_world [] blank_mcan))
  = Done tt /\
  fst (Mcan_setConfig (L := mcan_layout) (D := regfile)
         (sample_config (sample_txBuffer true 32 1)) 100
         (regfile_world [] blank_mcan))
  = Aborted /\
  length (filter is_write
            (log (snd (Mcan_setConfig (L := mcan_layout) (D := regfile)
                         (sample_config (sample_txBuffer true 32 1)) 100
                         (regfile_world [] blank_mcan)))))
  = 20%nat.
Proof. vm_compute. repeat split. Qed.

Lemma setConfig_oversized_tx_area_witness :
  (forall a,
      fst (Mcan_setConfig (L := mcan_layout) (D := regfile)
             (sample_config (sample_txBuffer true 32 1)) 100
             (regfile_world [] blank_mcan)) <> Done a) /\
  (forall w1,
      setTxBuffer (L := mcan_layout) (D := regfile)
        (sample_config (sample_txBuffer true 32 1)) w1
      = (Aborted, w1)) /\
  Mcan.tx (mcan (snd (Mcan_setConfig (L := mcan_layout) (D := regfile)
                        (sample_config (sample_txBuffer true 32 1)) 100
                        (regfile_world [] blank_mcan))))
  = Mcan.tx blank_mcan /\
  filter is_tx_config_write
    (log (snd (Mcan_setConfig (L := mcan_layout) (D := regfile)
                 (sample_config (sample_txBuffer true 32 1)) 100
                 (regfile_world [] blank_mcan))))
  = [].
Proof.
  apply (setConfig_oversized_tx_area (L := mcan_layout) (D := regfile)
           (sample_config (sample_txBuffer true 32 1)) 100
           (regfile_world [] blank_mcan)).
  - reflexivity.
  - simpl. lia.
Defined.

Lemma setConfig_tx_queue_follows_buffer_witness :
  Mcan_Tx.bufferAddress
    (Mcan.tx (mcan (snd (Mcan_setConfig (L := mcan_layout) (D := regfile)
                           (sample_config (sample_txBuffer true 4 4)) 100
                           (regfile_world [] blank_mcan)))))
  = 541066240 /\
  Mcan_Tx.bufferSize
    (Mcan.tx (mcan (snd (Mcan_setConfig (L := mcan_layout) (D := regfile)
                           (sample_config (sample_txBuffer true 4 4)) 100
                           (regfile_world [] blank_mcan)))))
  = 4 /\
  Mcan_Tx.elementSize
    (Mcan.tx (mcan (snd (Mcan_setConfig (L := mcan_layout) (D := regfile)
                           (sample_config (sample_txBuffer true 4 4)) 100
                           (regfile_world [] blank_mcan)))))
  = 16 /\
  Mcan_Tx.queueAddress
    (Mcan.tx (mcan (snd (Mcan_setConfig (L := mcan_layout) (D := regfile)
                           (sample_config (sample_txBuffer true 4 4)) 100
                           (regfile_world [] blank_mcan)))))
  = Mcan_Tx.bufferAddress
      (Mcan.tx (mcan (snd (Mcan_setConfig (L := mcan_layout) (D := regfile)
                             (sample_config (sample_txBuffer true 4 4)) 100
                             (regfile_world [] blank_mcan)))))
    + Mcan_Tx.bufferSize
        (Mcan.tx (mcan (snd (Mcan_setConfig (L := mcan_layout)
                               (D := regfile)
                               (sample_config (sample_txBuffer true 4 4))
                               100 (regfile_world [] blank_mcan)))))
      * Mcan_Tx.elementSize
          (Mcan.tx (mcan (snd (Mcan_setConfig (L := mcan_layout)
                                 (D := regfile)
                                 (sample_config (sample_txBuffer true 4 4))
                                 100 (regfile_world [] blank_mcan))))).
Proof.
  apply (setConfig_tx_queue_follows_buffer (L := mcan_layout) (D := regfile)
           (sample_config (sample_txBuffer true 4 4)) 100
           (regfile_world [] blank_mcan)).
  - reflexivity.
  - reflexivity.
  - simpl. lia.
  - vm_compute. reflexivity.
Defined.

(** ** The driver on concrete inputs *)

(** A queue push with put index 3 and 16-byte elements: the element goes to
    the fourth slot of the Tx area, its interrupt enable bit is cleared and
    the add request for buffer 3 is written. *)
Example txQueuePush_stores_element :
  let r := Mcan_txQueuePush (L := mcan_layout) (D := regfile)
             (sample_element 8)
             (regfile_world [(txfqs, 196608)] sample_mcan) in
  fst r = Done tt /\
  index_out (snd r) = 3 /\
  log (snd r) = [EvRead txfqs 196608; EvRead txbtie 0; EvWrite txbtie 0;
                 EvWrite txbar 8] /\
  map (ram (snd r)) (map (Z.add 541066288) [0; 1; 2; 3; 4; 5; 6; 7])
  = [0; 0; 140; 4; 0; 0; 8; 0] /\
  map (ram (snd r)) (map (Z.add 541066296) [0; 1; 2; 3; 4; 5; 6; 7])
  = [1; 2; 3; 4; 5; 6; 7; 8].
Proof. vm_compute. repeat split. Qed.

(** A pull from Rx FIFO 0 with fill level 2 and get index 1 decodes the
    second element and acknowledges index 1. *)
Example rxFifoPull_acknowledges :
  let r := Mcan_rxFifoPull (L := mcan_layout) (D := regfile)
             Mcan_RxFifoId_0
             (mkWorld (D := regfile) [(rxf0s, 258)]
                (store32 (store32 (store32 empty_ram 541066768 76283904)
                            541066772 196608) 541066776 16909060)
                sample_mcan 0 []) in
  option_map (fun e => (Mcan_RxElement.id e, Mcan_RxElement.dataSize e,
                        Mcan_RxElement.data e))
             (match fst r with Done e => Some e | _ => None end)
  = Some (291, 3, [4; 3; 2]) /\
  log (snd r) = [EvRead rxf0s 258; EvWrite rxf0a 1].
Proof. vm_compute. repeat split. Qed.

(** A configuration that passes every check, on a register file: the first
    poll of the control register shows the initialization bit (the second
    read belongs to [cccr |= CCE]), the Tx area is programmed, and the
    call ends by leaving initialization. *)
Example setConfig_succeeds :
  let r := Mcan_setConfig (L := mcan_layout) (D := regfile)
             (sample_config (sample_txBuffer true 4 4)) 100
             (regfile_world [] blank_mcan) in
  fst r = Done tt /\
  firstn 5 (log (snd r))
  = [EvRead canDmaBase 0; EvWrite canDmaBase 541065216; EvWrite cccr 1;
     EvRead cccr 1; EvRead cccr 1] /\
  filter is_tx_config_write (log (snd r))
  = [EvWrite txbc 67372032; EvWrite txesc 0] /\
  last (log (snd r)) (EvRead cccr 0) = EvWrite cccr 2.
Proof. vm_compute. repeat split. Qed.

(** * More of the driver: theorems *)

(** ** Data length codes *)

Lemma small_cases (P : Z -> Prop) (n : nat) :
  (forall k, (k < n)%nat -> P (Z.of_nat k)) ->
  forall x, 0 <= x < Z.of_nat n -> P x.
Proof.
  intros H x Hx. rewrite <- (Z2Nat.id x) by lia. apply H. lia.
Qed.

Lemma forallb_below (f : Z -> bool) (n : nat) :
  forallb f (map Z.of_nat (seq 0 n)) = true ->
  forall x, 0 <= x < Z.of_nat n -> f x = true.
Proof.
  intros H. apply (small_cases (fun x => f x = true)). intros k Hk.
  rewrite forallb_forall in H. apply H.
  apply in_map, in_seq. lia.
Qed.

(** X1. Every data length that has a code (0..8, 12, 16, 20, 24, 32, 48,
    64) is encoded into a 4-bit code from which a CAN-FD frame decodes the
    same length, and a classic frame that length capped at 8. *)
Theorem dataLengthCode_roundtrip (len : Z) :
  In len dataLengths ->
  0 <= encodeDataLengthCode len <= 15 /\
  decodeDataLengthCode (encodeDataLengthCode len) true = len /\
  decodeDataLengthCode (encodeDataLengthCode len) false = Z.min len 8.
Proof.
  unfold dataLengths. cbn [In]. intros H.
  repeat (destruct H as [<-|H]; [vm_compute; intuition discriminate|]).
  contradiction.
Qed.

Lemma dataLengthCode_roundtrip_witness :
  0 <= encodeDataLengthCode 48 <= 15 /\
  decodeDataLengthCode (encodeDataLengthCode 48) true = 48 /\
  decodeDataLengthCode (encodeDataLengthCode 48) false = Z.min 48 8.
Proof. apply (dataLengthCode_roundtrip 48). simpl. tauto. Defined.

(** X2. Every 4-bit code is the code of the length a CAN-FD frame decodes
    from it. *)
Theorem dataLengthCode_decode_encode (code : Z) :
  0 <= code <= 15 ->
  encodeDataLengthCode (decodeDataLengthCode code true) = code.
Proof.
  intros H. apply Z.eqb_eq.
  apply (forallb_below
           (fun c => encodeDataLengthCode (decodeDataLengthCode c true) =? c)
           16); [reflexivity | lia].
Qed.

Lemma dataLengthCode_decode_encode_witness :
  encodeDataLengthCode (decodeDataLengthCode 11 true) = 11.
Proof. apply (dataLengthCode_decode_encode 11). lia. Defined.

(** The checks of a decoded length, run on every byte and both frame
    formats. *)
Lemma decoded_length_checked (dlc : Z) (isCanFdFrame : bool) :
  0 <= dlc < 256 ->
  existsb (Z.eqb (decodeDataLengthCode dlc isCanFdFrame)) dataLengths
  && (decodeDataLengthCode dlc isCanFdFrame <=? 64)
  && (isCanFdFrame || (decodeDataLengthCode dlc isCanFdFrame <=? 8))
  = true.
Proof.
  intros H.
  pose (f := (fun c =>
       forallb
         (fun fd =>
            existsb (Z.eqb (decodeDataLengthCode c fd)) dataLengths
            && (decodeDataLengthCode c fd <=? 64)
            && (fd || (decodeDataLengthCode c fd <=? 8)))
         [true; false])).
  assert (Hall : f dlc = true)
    by (apply (forallb_below f 256); [vm_compute; reflexivity | lia]).
  subst f. cbn beta in Hall. rewrite forallb_forall in Hall.
  apply (Hall isCanFdFrame). destruct isCanFdFrame; simpl; tauto.
Qed.

(** X3. Whatever byte is found in a DLC field, [decodeDataLengthCode]
    yields one of the sixteen legal lengths, so at most 64, and at most 8
    for a frame that is not CAN-FD. *)
Theorem decodeDataLengthCode_legal (dlc : Z) (isCanFdFrame : bool) :
  0 <= dlc < 256 ->
  In (decodeDataLengthCode dlc isCanFdFrame) dataLengths /\
  decodeDataLengthCode dlc isCanFdFrame <= 64 /\
  (isCanFdFrame = false -> decodeDataLengthCode dlc isCanFdFrame <= 8).
Proof.
  intros H. pose proof (decoded_length_checked dlc isCanFdFrame H) as Hin.
  apply andb_prop in Hin as [Hin H8]. apply andb_prop in Hin as [Hin H64].
  split; [|split].
  - apply existsb_exists in Hin as (l & Hl & Heq).
    apply Z.eqb_eq in Heq. now rewrite Heq.
  - now apply Z.leb_le.
  - intros ->. now apply Z.leb_le.
Qed.

Lemma decodeDataLengthCode_legal_witness :
  In (decodeDataLengthCode 200 false) dataLengths /\
  decodeDataLengthCode 200 false <= 64 /\
  decodeDataLengthCode 200 false <= 8.
Proof.
  destruct (decodeDataLengthCode_legal 200 false) as (H1 & H2 & H3);
    [lia|].
  split; [exact H1 | split; [exact H2 | apply H3; reflexivity]].
Defined.

(** X4. A data size (one byte) gets the invalid code exactly when it is
    none of the sixteen legal lengths. *)
Theorem encodeDataLengthCode_invalid_iff (size : Z) :
  0 <= size < 256 ->
  encodeDataLengthCode size = Mcan_DataLengthCode_Invalid
  <-> ~ In size dataLengths.
Proof.
  intros H. split.
  - intros Hinv Hin. unfold dataLengths in Hin. cbn [In] in Hin.
    repeat (destruct Hin as [<-|Hin]; [discriminate Hinv|]).
    contradiction.
  - intros Hn. unfold encodeDataLengthCode.
    rewrite (u8_small size) by lia. change (u8 Mcan_DataLengthRaw_8) with 8.
    unfold dataLengths in Hn. cbn [In] in Hn.
    destruct (Z.leb_spec size 8); [lia|].
    repeat match goal with
           | |- context [?a =? ?b] =>
               destruct (Z.eqb_spec a b) as [E|_];
               [unfold Mcan_DataLengthRaw_12, Mcan_DataLengthRaw_16,
                  Mcan_DataLengthRaw_20, Mcan_DataLengthRaw_24,
                  Mcan_DataLengthRaw_32, Mcan_DataLengthRaw_48,
                  Mcan_DataLengthRaw_64 in E; exfalso; lia|]
           end.
    reflexivity.
Qed.

Lemma encodeDataLengthCode_invalid_iff_witness :
  encodeDataLengthCode 10 = Mcan_DataLengthCode_Invalid
  <-> ~ In 10 dataLengths.
Proof. apply (encodeDataLengthCode_invalid_iff 10). lia. Defined.

(** ** Binary coded decimals *)

(** X5. For every number from 0 to 99, [uint8ToBcd] gives a byte with
    the tens in the high and the units in the low half, both at most 9,
    and [bcdToUint8] gives the number back. *)
Theorem bcd_roundtrip (x : Z) :
  0 <= x <= 99 ->
  bcdToUint8 (uint8ToBcd x) = x /\
  Z.land (uint8ToBcd x) 15 = x mod 10 /\
  Z.shiftr (uint8ToBcd x) 4 = x / 10.
Proof.
  intros H.
  pose (f := (fun n => (bcdToUint8 (uint8ToBcd n) =? n)
              && (Z.land (uint8ToBcd n) 15 =? n mod 10)
              && (Z.shiftr (uint8ToBcd n) 4 =? n / 10))).
  assert (Hall : f x = true)
    by (apply (forallb_below f 100); [vm_compute; reflexivity | lia]).
  subst f. cbn beta in Hall.
  apply andb_prop in Hall as [Hall H3]. apply andb_prop in Hall as [H1 H2].
  rewrite Z.eqb_eq in H1, H2, H3. auto.
Qed.

Lemma bcd_roundtrip_witness :
  bcdToUint8 (uint8ToBcd 59) = 59 /\
  Z.land (uint8ToBcd 59) 15 = 59 mod 10 /\
  Z.shiftr (uint8ToBcd 59) 4 = 59 / 10.
Proof. apply (bcd_roundtrip 59). lia. Defined.

(** X6. Every byte whose two halves are decimal digits is the BCD form of
    the number [bcdToUint8] reads from it, and that number is at most
    99. *)
Theorem bcd_decode_encode (bcd : Z) :
  0 <= bcd < 256 -> Z.land bcd 15 <= 9 -> Z.shiftr bcd 4 <= 9 ->
  bcdToUint8 bcd <= 99 /\ uint8ToBcd (bcdToUint8 bcd) = bcd.
Proof.
  intros H Hlo Hhi.
  pose (f := (fun b => negb (Z.land b 15 <=? 9) || negb (Z.shiftr b 4 <=? 9)
              || ((bcdToUint8 b <=? 99)
                  && (uint8ToBcd (bcdToUint8 b) =? b)))).
  assert (Hall : f bcd = true)
    by (apply (forallb_below f 256); [vm_compute; reflexivity | lia]).
  subst f. cbn beta in Hall.
  apply Z.leb_le in Hlo, Hhi. rewrite Hlo, Hhi in Hall. cbn in Hall.
  apply andb_prop in Hall as [H1 H2].
  split; [now apply Z.leb_le | now apply Z.eqb_eq].
Qed.

Lemma bcd_decode_encode_witness :
  bcdToUint8 35 <= 99 /\ uint8ToBcd (bcdToUint8 35) = 35.
Proof.
  apply (bcd_decode_encode 35); [lia | vm_compute; discriminate
                                | vm_compute; discriminate].
Defined.

(** ** Bit fields *)

Lemma u32_testbit (x j : Z) :
  0 <= j -> Z.testbit (u32 x) j = (j <? 32) && Z.testbit x j.
Proof.
  intros Hj. unfold u32. destruct (Z.ltb_spec j 32).
  - now rewrite Z.mod_pow2_bits_low.
  - now rewrite Z.mod_pow2_bits_high by lia.
Qed.

Lemma small_testbit_high (x n j : Z) :
  0 <= x < 2 ^ n -> 0 <= n <= j -> Z.testbit x j = false.
Proof.
  intros Hx Hj. rewrite <- (Z.mod_small x (2 ^ n)) by assumption.
  now apply Z.mod_pow2_bits_high.
Qed.

Lemma field_mask_testbit (lo width k : Z) :
  0 <= lo -> 0 <= width -> 0 <= k ->
  Z.testbit (Z.shiftl (Z.ones width) lo) k
  = (lo <=? k) && (k <? lo + width).
Proof.
  intros Hlo Hw Hk. rewrite Z.shiftl_spec by assumption.
  destruct (Z.leb_spec lo k).
  - destruct (Z.ltb_spec k (lo + width)).
    + apply Z.ones_spec_low. lia.
    + apply Z.ones_spec_high. lia.
  - apply Z.testbit_neg_r. lia.
Qed.

(** X7. A value that fits a contiguous bit field is read back by
    [GET_FIELD_VALUE] from any register value made by or-ing
    [BIT_FIELD_VALUE] of it with bits outside the field. *)
Theorem bitField_roundtrip (f : BitField) (width value other : Z) :
  0 <= OFFSET f -> 0 <= width -> OFFSET f + width <= 32 ->
  MASK f = Z.shiftl (Z.ones width) (OFFSET f) ->
  0 <= value < 2 ^ width ->
  Z.land other (MASK f) = 0 ->
  GET_FIELD_VALUE f (Z.lor (BIT_FIELD_VALUE f value) other) = value.
Proof.
  intros Hlo Hw Hfit Hmask Hv Hother.
  unfold GET_FIELD_VALUE, BIT_FIELD_VALUE, getValueAtOffset, shiftValueLeft.
  apply Z.bits_inj'. intros i Hi.
  assert (Hob : Z.testbit other (i + OFFSET f)
                && Z.testbit (MASK f) (i + OFFSET f) = false).
  { rewrite <- Z.land_spec, Hother. apply Z.bits_0. }
  rewrite Hmask in *.
  rewrite Z.shiftr_spec by assumption.
  rewrite Z.land_spec, u32_testbit, Z.lor_spec, Z.land_spec, u32_testbit,
    Z.shiftl_spec, u32_testbit by lia.
  rewrite field_mask_testbit in * by lia.
  replace (i + OFFSET f - OFFSET f) with i by lia.
  destruct (Z.ltb_spec i width) as [Hin|Hout].
  - replace (OFFSET f <=? i + OFFSET f) with true in *
      by (symmetry; apply Z.leb_le; lia).
    replace (i + OFFSET f <? OFFSET f + width) with true in *
      by (symmetry; apply Z.ltb_lt; lia).
    replace (i + OFFSET f <? 32) with true
      by (symmetry; apply Z.ltb_lt; lia).
    replace (i <? 32) with true by (symmetry; apply Z.ltb_lt; lia).
    cbn [andb] in *. rewrite andb_true_r in *. rewrite Hob.
    now rewrite orb_false_r, andb_true_r.
  - replace (i + OFFSET f <? OFFSET f + width) with false
      by (symmetry; apply Z.ltb_ge; lia).
    rewrite !andb_false_r.
    symmetry. apply (small_testbit_high value width); lia.
Qed.

Lemma bitField_roundtrip_witness :
  GET_FIELD_VALUE (mkBitField 16 (Z.shiftl (Z.ones 6) 16))
    (Z.lor (BIT_FIELD_VALUE (mkBitField 16 (Z.shiftl (Z.ones 6) 16)) 33)
           1073741828) = 33.
Proof.
  apply (bitField_roundtrip (mkBitField 16 (Z.shiftl (Z.ones 6) 16)) 6 33
           1073741828); cbn [OFFSET MASK]; try lia; reflexivity.
Defined.

Section BitHelpers.

Context {D : Device}.

Lemma changeBitAtOffset_run
        (reg : Reg) (offset : Z) (value : bool) (w : World) :
  0 <= offset < 32 ->
  exists written,
    changeBitAtOffset reg offset value w
    = (Done tt,
       mkWorld (dev_write reg written (snd (dev_read reg (hw w))))
         (ram w) (mcan w) (index_out w)
         (log w ++ [EvRead reg (u32 (fst (dev_read reg (hw w))));
                    EvWrite reg written])) /\
    Z.testbit written offset = value /\
    forall j, j <> offset ->
      Z.testbit written j
      = Z.testbit (u32 (fst (dev_read reg (hw w)))) j.
Proof.
  intros Hoff. unfold changeBitAtOffset. unfold bind. cbn [reg_read].
  set (v := u32 (fst (dev_read reg (hw w)))).
  assert (Hv : forall j, 32 <= j -> Z.testbit v j = false).
  { intros j Hj. unfold v. rewrite u32_testbit by lia.
    destruct (Z.ltb_spec j 32); [lia | reflexivity]. }
  rewrite pow2_u32 by assumption.
  destruct value; unfold reg_write; cbn [hw ram mcan index_out log];
    rewrite <- app_assoc; cbn [app]; eexists; (split; [reflexivity|]).
  - split.
    + rewrite u32_testbit, Z.lor_spec, Z.pow2_bits_true by lia.
      destruct (Z.ltb_spec offset 32); [apply orb_true_r | lia].
    + intros j Hj. destruct (Z.neg_nonneg_cases j) as [Hn|Hp];
        [now rewrite !Z.testbit_neg_r by assumption|].
      rewrite u32_testbit, Z.lor_spec, Z.pow2_bits_false by lia.
      rewrite orb_false_r. destruct (Z.ltb_spec j 32); [reflexivity|].
      now rewrite Hv.
  - split.
    + rewrite u32_testbit, Z.land_spec, u32_testbit, Z.lnot_spec,
        Z.pow2_bits_true by lia.
      now rewrite !andb_false_r.
    + intros j Hj. destruct (Z.neg_nonneg_cases j) as [Hn|Hp];
        [now rewrite !Z.testbit_neg_r by assumption|].
      rewrite u32_testbit, Z.land_spec, u32_testbit, Z.lnot_spec,
        Z.pow2_bits_false by lia.
      destruct (Z.ltb_spec j 32); cbn [andb negb];
        [now rewrite andb_true_r | now rewrite Hv].
Qed.

(** X8. [changeBitAtOffset] reads the register once and writes it once;
    in the value written the bit at [offset] is the requested one and every
    other bit is as it was read. *)
Theorem changeBitAtOffset_one_bit
        (reg : Reg) (offset : Z) (value : bool) (w : World) :
  0 <= offset < 32 ->
  exists written,
    changeBitAtOffset reg offset value w
    = (Done tt,
       mkWorld (dev_write reg written (snd (dev_read reg (hw w))))
         (ram w) (mcan w) (index_out w)
         (log w ++ [EvRead reg (u32 (fst (dev_read reg (hw w))));
                    EvWrite reg written])) /\
    Z.testbit written offset = value /\
    forall j, j <> offset ->
      Z.testbit written j
      = Z.testbit (u32 (fst (dev_read reg (hw w)))) j.
Proof.
  intros Hoff.
  destruct (changeBitAtOffset_run reg offset value w Hoff)
    as (written & Hrun & Hbit & Hrest).
  exists written. split; [exact Hrun | split; assumption].
Qed.

(** X9. [setValueAtOffset] reads the register once and writes it once; the
    value written has, under the mask, the bits of the shifted value and,
    outside the mask, the bits that were read. *)
Theorem setValueAtOffset_under_mask
        (reg : Reg) (value offset mask : Z) (w : World) :
  0 <= mask < 2 ^ 32 ->
  exists written,
    setValueAtOffset reg value offset mask w
    = (Done tt,
       mkWorld (dev_write reg written (snd (dev_read reg (hw w))))
         (ram w) (mcan w) (index_out w)
         (log w ++ [EvRead reg (u32 (fst (dev_read reg (hw w))));
                    EvWrite reg written])) /\
    forall j,
      Z.testbit written j
      = if Z.testbit mask j
        then Z.testbit (u32 (Z.shiftl value offset)) j
        else Z.testbit (u32 (fst (dev_read reg (hw w)))) j.
Proof.
  intros Hmask. unfold setValueAtOffset, shiftValueLeft. unfold bind.
  cbn [reg_read]. unfold reg_write. cbn [hw ram mcan index_out log].
  rewrite <- app_assoc. cbn [app]. eexists. split; [reflexivity|].
  intros j. destruct (Z.neg_nonneg_cases j) as [Hn|Hp].
  - rewrite !Z.testbit_neg_r by assumption. now destruct (Z.testbit mask j).
  - rewrite !u32_testbit, Z.lor_spec, !Z.land_spec, !u32_testbit,
      Z.lnot_spec by lia.
    destruct (Z.ltb_spec j 32) as [Hlt|Hge];
      [|rewrite (small_testbit_high mask 32 j) by lia];
      repeat match goal with
             | |- context [Z.testbit ?a ?b] => destruct (Z.testbit a b)
             end; reflexivity.
Qed.

End BitHelpers.

Lemma changeBitAtOffset_one_bit_witness :
  exists written,
    changeBitAtOffset (D := regfile) ie 3 true (regfile_world [(ie, 5)] blank_mcan)
    = (Done tt,
       mkWorld (D := regfile) ((ie, written) :: [(ie, 5)]) empty_ram
         blank_mcan 0 [EvRead ie 5; EvWrite ie written]) /\
    Z.testbit written 3 = true /\
    forall j, j <> 3 -> Z.testbit written j = Z.testbit 5 j.
Proof.
  apply (changeBitAtOffset_one_bit (D := regfile) ie 3 true
           (regfile_world [(ie, 5)] blank_mcan)).
  lia.
Defined.

Lemma setValueAtOffset_under_mask_witness :
  exists written,
    setValueAtOffset (D := regfile) rxesc 5 8 1792
      (regfile_world [(rxesc, 119)] blank_mcan)
    = (Done tt,
       mkWorld (D := regfile) ((rxesc, written) :: [(rxesc, 119)]) empty_ram
         blank_mcan 0 [EvRead rxesc 119; EvWrite rxesc written]) /\
    forall j,
      Z.testbit written j
      = if Z.testbit 1792 j
        then Z.testbit (u32 (Z.shiftl 5 8)) j
        else Z.testbit 119 j.
Proof.
  apply (setValueAtOffset_under_mask (D := regfile) rxesc 5 8 1792
           (regfile_world [(rxesc, 119)] blank_mcan)).
  lia.
Defined.

(** ** The wait loops *)

Section WaitFacts.

Context {D : Device}.

Lemma waitForRegister_loop_polls (address : Reg) (mask : Z) (n : nat) :
  forall w,
  exists b s polls,
    waitForRegister_loop address mask n w
    = (Done b,
       mkWorld s (ram w) (mcan w) (index_out w) (log w ++ polls)) /\
    (length polls <= n)%nat /\
    (b = false ->
     length polls = n /\
     Forall (fun e => exists v, e = EvRead address v /\ Z.land v mask = 0)
            polls) /\
    (b = true ->
     exists earlier v,
       polls = earlier ++ [EvRead address v] /\ Z.land v mask <> 0 /\
       Forall (fun e => exists x, e = EvRead address x /\ Z.land x mask = 0)
              earlier).
Proof.
  induction n as [|n IH]; intros w.
  - exists false, (hw w), []. rewrite app_nil_r. destruct w.
    cbn. repeat split; auto; discriminate.
  - cbn [waitForRegister_loop]. unfold bind at 1. cbn [reg_read].
    set (v := u32 (fst (dev_read address (hw w)))).
    destruct (Z.eqb_spec (Z.land v mask) 0) as [Hz|Hnz]; cbn [negb].
    + match goal with
      | |- context [waitForRegister_loop _ _ _ ?w1] =>
          destruct (IH w1) as (b & s & polls & Hrun & Hlen & Hf & Ht)
      end.
      cbn [ram mcan index_out log] in Hrun.
      exists b, s, (EvRead address v :: polls). rewrite Hrun.
      rewrite <- app_assoc. cbn [app length].
      split; [reflexivity|]. split; [lia|]. split.
      * intros Hb. destruct (Hf Hb) as [Hl Hall].
        split; [lia | constructor; eauto].
      * intros Hb. destruct (Ht Hb) as (earlier & x & -> & Hx & Hall).
        exists (EvRead address v :: earlier), x.
        repeat split; [assumption | constructor; eauto].
    + exists true, (snd (dev_read address (hw w))), [EvRead address v].
      cbn [ret length]. split; [reflexivity|]. split; [lia|]. split.
      * discriminate.
      * intros _. exists [], v. repeat split; [assumption | constructor].
Qed.

(** X10. [waitForRegisterWithTimeout] only reads the register: it returns
    [true] at the first read that shows a bit of the mask, after at most
    [timeout] reads, and [false] after exactly [timeout] reads that show
    none.  Nothing is written. *)
Theorem waitForRegisterWithTimeout_polls
        (address : Reg) (mask timeout : Z) (w : World) :
  exists b s polls,
    waitForRegisterWithTimeout address mask timeout w
    = (Done b,
       mkWorld s (ram w) (mcan w) (index_out w) (log w ++ polls)) /\
    (length polls <= Z.to_nat (u32 timeout))%nat /\
    (b = false ->
     length polls = Z.to_nat (u32 timeout) /\
     Forall (fun e => exists v, e = EvRead address v /\ Z.land v mask = 0)
            polls) /\
    (b = true ->
     exists earlier v,
       polls = earlier ++ [EvRead address v] /\ Z.land v mask <> 0 /\
       Forall (fun e => exists x, e = EvRead address x /\ Z.land x mask = 0)
              earlier).
Proof. apply waitForRegister_loop_polls. Qed.

Lemma waitForRegisterClear_loop_polls (address : Reg) (mask : Z) (n : nat) :
  forall w,
  exists b s polls,
    waitForRegisterClear_loop address mask n w
    = (Done b,
       mkWorld s (ram w) (mcan w) (index_out w) (log w ++ polls)) /\
    (length polls <= n)%nat /\
    (b = false ->
     length polls = n /\
     Forall (fun e => exists v, e = EvRead address v /\ Z.land v mask <> 0)
            polls) /\
    (b = true ->
     exists earlier v,
       polls = earlier ++ [EvRead address v] /\ Z.land v mask = 0 /\
       Forall (fun e => exists x, e = EvRead address x /\ Z.land x mask <> 0)
              earlier).
Proof.
  induction n as [|n IH]; intros w.
  - exists false, (hw w), []. rewrite app_nil_r. destruct w.
    cbn. repeat split; auto; discriminate.
  - cbn [waitForRegisterClear_loop]. unfold bind at 1. cbn [reg_read].
    set (v := u32 (fst (dev_read address (hw w)))).
    destruct (Z.eqb_spec (Z.land v mask) 0) as [Hz|Hnz].
    + exists true, (snd (dev_read address (hw w))), [EvRead address v].
      cbn [ret length]. split; [reflexivity|]. split; [lia|]. split.
      * discriminate.
      * intros _. exists [], v. repeat split; [assumption | constructor].
    + match goal with
      | |- context [waitForRegisterClear_loop _ _ _ ?w1] =>
          destruct (IH w1) as (b & s & polls & Hrun & Hlen & Hf & Ht)
      end.
      cbn [ram mcan index_out log] in Hrun.
      exists b, s, (EvRead address v :: polls). rewrite Hrun.
      rewrite <- app_assoc. cbn [app length].
      split; [reflexivity|]. split; [lia|]. split.
      * intros Hb. destruct (Hf Hb) as [Hl Hall].
        split; [lia | constructor; eauto].
      * intros Hb. destruct (Ht Hb) as (earlier & x & -> & Hx & Hall).
        exists (EvRead address v :: earlier), x.
        repeat split; [assumption | constructor; eauto].
Qed.

(** X11. [waitForRegisterClearWithTimeout] only reads the register: it
    returns [true] at the first read that shows no bit of the mask, after
    at most [timeout] reads, and [false] after exactly [timeout] reads that
    all show one. *)
Theorem waitForRegisterClearWithTimeout_polls
        (address : Reg) (mask timeout : Z) (w : World) :
  exists b s polls,
    waitForRegisterClearWithTimeout address mask timeout w
    = (Done b,
       mkWorld s (ram w) (mcan w) (index_out w) (log w ++ polls)) /\
    (length polls <= Z.to_nat (u32 timeout))%nat /\
    (b = false ->
     length polls = Z.to_nat (u32 timeout) /\
     Forall (fun e => exists v, e = EvRead address v /\ Z.land v mask <> 0)
            polls) /\
    (b = true ->
     exists earlier v,
       polls = earlier ++ [EvRead address v] /\ Z.land v mask = 0 /\
       Forall (fun e => exists x, e = EvRead address x /\ Z.land x mask <> 0)
              earlier).
Proof. apply waitForRegisterClear_loop_polls. Qed.

End WaitFacts.

Lemma waitForRegisterWithTimeout_polls_witness :
  exists earlier v,
    [EvRead cccr 1] = earlier ++ [EvRead cccr v] /\ Z.land v 1 <> 0 /\
    Forall (fun e => exists x, e = EvRead cccr x /\ Z.land x 1 = 0) earlier.
Proof.
  destruct (waitForRegisterWithTimeout_polls (D := regfile) cccr 1 5
              (regfile_world [(cccr, 1)] blank_mcan))
    as (b & s & polls & Hrun & _ & _ & Htrue).
  vm_compute in Hrun. inversion Hrun; subst. apply Htrue. reflexivity.
Defined.

Lemma waitForRegisterClearWithTimeout_polls_witness :
  length [EvRead cccr 1; EvRead cccr 1; EvRead cccr 1] = Z.to_nat (u32 3) /\
  Forall (fun e => exists v, e = EvRead cccr v /\ Z.land v 1 <> 0)
         [EvRead cccr 1; EvRead cccr 1; EvRead cccr 1].
Proof.
  destruct (waitForRegisterClearWithTimeout_polls (D := regfile) cccr 1 3
              (regfile_world [(cccr, 1)] blank_mcan))
    as (b & s & polls & Hrun & _ & Hfalse & _).
  vm_compute in Hrun. inversion Hrun; subst. apply Hfalse. reflexivity.
Defined.


(** ** Message RAM *)

Lemma store8_other (m : Ram) (a v x : Z) :
  x <> a -> store8 m a v x = m x.
Proof.
  intros H. unfold store8. destruct (Z.eqb_spec x a); [contradiction|].
  reflexivity.
Qed.

Lemma store8_same (m : Ram) (a v : Z) : store8 m a v a = u8 v.
Proof. unfold store8. now rewrite Z.eqb_refl. Qed.

Lemma same_outside_refl (lo hi : Z) (m : Ram) : same_outside lo hi m m.
Proof. intros a _. reflexivity. Qed.

Lemma same_outside_store8 (lo hi : Z) (m m' : Ram) (p v : Z) :
  same_outside lo hi m m' -> lo <= p < hi ->
  same_outside lo hi m (store8 m' p v).
Proof.
  intros H Hp a Ha. rewrite store8_other by lia. now apply H.
Qed.

Lemma same_outside_store32 (lo hi : Z) (m m' : Ram) (p v : Z) :
  same_outside lo hi m m' -> lo <= p -> p + 4 <= hi ->
  same_outside lo hi m (store32 m' p v).
Proof.
  intros H Hlo Hhi. unfold store32.
  repeat apply same_outside_store8; try lia. exact H.
Qed.

Lemma same_outside_memset (n : nat) :
  forall (lo hi : Z) (m m' : Ram) (p c : Z),
    same_outside lo hi m m' -> lo <= p -> p + Z.of_nat n <= hi ->
    same_outside lo hi m (memset m' p c n).
Proof.
  induction n as [|n IH]; intros lo hi m m' p c H Hlo Hhi; cbn [memset].
  - exact H.
  - apply IH; [apply same_outside_store8; [exact H | lia] | lia | lia].
Qed.

Lemma same_outside_memcpy (n : nat) :
  forall (lo hi : Z) (m m' : Ram) (p : Z) (src : list Z),
    same_outside lo hi m m' -> lo <= p -> p + Z.of_nat n <= hi ->
    same_outside lo hi m (memcpy_from_list m' p src n).
Proof.
  induction n as [|n IH]; intros lo hi m m' p src H Hlo Hhi;
    cbn [memcpy_from_list].
  - exact H.
  - apply IH; [apply same_outside_store8; [exact H | lia] | lia | lia].
Qed.

Lemma memcpy_from_list_below (n : nat) :
  forall (m : Ram) (p : Z) (src : list Z) (a : Z),
    a < p -> memcpy_from_list m p src n a = m a.
Proof.
  intros m p src a Ha.
  apply (same_outside_memcpy n p (p + Z.of_nat n) m m p src);
    [apply same_outside_refl | lia | lia | lia].
Qed.

Lemma memcpy_roundtrip (n : nat) :
  forall (m : Ram) (p : Z) (src : list Z),
    (n <= length src)%nat ->
    memcpy_to_list (memcpy_from_list m p src n) p n
    = map u8 (firstn n src).
Proof.
  induction n as [|n IH]; intros m p src Hlen; [reflexivity|].
  destruct src as [|b src]; [cbn in Hlen; lia|].
  cbn [memcpy_from_list memcpy_to_list hd tl firstn map].
  rewrite memcpy_from_list_below by lia. rewrite store8_same.
  f_equal.
  - unfold_ints. lia.
  - apply IH. cbn in Hlen. lia.
Qed.

Lemma memcpy_to_list_length (n : nat) :
  forall (m : Ram) (p : Z), length (memcpy_to_list m p n) = n.
Proof.
  induction n as [|n IH]; intros m p; cbn [memcpy_to_list length];
    [reflexivity | now rewrite IH].
Qed.

(** ** The transmit path, when it succeeds *)

Section TransmitMore.

Context {L : McanRegisters} {D : Device}.

Lemma encodeDataLengthCode_code (size : Z) :
  In size dataLengths ->
  (u32 (encodeDataLengthCode size) =? Mcan_DataLengthCode_Invalid) = false.
Proof.
  unfold dataLengths. cbn [In]. intros H.
  repeat (destruct H as [<-|H]; [reflexivity|]). contradiction.
Qed.

(** One RAM operation of a sequence: run it and name the memory it
    leaves. *)
Ltac ram_step :=
  unfold bind at 1;
  first [ unfold ram_or32 at 1 | idtac ];
  cbn [modify_ram ret hw ram mcan index_out log];
  try match goal with
      | |- context [mkWorld _ ?r _ _ _] =>
          tryif is_var r then fail
          else (let r' := fresh "r" in remember r as r')
      end.

Ltac outside_facts lo hi :=
  repeat match goal with
         | Heq : ?r = memset (ram ?w) ?p ?c ?n |- _ =>
             assert (same_outside lo hi (ram w) r)
               by (rewrite Heq; apply same_outside_memset;
                   [apply same_outside_refl | lia
                   | rewrite Z2Nat.id by lia; lia]);
             clear Heq
         | Heq : ?r = store32 ?r0 _ _, H0 : same_outside _ _ _ ?r0 |- _ =>
             match type of H0 with
             | same_outside _ _ ?m0 _ =>
                 assert (same_outside lo hi m0 r)
               by (rewrite Heq; apply same_outside_store32;
                       [exact H0 | lia | lia])
             end;
             clear Heq H0
         end.

(** What [txAddElement] does with an element it accepts. *)
Lemma txAddElement_run
      (element : Mcan_TxElement.t) (baseAddress index : Z) (w : World) :
  MCAN_DLC_INVALID = Mcan_DataLengthCode_Invalid ->
  0 <= index < 32 ->
  In (Mcan_TxElement.dataSize element) dataLengths ->
  exists header written,
    txAddElement element baseAddress index w
    = (Done true,
       mkWorld
         (dev_write txbtie written (snd (dev_read txbtie (hw w))))
         (memcpy_from_list header
            (word_ptr baseAddress MCAN_TXELEMENT_DATA_WORD)
            (Mcan_TxElement.data element)
            (Z.to_nat (Mcan_TxElement.dataSize element)))
         (mcan w) (index_out w)
         (log w ++ [EvRead txbtie (u32 (fst (dev_read txbtie (hw w))));
                    EvWrite txbtie written])) /\
    Z.testbit written index = Mcan_TxElement.isInterruptEnabled element /\
    (forall j, j <> index ->
       Z.testbit written j
       = Z.testbit (u32 (fst (dev_read txbtie (hw w)))) j) /\
    (Forall (fun k => 0 <= k < MCAN_TXELEMENT_DATA_WORD)
            txElementHeaderWords ->
     sizeof_uint32_t * MCAN_TXELEMENT_DATA_WORD
     <= Mcan_Tx.elementSize (Mcan.tx (mcan w)) ->
     same_outside baseAddress
       (baseAddress + Mcan_Tx.elementSize (Mcan.tx (mcan w)))
       (ram w) header).
Proof.
  intros Hinv Hidx Hsize. unfold txAddElement.
  rewrite Hinv, encodeDataLengthCode_code by assumption.
  unfold bind at 1. cbn [get_mcan].
  destruct (Mcan_TxElement.idType element =? Mcan_IdType_Standard),
    (Mcan_TxElement.isTxEventStored element),
    (Mcan_TxElement.isCanFdFormatEnabled element),
    (Mcan_TxElement.isBitRateSwitchingEnabled element);
    (do 10 ram_step;
     unfold bind at 1; cbn [modify_ram hw ram mcan index_out log];
     match goal with
     | |- context [bind (changeBitAtOffset txbtie index ?v) _ ?w1] =>
         destruct (changeBitAtOffset_run txbtie index v w1 Hidx)
           as (written & Hrun & Hbit & Hrest)
     end;
     cbn [hw ram mcan index_out log] in Hrun, Hrest;
     rewrite (bind_Done _ _ _ _ _ Hrun); cbn [ret];
     eexists; exists written;
     (split; [reflexivity|]); (split; [exact Hbit|]);
     (split; [exact Hrest|]);
     intros Hwords Hfit; unfold txElementHeaderWords in Hwords;
     repeat match goal with
            | H : Forall _ (_ :: _) |- _ =>
                pose proof (Forall_inv H); apply Forall_inv_tail in H
            end;
     cbv beta in *;
     unfold sizeof_uint32_t in *;
     outside_facts baseAddress
       (baseAddress + Mcan_Tx.elementSize (Mcan.tx (mcan w)));
     assumption).
Qed.

End TransmitMore.


Section TransmitAccepted.

Context {L : McanRegisters} {D : Device}.

(** What [txAddElement] leaves behind for an element it accepts: the
    interrupt enable bit of the slot, the payload, and a message RAM that
    differs from the old one inside the slot only. *)
Lemma txAddElement_accepts
      (element : Mcan_TxElement.t) (baseAddress index : Z) (w : World) :
  MCAN_DLC_INVALID = Mcan_DataLengthCode_Invalid ->
  0 <= index < 32 ->
  In (Mcan_TxElement.dataSize element) dataLengths ->
  (Z.to_nat (Mcan_TxElement.dataSize element)
   <= length (Mcan_TxElement.data element))%nat ->
  Forall (fun k => 0 <= k < MCAN_TXELEMENT_DATA_WORD) txElementHeaderWords ->
  sizeof_uint32_t * MCAN_TXELEMENT_DATA_WORD
  + Mcan_TxElement.dataSize element
  <= Mcan_Tx.elementSize (Mcan.tx (mcan w)) ->
  exists written ram',
    txAddElement element baseAddress index w
    = (Done true,
       mkWorld
         (dev_write txbtie written (snd (dev_read txbtie (hw w))))
         ram' (mcan w) (index_out w)
         (log w ++ [EvRead txbtie (u32 (fst (dev_read txbtie (hw w))));
                    EvWrite txbtie written])) /\
    Z.testbit written index = Mcan_TxElement.isInterruptEnabled element /\
    (forall j, j <> index ->
       Z.testbit written j
       = Z.testbit (u32 (fst (dev_read txbtie (hw w)))) j) /\
    memcpy_to_list ram' (word_ptr baseAddress MCAN_TXELEMENT_DATA_WORD)
      (Z.to_nat (Mcan_TxElement.dataSize element))
    = map u8 (firstn (Z.to_nat (Mcan_TxElement.dataSize element))
                (Mcan_TxElement.data element)) /\
    same_outside baseAddress
      (baseAddress + Mcan_Tx.elementSize (Mcan.tx (mcan w)))
      (ram w) ram'.
Proof.
  intros Hinv Hidx Hsize Hlen Hwords Hfit.
  assert (Hpos : 0 <= Mcan_TxElement.dataSize element).
  { unfold dataLengths in Hsize. cbn [In] in Hsize.
    repeat (destruct Hsize as [<-|Hsize]; [lia|]). contradiction. }
  assert (Hdata : 0 < MCAN_TXELEMENT_DATA_WORD).
  { unfold txElementHeaderWords in Hwords.
    pose proof (Forall_inv Hwords) as H0. cbv beta in H0. lia. }
  destruct (txAddElement_run element baseAddress index w Hinv Hidx Hsize)
    as (header & written & Hrun & Hbit & Hrest & Hout).
  exists written. eexists. split; [exact Hrun|].
  split; [exact Hbit|]. split; [exact Hrest|]. split.
  - apply memcpy_roundtrip. exact Hlen.
  - unfold sizeof_uint32_t in *.
    apply same_outside_memcpy.
    + apply Hout; [exact Hwords | lia].
    + unfold word_ptr, sizeof_uint32_t. lia.
    + unfold word_ptr, sizeof_uint32_t. rewrite Z2Nat.id by lia. lia.
Qed.

(** X12. [Mcan_txBufferAdd] with a valid index but a data size that has
    no data length code fails with [Mcan_ErrorCode_ElementSizeInvalid] and
    leaves the world as it was: no register is read or written and message
    RAM is untouched. *)
Theorem txBufferAdd_invalid_size
        (element : Mcan_TxElement.t) (index : Z) (w : World) :
  MCAN_DLC_INVALID = Mcan_DataLengthCode_Invalid ->
  index < Mcan_Tx.bufferSize (Mcan.tx (mcan w)) ->
  0 <= Mcan_TxElement.dataSize element < 256 ->
  ~ In (Mcan_TxElement.dataSize element) dataLengths ->
  Mcan_txBufferAdd element index w
  = (Failed Mcan_ErrorCode_ElementSizeInvalid, w).
Proof.
  intros Hinv Hidx Hr Hn. unfold Mcan_txBufferAdd.
  unfold bind at 1. cbn [get_mcan].
  destruct (Z.leb_spec (Mcan_Tx.bufferSize (Mcan.tx (mcan w))) index);
    [lia|].
  erewrite bind_Done by (now apply txAddElement_no_code).
  reflexivity.
Qed.

(** X13. [Mcan_txBufferAdd] of an element with a legal data size into a
    configured dedicated buffer succeeds.  Its device accesses are, in
    this order, a read of TXBTIE, a write of TXBTIE that sets bit [index]
    to the element's interrupt enable flag and keeps every other bit, and
    a write of TXBAR whose value is the single bit [index]; the descriptor
    and the caller's index cell are unchanged. *)
Theorem txBufferAdd_requests
        (element : Mcan_TxElement.t) (index : Z) (w : World) :
  MCAN_DLC_INVALID = Mcan_DataLengthCode_Invalid ->
  0 <= index < Mcan_Tx.bufferSize (Mcan.tx (mcan w)) ->
  index < 32 ->
  In (Mcan_TxElement.dataSize element) dataLengths ->
  exists written w',
    Mcan_txBufferAdd element index w = (Done tt, w') /\
    hw w' = dev_write txbar (2 ^ index)
              (dev_write txbtie written (snd (dev_read txbtie (hw w)))) /\
    log w' = log w ++ [EvRead txbtie (u32 (fst (dev_read txbtie (hw w))));
                       EvWrite txbtie written;
                       EvWrite txbar (2 ^ index)] /\
    Z.testbit written index = Mcan_TxElement.isInterruptEnabled element /\
    (forall j, j <> index ->
       Z.testbit written j
       = Z.testbit (u32 (fst (dev_read txbtie (hw w)))) j) /\
    mcan w' = mcan w /\ index_out w' = index_out w.
Proof.
  intros Hinv Hidx H32 Hsize. unfold Mcan_txBufferAdd.
  unfold bind at 1. cbn [get_mcan].
  destruct (Z.leb_spec (Mcan_Tx.bufferSize (Mcan.tx (mcan w))) index);
    [lia|].
  match goal with
  | |- context [txAddElement element ?p index] =>
      destruct (txAddElement_run element p index w Hinv
                  (conj (proj1 Hidx) H32) Hsize)
        as (header & written & Hrun & Hbit & Hrest & _)
  end.
  exists written. eexists.
  rewrite (bind_Done _ _ _ _ _ Hrun). cbn [negb].
  unfold reg_write. cbn [hw ram mcan index_out log].
  rewrite u32_idem, pow2_u32 by lia.
  split; [reflexivity|]. cbn [hw ram mcan index_out log].
  rewrite <- app_assoc. cbn [app].
  repeat split; assumption.
Qed.

(** X14. The same call stores the element in slot [index] of the Tx area:
    the first [dataSize] bytes of the caller's buffer are found, byte for
    byte, at the data word of the slot, and message RAM outside the slot
    is as before.  The header words lie before the data word and the
    slot is large enough for header and payload. *)
Theorem txBufferAdd_stores
        (element : Mcan_TxElement.t) (index : Z) (w : World) :
  MCAN_DLC_INVALID = Mcan_DataLengthCode_Invalid ->
  0 <= index < Mcan_Tx.bufferSize (Mcan.tx (mcan w)) ->
  index < 32 ->
  In (Mcan_TxElement.dataSize element) dataLengths ->
  (Z.to_nat (Mcan_TxElement.dataSize element)
   <= length (Mcan_TxElement.data element))%nat ->
  Forall (fun k => 0 <= k < MCAN_TXELEMENT_DATA_WORD) txElementHeaderWords ->
  sizeof_uint32_t * MCAN_TXELEMENT_DATA_WORD
  + Mcan_TxElement.dataSize element
  <= Mcan_Tx.elementSize (Mcan.tx (mcan w)) ->
  exists w',
    Mcan_txBufferAdd element index w = (Done tt, w') /\
    memcpy_to_list (ram w')
      (word_ptr (txSlotAddress (mcan w) index) MCAN_TXELEMENT_DATA_WORD)
      (Z.to_nat (Mcan_TxElement.dataSize element))
    = map u8 (firstn (Z.to_nat (Mcan_TxElement.dataSize element))
                (Mcan_TxElement.data element)) /\
    same_outside (txSlotAddress (mcan w) index)
      (txSlotAddress (mcan w) index
       + Mcan_Tx.elementSize (Mcan.tx (mcan w)))
      (ram w) (ram w').
Proof.
  intros Hinv Hidx H32 Hsize Hlen Hwords Hfit. unfold Mcan_txBufferAdd.
  unfold bind at 1. cbn [get_mcan].
  destruct (Z.leb_spec (Mcan_Tx.bufferSize (Mcan.tx (mcan w))) index);
    [lia|].
  fold (txSlotAddress (mcan w) index).
  destruct (txAddElement_accepts element (txSlotAddress (mcan w) index)
              index w Hinv (conj (proj1 Hidx) H32) Hsize Hlen Hwords Hfit)
    as (written & ram' & Hrun & _ & _ & Hdata & Hout).
  eexists. rewrite (bind_Done _ _ _ _ _ Hrun). cbn [negb].
  unfold reg_write. cbn [hw ram mcan index_out log].
  split; [reflexivity|]. cbn [ram]. split; assumption.
Qed.

(** X15. [Mcan_txQueuePush] with the queue not full and a legal data size
    succeeds: the caller's index cell receives the put index [TFQPI] read
    from TXFQS, the element is stored in the slot of that index (payload
    at its data word, message RAM outside the slot unchanged), and the
    last device access is a write of TXBAR whose value is the single bit
    of the put index. *)
Theorem txQueuePush_sends (element : Mcan_TxElement.t) (w : World) :
  let status := u32 (fst (dev_read txfqs (hw w))) in
  let putIndex := u8 (GET_FIELD_VALUE MCAN_TXFQS_TFQPI status) in
  0 <= OFFSET MCAN_TXFQS_TFQF < 32 ->
  MCAN_DLC_INVALID = Mcan_DataLengthCode_Invalid ->
  Z.testbit status (OFFSET MCAN_TXFQS_TFQF) = false ->
  putIndex < 32 ->
  In (Mcan_TxElement.dataSize element) dataLengths ->
  (Z.to_nat (Mcan_TxElement.dataSize element)
   <= length (Mcan_TxElement.data element))%nat ->
  Forall (fun k => 0 <= k < MCAN_TXELEMENT_DATA_WORD) txElementHeaderWords ->
  sizeof_uint32_t * MCAN_TXELEMENT_DATA_WORD
  + Mcan_TxElement.dataSize element
  <= Mcan_Tx.elementSize (Mcan.tx (mcan w)) ->
  exists written w',
    Mcan_txQueuePush element w = (Done tt, w') /\
    index_out w' = putIndex /\
    log w' = log w ++ [EvRead txfqs status;
                       EvRead txbtie
                         (u32 (fst (dev_read txbtie
                                      (snd (dev_read txfqs (hw w))))));
                       EvWrite txbtie written;
                       EvWrite txbar (2 ^ putIndex)] /\
    Z.testbit written putIndex
    = Mcan_TxElement.isInterruptEnabled element /\
    memcpy_to_list (ram w')
      (word_ptr (txSlotAddress (mcan w) putIndex) MCAN_TXELEMENT_DATA_WORD)
      (Z.to_nat (Mcan_TxElement.dataSize element))
    = map u8 (firstn (Z.to_nat (Mcan_TxElement.dataSize element))
                (Mcan_TxElement.data element)) /\
    same_outside (txSlotAddress (mcan w) putIndex)
      (txSlotAddress (mcan w) putIndex
       + Mcan_Tx.elementSize (Mcan.tx (mcan w)))
      (ram w) (ram w') /\
    mcan w' = mcan w.
Proof.
  intros status putIndex Hoff Hinv Hfree H32 Hsize Hlen Hwords Hfit.
  assert (Hput : 0 <= putIndex < 32).
  { split; [|exact H32]. subst putIndex. unfold u8.
    apply Z.mod_pos_bound. reflexivity. }
  unfold Mcan_txQueuePush. unfold bind at 1.
  cbn [reg_read]. unfold IS_BIT_SET.
  rewrite u32_idem, isBitSet_testbit by assumption.
  fold status. rewrite Hfree.
  unfold bind at 1. cbn [set_index_out hw ram mcan index_out log].
  unfold bind at 1. cbn [get_mcan mcan].
  fold putIndex. fold (txSlotAddress (mcan w) putIndex).
  match goal with
  | |- context [bind (txAddElement element _ putIndex) _ ?w1] =>
      destruct (txAddElement_accepts element
                  (txSlotAddress (mcan w) putIndex) putIndex w1
                  Hinv Hput Hsize Hlen Hwords Hfit)
        as (written & ram' & Hrun & Hbit & _ & Hdata & Hout)
  end.
  cbn [hw ram mcan index_out log] in Hrun, Hout.
  exists written. eexists.
  rewrite (bind_Done _ _ _ _ _ Hrun). cbn [negb].
  unfold reg_write. cbn [hw ram mcan index_out log].
  rewrite u32_idem, pow2_u32 by lia.
  split; [reflexivity|]. cbn [hw ram mcan index_out log].
  rewrite <- !app_assoc. cbn [app].
  repeat split; assumption.
Qed.

End TransmitAccepted.

Lemma txBufferAdd_invalid_size_witness :
  Mcan_txBufferAdd (L := mcan_layout) (D := regfile)
    (sample_element 9) 1 (regfile_world [] sample_mcan)
  = (Failed Mcan_ErrorCode_ElementSizeInvalid, regfile_world [] sample_mcan).
Proof.
  apply (txBufferAdd_invalid_size (L := mcan_layout) (D := regfile)).
  - reflexivity.
  - simpl. lia.
  - simpl. lia.
  - simpl. lia.
Defined.

Lemma txBufferAdd_requests_witness :
  exists written w',
    Mcan_txBufferAdd (L := mcan_layout) (D := regfile)
      (sample_element 8) 1 (regfile_world [(txbtie, 5)] sample_mcan)
    = (Done tt, w') /\
    hw w' = [(txbar, 2); (txbtie, written); (txbtie, 5)] /\
    log w' = [EvRead txbtie 5; EvWrite txbtie written; EvWrite txbar 2] /\
    Z.testbit written 1 = false /\
    (forall j, j <> 1 -> Z.testbit written j = Z.testbit 5 j) /\
    mcan w' = sample_mcan /\ index_out w' = 0.
Proof.
  apply (txBufferAdd_requests (L := mcan_layout) (D := regfile)
           (sample_element 8) 1 (regfile_world [(txbtie, 5)] sample_mcan)).
  - reflexivity.
  - simpl. lia.
  - lia.
  - simpl. tauto.
Defined.

Lemma txBufferAdd_stores_witness :
  exists w',
    Mcan_txBufferAdd (L := mcan_layout) (D := regfile)
      (sample_element 8) 1 (regfile_world [] sample_mcan)
    = (Done tt, w') /\
    memcpy_to_list (ram w') 541066264 8 = [1; 2; 3; 4; 5; 6; 7; 8] /\
    same_outside 541066256 541066272 empty_ram (ram w').
Proof.
  apply (txBufferAdd_stores (L := mcan_layout) (D := regfile)
           (sample_element 8) 1 (regfile_world [] sample_mcan)).
  - reflexivity.
  - simpl. lia.
  - lia.
  - simpl. tauto.
  - simpl. lia.
  - repeat constructor; simpl; lia.
  - simpl. lia.
Defined.

Lemma txQueuePush_sends_witness :
  exists written w',
    Mcan_txQueuePush (L := mcan_layout) (D := regfile)
      (sample_element 8) (regfile_world [(txfqs, 196608)] sample_mcan)
    = (Done tt, w') /\
    index_out w' = 3 /\
    log w' = [EvRead txfqs 196608; EvRead txbtie 0;
              EvWrite txbtie written; EvWrite txbar 8] /\
    Z.testbit written 3 = false /\
    memcpy_to_list (ram w') 541066296 8 = [1; 2; 3; 4; 5; 6; 7; 8] /\
    same_outside 541066288 541066304 empty_ram (ram w') /\
    mcan w' = sample_mcan.
Proof.
  apply (txQueuePush_sends (L := mcan_layout) (D := regfile)
           (sample_element 8)
           (regfile_world [(txfqs, 196608)] sample_mcan)).
  - simpl. lia.
  - reflexivity.
  - reflexivity.
  - vm_compute. reflexivity.
  - simpl. tauto.
  - simpl. lia.
  - repeat constructor; simpl; lia.
  - simpl. lia.
Defined.

(** ** The receive path, when it delivers *)

Section ReceiveMore.

Context {L : McanRegisters} {LS : McanStatusRegisters} {D : Device}.

(** What [getRxElement] returns, whatever message RAM holds: it changes
    nothing, and the payload it copies has one of the legal lengths. *)
Lemma getRxElement_shape (baseAddr : Z) (w : World) :
  exists element,
    getRxElement baseAddr w = (Done element, w) /\
    In (Mcan_RxElement.dataSize element) dataLengths /\
    (Mcan_RxElement.isCanFdFormatEnabled element = false ->
     Mcan_RxElement.dataSize element <= 8) /\
    Mcan_RxElement.data element
    = memcpy_to_list (ram w) (word_ptr baseAddr MCAN_RXELEMENT_DATA_WORD)
        (Z.to_nat (Mcan_RxElement.dataSize element)).
Proof.
  unfold getRxElement. eexists. split; [reflexivity|].
  cbn [Mcan_RxElement.dataSize Mcan_RxElement.isCanFdFormatEnabled
       Mcan_RxElement.data].
  match goal with
  | |- context [decodeDataLengthCode (u8 ?c) ?fd] =>
      set (dlc := u8 c); set (isFd := fd)
  end.
  assert (Hdlc : 0 <= dlc < 256)
    by (subst dlc; unfold u8; apply Z.mod_pos_bound; reflexivity).
  clearbody dlc isFd.
  pose proof (decoded_length_checked dlc isFd Hdlc) as Hok.
  apply andb_prop in Hok as [Hok H8]. apply andb_prop in Hok as [Hin H64].
  apply existsb_exists in Hin as (l & Hl & Heq). apply Z.eqb_eq in Heq.
  apply Z.leb_le in H64.
  assert (Hpos : 0 <= decodeDataLengthCode dlc isFd).
  { rewrite Heq. unfold dataLengths in Hl. cbn [In] in Hl.
    repeat (destruct Hl as [<-|Hl]; [lia|]). contradiction. }
  rewrite (u8_small (decodeDataLengthCode dlc isFd)) by lia.
  split; [now rewrite Heq|]. split; [|reflexivity].
  intros Hfd. rewrite Hfd in H8 |- *. apply Z.leb_le. exact H8.
Qed.

(** X16. [Mcan_rxFifoPull] from an Rx FIFO that is not configured, that
    is, whose descriptor holds a null address, fails with
    [Mcan_ErrorCode_InvalidRxFifoId].  The status register of the FIFO has
    been read by then; nothing is written, in particular no
    acknowledge. *)
Theorem rxFifoPull_unconfigured (id : Mcan_RxFifoId) (w : World) :
  Mcan_RxFifo.address (rxFifoDescriptor id (mcan w)) = NULL ->
  Mcan_rxFifoPull id w
  = (Failed Mcan_ErrorCode_InvalidRxFifoId,
     mkWorld (snd (dev_read (rxFifoStatusRegister id) (hw w)))
       (ram w) (mcan w) (index_out w)
       (log w ++
        [EvRead (rxFifoStatusRegister id)
           (u32 (fst (dev_read (rxFifoStatusRegister id) (hw w))))])).
Proof.
  intros Hnull. unfold Mcan_rxFifoPull.
  destruct id; cbn [rxFifoStatusRegister rxFifoDescriptor] in *;
    unfold bind at 1; unfold bind at 1; cbn [reg_read];
    unfold bind at 1; cbn [get_mcan mcan ret];
    rewrite Hnull; reflexivity.
Qed.

(** X17. [Mcan_rxFifoPull] from a configured Rx FIFO whose status register
    shows a fill level other than 0 succeeds.  It reads the status
    register once and then writes the get index found in it to the
    acknowledge register of the same FIFO, and does nothing else to the
    device; message RAM and the descriptor are unchanged.  The element
    returned has one of the legal data lengths, at most 8 for a frame that
    is not CAN-FD, and its data are that many bytes from the data word of
    the element at the get index. *)
Theorem rxFifoPull_delivers (id : Mcan_RxFifoId) (w : World) :
  let status := u32 (fst (dev_read (rxFifoStatusRegister id) (hw w))) in
  let getIndex := u8 (GET_FIELD_VALUE MCAN_RXF0S_F0GI status) in
  let fifo := rxFifoDescriptor id (mcan w) in
  Mcan_RxFifo.address fifo <> NULL ->
  u8 (GET_FIELD_VALUE MCAN_RXF0S_F0FL status) <> 0 ->
  exists element,
    Mcan_rxFifoPull id w
    = (Done element,
       mkWorld
         (dev_write (rxFifoAckRegister id) getIndex
            (snd (dev_read (rxFifoStatusRegister id) (hw w))))
         (ram w) (mcan w) (index_out w)
         (log w ++ [EvRead (rxFifoStatusRegister id) status;
                    EvWrite (rxFifoAckRegister id) getIndex])) /\
    In (Mcan_RxElement.dataSize element) dataLengths /\
    (Mcan_RxElement.isCanFdFormatEnabled element = false ->
     Mcan_RxElement.dataSize element <= 8) /\
    Mcan_RxElement.data element
    = memcpy_to_list (ram w)
        (word_ptr
           (rxSlotAddress (Mcan_RxFifo.address fifo)
              (u32 (Mcan_RxFifo.elementSize fifo)) getIndex)
           MCAN_RXELEMENT_DATA_WORD)
        (Z.to_nat (Mcan_RxElement.dataSize element)).
Proof.
  intros status getIndex fifo Hconf Hlevel.
  assert (Hget : u32 getIndex = getIndex).
  { apply u32_small. subst getIndex. unfold u8.
    pose proof (Z.mod_pos_bound
                  (GET_FIELD_VALUE MCAN_RXF0S_F0GI status) (2 ^ 8)) as Hb.
    lia. }
  unfold Mcan_rxFifoPull.
  destruct id; cbn [rxFifoStatusRegister rxFifoDescriptor rxFifoAckRegister]
    in *;
    unfold bind at 1; unfold bind at 1; cbn [reg_read];
    unfold bind at 1; cbn [get_mcan mcan ret];
    fold status; fold fifo;
    (destruct (Z.eqb_spec (Mcan_RxFifo.address fifo) NULL);
       [contradiction|]);
    (destruct (Z.eqb_spec (u8 (GET_FIELD_VALUE MCAN_RXF0S_F0FL status)) 0);
       [contradiction|]);
    fold getIndex;
    fold (rxSlotAddress (Mcan_RxFifo.address fifo)
            (u32 (Mcan_RxFifo.elementSize fifo)) getIndex);
    match goal with
    | |- context [bind (getRxElement ?p) _ ?w1] =>
        destruct (getRxElement_shape p w1)
          as (element & Hrun & Hin & Hfd & Hdata)
    end;
    exists element;
    rewrite (bind_Done _ _ _ _ _ Hrun);
    unfold bind at 1; unfold reg_write;
    cbn [hw ram mcan index_out log ret];
    rewrite Hget, <- app_assoc; cbn [app];
    (split; [reflexivity|]); (split; [exact Hin|]);
    (split; [exact Hfd | exact Hdata]).
Qed.

(** X18. [Mcan_rxBufferGet] reads the element out of message RAM and
    touches nothing: no register is read or written (the driver does not
    clear the new data flag of a dedicated Rx buffer), and message RAM and
    the descriptor stay as they are.  As for a FIFO, the data length is a
    legal one. *)
Theorem rxBufferGet_reads_only (index : Z) (w : World) :
  exists element,
    Mcan_rxBufferGet index w = (Done element, w) /\
    In (Mcan_RxElement.dataSize element) dataLengths /\
    (Mcan_RxElement.isCanFdFormatEnabled element = false ->
     Mcan_RxElement.dataSize element <= 8) /\
    Mcan_RxElement.data element
    = memcpy_to_list (ram w)
        (word_ptr
           (rxSlotAddress (Mcan.rxBufferAddress (mcan w))
              (Mcan.rxBufferElementSize (mcan w)) (u32 index))
           MCAN_RXELEMENT_DATA_WORD)
        (Z.to_nat (Mcan_RxElement.dataSize element)).
Proof.
  unfold Mcan_rxBufferGet. unfold bind at 1. cbn [get_mcan].
  fold (rxSlotAddress (Mcan.rxBufferAddress (mcan w))
          (Mcan.rxBufferElementSize (mcan w)) (u32 index)).
  apply getRxElement_shape.
Qed.

(** X19. [Mcan_getRxFifoStatus] always succeeds, with one read of the
    status register of the FIFO and nothing else.  When the fill level
    field of FIFO 1 lies where that of FIFO 0 does, the count it reports
    for a configured FIFO is 0 exactly when [Mcan_rxFifoPull], run on the
    same register value, reports [Mcan_ErrorCode_RxFifoEmpty]. *)
Theorem getRxFifoStatus_count_and_pull (id : Mcan_RxFifoId) (w : World) :
  MCAN_RXF1S_F1FL = MCAN_RXF0S_F0FL ->
  Mcan_RxFifo.address (rxFifoDescriptor id (mcan w)) <> NULL ->
  exists status,
    Mcan_getRxFifoStatus id w
    = (Done status,
       mkWorld (snd (dev_read (rxFifoStatusRegister id) (hw w)))
         (ram w) (mcan w) (index_out w)
         (log w ++
          [EvRead (rxFifoStatusRegister id)
             (u32 (fst (dev_read (rxFifoStatusRegister id) (hw w))))])) /\
    (Mcan_RxFifoStatus.count status = 0
     <-> fst (Mcan_rxFifoPull id w) = Failed Mcan_ErrorCode_RxFifoEmpty).
Proof.
  intros Hlayout Hconf. unfold Mcan_getRxFifoStatus, Mcan_rxFifoPull.
  destruct id; cbn [rxFifoStatusRegister rxFifoDescriptor] in *;
    try rewrite Hlayout;
    eexists; (split; [reflexivity|]);
    cbn [Mcan_RxFifoStatus.count];
    unfold bind at 1; unfold bind at 1; cbn [reg_read];
    unfold bind at 1; cbn [get_mcan mcan ret];
    match goal with
    | |- context [?a =? NULL] =>
        destruct (Z.eqb_spec a NULL); [contradiction|]
    end;
    match goal with
    | |- context [u8 ?c =? 0] => destruct (Z.eqb_spec (u8 c) 0) as [E|E]
    end;
    (split; [intros H0|intros H1]);
    try reflexivity; try assumption; try contradiction;
    exfalso;
    match goal with
    | H : fst (bind (getRxElement ?p) ?k ?w1) = _ |- _ =>
        destruct (getRxElement_shape p w1) as (element & Hrun & _);
        rewrite (bind_Done _ _ _ _ _ Hrun) in H;
        unfold bind at 1 in H; unfold reg_write in H;
        cbn [fst ret] in H; discriminate H
    end.
Qed.

End ReceiveMore.

Lemma rxFifoPull_unconfigured_witness :
  Mcan_rxFifoPull (L := mcan_layout) (D := regfile) Mcan_RxFifoId_1
    (regfile_world [(rxf1s, 3)] blank_mcan)
  = (Failed Mcan_ErrorCode_InvalidRxFifoId,
     mkWorld (D := regfile) [(rxf1s, 3)] empty_ram blank_mcan 0
       [EvRead rxf1s 3]).
Proof.
  apply (rxFifoPull_unconfigured (L := mcan_layout) (D := regfile)
           Mcan_RxFifoId_1 (regfile_world [(rxf1s, 3)] blank_mcan)).
  reflexivity.
Defined.

Lemma rxFifoPull_delivers_witness :
  exists element,
    Mcan_rxFifoPull (L := mcan_layout) (D := regfile) Mcan_RxFifoId_0
      (mkWorld (D := regfile) [(rxf0s, 513)] sample_rx_ram sample_mcan 0 [])
    = (Done element,
       mkWorld (D := regfile) [(rxf0a, 2); (rxf0s, 513)] sample_rx_ram
         sample_mcan 0 [EvRead rxf0s 513; EvWrite rxf0a 2]) /\
    In (Mcan_RxElement.dataSize element) dataLengths /\
    (Mcan_RxElement.isCanFdFormatEnabled element = false ->
     Mcan_RxElement.dataSize element <= 8) /\
    Mcan_RxElement.data element
    = memcpy_to_list sample_rx_ram 541066792
        (Z.to_nat (Mcan_RxElement.dataSize element)).
Proof.
  apply (rxFifoPull_delivers (L := mcan_layout) (D := regfile)
           Mcan_RxFifoId_0
           (mkWorld (D := regfile) [(rxf0s, 513)] sample_rx_ram sample_mcan
              0 [])).
  - simpl. unfold NULL. lia.
  - vm_compute. discriminate.
Defined.

Lemma getRxFifoStatus_count_and_pull_witness :
  exists status,
    Mcan_getRxFifoStatus (L := mcan_layout) (LS := mcan_status_layout)
      (D := regfile) Mcan_RxFifoId_1
      (regfile_world [(rxf1s, 768)] sample_mcan)
    = (Done status,
       mkWorld (D := regfile) [(rxf1s, 768)] empty_ram sample_mcan 0
         [EvRead rxf1s 768]) /\
    (Mcan_RxFifoStatus.count status = 0
     <-> fst (Mcan_rxFifoPull (L := mcan_layout) (D := regfile)
                Mcan_RxFifoId_1 (regfile_world [(rxf1s, 768)] sample_mcan))
         = Failed Mcan_ErrorCode_RxFifoEmpty).
Proof.
  apply (getRxFifoStatus_count_and_pull (L := mcan_layout)
           (LS := mcan_status_layout) (D := regfile) Mcan_RxFifoId_1
           (regfile_world [(rxf1s, 768)] sample_mcan)).
  - reflexivity.
  - simpl. unfold NULL. lia.
Defined.

(** ** Words of message RAM *)

Lemma u8_testbit (x j : Z) :
  0 <= j -> Z.testbit (u8 x) j = (j <? 8) && Z.testbit x j.
Proof.
  intros Hj. unfold u8. destruct (Z.ltb_spec j 8).
  - now rewrite Z.mod_pow2_bits_low.
  - now rewrite Z.mod_pow2_bits_high by lia.
Qed.

(** A word stored is the word loaded, cut to 32 bits. *)
Lemma load32_store32 (m : Ram) (a v : Z) :
  load32 (store32 m a v) a = u32 v.
Proof.
  unfold load32, store32.
  repeat first [ rewrite store8_same
               | rewrite store8_other by lia ].
  apply Z.bits_inj'. intros n Hn.
  rewrite u32_testbit, !Z.lor_spec, !Z.shiftl_spec by lia.
  rewrite u8_testbit by lia.
  destruct (Z.ltb_spec n 8); [|destruct (Z.ltb_spec n 16);
    [|destruct (Z.ltb_spec n 24); [|destruct (Z.ltb_spec n 32)]]].
  - rewrite u8_testbit by lia.
    rewrite !(Z.testbit_neg_r _ (n - _)) by lia.
    destruct (Z.ltb_spec n 8); [|lia]. destruct (Z.ltb_spec n 32); [|lia].
    now rewrite !orb_false_r.
  - rewrite !(Z.testbit_neg_r _ (n - 16)), !(Z.testbit_neg_r _ (n - 24))
      by lia.
    rewrite !u8_testbit, Z.shiftr_spec by lia.
    destruct (Z.ltb_spec n 32); [|lia].
    destruct (Z.ltb_spec (n - 8) 8); [|lia].
    replace (n - 8 + 8) with n by lia.
    cbn [andb orb]. now rewrite !orb_false_r.
  - rewrite !(Z.testbit_neg_r _ (n - 24)) by lia.
    rewrite !u8_testbit, !Z.shiftr_spec by lia.
    destruct (Z.ltb_spec n 32); [|lia].
    destruct (Z.ltb_spec (n - 8) 8); [lia|].
    destruct (Z.ltb_spec (n - 16) 8); [|lia].
    replace (n - 16 + 16) with n by lia.
    cbn [andb orb]. now rewrite !orb_false_r.
  - rewrite !u8_testbit, !Z.shiftr_spec by lia.
    destruct (Z.ltb_spec (n - 8) 8); [lia|].
    destruct (Z.ltb_spec (n - 16) 8); [lia|].
    destruct (Z.ltb_spec (n - 24) 8); [|lia].
    replace (n - 24 + 24) with n by lia.
    reflexivity.
  - rewrite !u8_testbit, !Z.shiftr_spec by lia.
    destruct (Z.ltb_spec (n - 8) 8); [lia|].
    destruct (Z.ltb_spec (n - 16) 8); [lia|].
    destruct (Z.ltb_spec (n - 24) 8); [lia|].
    reflexivity.
Qed.

(** ** The descriptor after [Mcan_init], and the filter lists *)

Section FilterFacts.

Context {L : McanRegisters} {LS : McanStatusRegisters} {D : Device}.

(** X20. After [Mcan_init], which touches neither the device nor message
    RAM, the driver rejects traffic until it is configured: every
    [Mcan_txBufferAdd] and every write of a filter element fails with
    [Mcan_ErrorCode_IndexOutOfRange] and changes nothing, and every
    [Mcan_rxFifoPull] fails with [Mcan_ErrorCode_InvalidRxFifoId]. *)
Theorem init_rejects_traffic
        (element : Mcan_TxElement.t) (filter : Mcan_RxFilterElement.t)
        (index : Z) (id : Mcan_RxFifoId) (w : World) :
  0 <= index ->
  exists w0,
    Mcan_init w = (Done tt, w0) /\
    hw w0 = hw w /\ ram w0 = ram w /\ log w0 = log w /\
    Mcan_txBufferAdd element index w0
    = (Failed Mcan_ErrorCode_IndexOutOfRange, w0) /\
    Mcan_setStandardIdFilter filter index w0
    = (Failed Mcan_ErrorCode_IndexOutOfRange, w0) /\
    Mcan_setExtendedIdFilter filter index w0
    = (Failed Mcan_ErrorCode_IndexOutOfRange, w0) /\
    fst (Mcan_rxFifoPull id w0) = Failed Mcan_ErrorCode_InvalidRxFifoId.
Proof.
  intros Hidx. eexists. split; [reflexivity|].
  cbn [hw ram mcan index_out log].
  repeat (split; [reflexivity|]).
  split; [|split; [|split]].
  - unfold Mcan_txBufferAdd. unfold bind at 1.
    cbn [get_mcan mcan Mcan.tx Mcan_Tx.bufferSize].
    destruct (Z.leb_spec 0 index); [reflexivity | lia].
  - unfold Mcan_setStandardIdFilter. unfold bind at 1.
    cbn [get_mcan mcan Mcan.rxStdFilterSize].
    destruct (Z.leb_spec 0 index); [reflexivity | lia].
  - unfold Mcan_setExtendedIdFilter. unfold bind at 1.
    cbn [get_mcan mcan Mcan.rxExtFilterSize].
    destruct (Z.leb_spec 0 index); [reflexivity | lia].
  - unfold Mcan_rxFifoPull.
    destruct id; unfold bind at 1; unfold bind at 1; cbn [reg_read];
      unfold bind at 1; reflexivity.
Qed.

(** X21. A filter element index at or beyond the configured size of the
    list makes [Mcan_setStandardIdFilter] and [Mcan_setExtendedIdFilter]
    fail with [Mcan_ErrorCode_IndexOutOfRange]; message RAM is not
    written. *)
Theorem setIdFilter_index_out_of_range
        (filter : Mcan_RxFilterElement.t) (index : Z) (w : World) :
  (Mcan.rxStdFilterSize (mcan w) <= index ->
   Mcan_setStandardIdFilter filter index w
   = (Failed Mcan_ErrorCode_IndexOutOfRange, w)) /\
  (Mcan.rxExtFilterSize (mcan w) <= index ->
   Mcan_setExtendedIdFilter filter index w
   = (Failed Mcan_ErrorCode_IndexOutOfRange, w)).
Proof.
  unfold Mcan_setStandardIdFilter, Mcan_setExtendedIdFilter.
  unfold bind at 1 2. cbn [get_mcan].
  split; intros H.
  - destruct (Z.leb_spec (Mcan.rxStdFilterSize (mcan w)) index);
      [reflexivity | lia].
  - destruct (Z.leb_spec (Mcan.rxExtFilterSize (mcan w)) index);
      [reflexivity | lia].
Qed.

(** X22. [Mcan_setStandardIdFilter] with an index inside the list writes
    one word of message RAM, the one of that index: afterwards it holds
    the type, configuration and the two identifiers, each shifted and
    masked into its field and or-ed together, and every byte outside
    this word is as before.  No register is accessed and the descriptor
    is unchanged. *)
Theorem setStandardIdFilter_stores
        (filter : Mcan_RxFilterElement.t) (index : Z) (w : World) :
  let p :=
    word_ptr (Mcan.rxStdFilterAddress (mcan w))
      (u32 (MCAN_STDRXFILTERELEMENT_SIZE * index) / sizeof_uint32_t) in
  index < Mcan.rxStdFilterSize (mcan w) ->
  exists ram',
    Mcan_setStandardIdFilter filter index w
    = (Done tt, mkWorld (hw w) ram' (mcan w) (index_out w) (log w)) /\
    load32 ram' p
    = u32 (Z.lor (Z.lor (Z.lor
             (BIT_FIELD_VALUE MCAN_STDRXFILTERELEMENT_SFT
                (Mcan_RxFilterElement.type filter))
             (BIT_FIELD_VALUE MCAN_STDRXFILTERELEMENT_SFEC
                (Mcan_RxFilterElement.config filter)))
             (BIT_FIELD_VALUE MCAN_STDRXFILTERELEMENT_SFID1
                (Mcan_RxFilterElement.id1 filter)))
             (BIT_FIELD_VALUE MCAN_STDRXFILTERELEMENT_SFID2
                (Mcan_RxFilterElement.id2 filter))) /\
    same_outside p (p + 4) (ram w) ram'.
Proof.
  intros p Hidx. unfold Mcan_setStandardIdFilter.
  unfold bind at 1. cbn [get_mcan].
  destruct (Z.leb_spec (Mcan.rxStdFilterSize (mcan w)) index); [lia|].
  fold p. unfold modify_ram. eexists. split; [reflexivity|]. split.
  - apply load32_store32.
  - apply same_outside_store32; [apply same_outside_refl | lia | lia].
Qed.

(** X23. [Mcan_setExtendedIdFilter] with an index inside the list
    rewrites the element of that index only: every byte of message RAM
    outside the [MCAN_EXTRXFILTERELEMENT_SIZE] bytes of the element is as
    before, provided the four field words lie inside the element.  No
    register is accessed and the descriptor is unchanged. *)
Theorem setExtendedIdFilter_stores
        (filter : Mcan_RxFilterElement.t) (index : Z) (w : World) :
  let p :=
    word_ptr (Mcan.rxExtFilterAddress (mcan w))
      (u32 (MCAN_EXTRXFILTERELEMENT_SIZE * index) / sizeof_uint32_t) in
  index < Mcan.rxExtFilterSize (mcan w) ->
  Forall (fun k => 0 <= k /\
                   sizeof_uint32_t * (k + 1) <= MCAN_EXTRXFILTERELEMENT_SIZE)
    [ MCAN_EXTRXFILTERELEMENT_EFT_WORD; MCAN_EXTRXFILTERELEMENT_EFEC_WORD;
      MCAN_EXTRXFILTERELEMENT_EFID1_WORD;
      MCAN_EXTRXFILTERELEMENT_EFID2_WORD ] ->
  exists ram',
    Mcan_setExtendedIdFilter filter index w
    = (Done tt, mkWorld (hw w) ram' (mcan w) (index_out w) (log w)) /\
    same_outside p (p + MCAN_EXTRXFILTERELEMENT_SIZE) (ram w) ram'.
Proof.
  intros p Hidx Hwords. unfold Mcan_setExtendedIdFilter.
  unfold bind at 1. cbn [get_mcan].
  destruct (Z.leb_spec (Mcan.rxExtFilterSize (mcan w)) index); [lia|].
  fold p.
  repeat match goal with
         | H : Forall _ (_ :: _) |- _ =>
             pose proof (Forall_inv H); apply Forall_inv_tail in H
         end.
  cbv beta in *. unfold sizeof_uint32_t in *.
  unfold bind, ram_or32, modify_ram.
  cbn [hw ram mcan index_out log].
  eexists. split; [reflexivity|].
  unfold sizeof_uint32_t.
  repeat (apply same_outside_store32; [|lia|lia]).
  apply same_outside_memset; [apply same_outside_refl | lia|].
  rewrite Z2Nat.id by lia. lia.
Qed.

End FilterFacts.

Lemma init_rejects_traffic_witness :
  exists w0,
    Mcan_init (D := regfile) (regfile_world [] sample_mcan) = (Done tt, w0) /\
    hw w0 = [] /\ ram w0 = empty_ram /\ log w0 = [] /\
    Mcan_txBufferAdd (L := mcan_layout) (sample_element 8) 0 w0
    = (Failed Mcan_ErrorCode_IndexOutOfRange, w0) /\
    Mcan_setStandardIdFilter (LS := mcan_status_layout)
      (Mcan_RxFilterElement.mk 2 1 291 2047) 0 w0
    = (Failed Mcan_ErrorCode_IndexOutOfRange, w0) /\
    Mcan_setExtendedIdFilter (LS := mcan_status_layout)
      (Mcan_RxFilterElement.mk 2 1 291 2047) 0 w0
    = (Failed Mcan_ErrorCode_IndexOutOfRange, w0) /\
    fst (Mcan_rxFifoPull (L := mcan_layout) Mcan_RxFifoId_0 w0)
    = Failed Mcan_ErrorCode_InvalidRxFifoId.
Proof.
  apply (init_rejects_traffic (L := mcan_layout) (LS := mcan_status_layout)
           (D := regfile) (sample_element 8)
           (Mcan_RxFilterElement.mk 2 1 291 2047) 0 Mcan_RxFifoId_0
           (regfile_world [] sample_mcan)).
  lia.
Defined.

Lemma setIdFilter_index_out_of_range_witness :
  Mcan_setStandardIdFilter (LS := mcan_status_layout) (D := regfile)
    (Mcan_RxFilterElement.mk 2 1 291 2047) 4 (regfile_world [] sample_mcan)
  = (Failed Mcan_ErrorCode_IndexOutOfRange, regfile_world [] sample_mcan) /\
  Mcan_setExtendedIdFilter (LS := mcan_status_layout) (D := regfile)
    (Mcan_RxFilterElement.mk 2 1 291 2047) 4 (regfile_world [] sample_mcan)
  = (Failed Mcan_ErrorCode_IndexOutOfRange, regfile_world [] sample_mcan).
Proof.
  destruct (setIdFilter_index_out_of_range (LS := mcan_status_layout)
              (D := regfile) (Mcan_RxFilterElement.mk 2 1 291 2047) 4
              (regfile_world [] sample_mcan)) as [Hstd Hext].
  split; [apply Hstd | apply Hext]; simpl; lia.
Defined.

Lemma setStandardIdFilter_stores_witness :
  exists ram',
    Mcan_setStandardIdFilter (LS := mcan_status_layout) (D := regfile)
      (Mcan_RxFilterElement.mk 2 1 291 2047) 1
      (regfile_world [] sample_mcan)
    = (Done tt, mkWorld (D := regfile) [] ram' sample_mcan 0 []) /\
    load32 ram' 541067524 = 2300774399 /\
    same_outside 541067524 541067528 empty_ram ram'.
Proof.
  apply (setStandardIdFilter_stores (LS := mcan_status_layout) (D := regfile)
           (Mcan_RxFilterElement.mk 2 1 291 2047) 1
           (regfile_world [] sample_mcan)).
  simpl. lia.
Defined.

Lemma setExtendedIdFilter_stores_witness :
  exists ram',
    Mcan_setExtendedIdFilter (LS := mcan_status_layout) (D := regfile)
      (Mcan_RxFilterElement.mk 2 1 291 2047) 1
      (regfile_world [] sample_mcan)
    = (Done tt, mkWorld (D := regfile) [] ram' sample_mcan 0 []) /\
    same_outside 541067784 541067792 empty_ram ram'.
Proof.
  apply (setExtendedIdFilter_stores (LS := mcan_status_layout)
           (D := regfile) (Mcan_RxFilterElement.mk 2 1 291 2047) 1
           (regfile_world [] sample_mcan)).
  - simpl. lia.
  - repeat constructor; simpl; lia.
Defined.

(** ** Queries *)

Section QueryFacts.

Context {L : McanRegisters} {LS : McanStatusRegisters} {D : Device}.

Lemma only_read_refl (w : World) : only_read w w.
Proof.
  repeat split. exists []. split; [now rewrite app_nil_r | constructor].
Qed.

Lemma only_read_trans (a b c : World) :
  only_read a b -> only_read b c -> only_read a c.
Proof.
  intros (Hr1 & Hm1 & Hi1 & l1 & Hl1 & Hf1) (Hr2 & Hm2 & Hi2 & l2 & Hl2 & Hf2).
  repeat split; try congruence.
  exists (l1 ++ l2). split.
  - rewrite Hl2, Hl1. now rewrite app_assoc.
  - apply Forall_app. now split.
Qed.

Lemma reads_only_ret {A} (a : A) : reads_only (ret a).
Proof. intros w. exists a, w. split; [reflexivity | apply only_read_refl]. Qed.

Lemma reads_only_get_mcan : reads_only get_mcan.
Proof.
  intros w. exists (mcan w), w. split; [reflexivity | apply only_read_refl].
Qed.

Lemma reads_only_reg_read (r : Reg) : reads_only (reg_read r).
Proof.
  intros w. eexists. eexists. split; [reflexivity|].
  repeat split. eexists. split; [reflexivity|].
  repeat constructor.
Qed.

Lemma reads_only_bind {A B} (m : M A) (k : A -> M B) :
  reads_only m -> (forall a, reads_only (k a)) -> reads_only (bind m k).
Proof.
  intros Hm Hk w. destruct (Hm w) as (a & w1 & Hrun & H1).
  destruct (Hk a w1) as (b & w2 & Hrun2 & H2).
  exists b, w2. rewrite (bind_Done _ _ _ _ _ Hrun).
  split; [exact Hrun2 | eapply only_read_trans; eassumption].
Qed.

Ltac reads_step :=
  lazymatch goal with
  | |- reads_only (ret _) => apply reads_only_ret
  | |- reads_only get_mcan => apply reads_only_get_mcan
  | |- reads_only (reg_read _) => apply reads_only_reg_read
  | |- reads_only (bind _ _) => apply reads_only_bind; [|intro]
  | |- reads_only (if ?c then _ else _) => destruct c
  | |- reads_only (match ?c with _ => _ end) => destruct c
  end.

Ltac reads := cbv beta zeta; repeat (reads_step; cbv beta zeta).

Lemma reads_only_getMode : reads_only getMode.
Proof. unfold getMode. reads. Qed.


End QueryFacts.

(** ** The descriptor after configuration *)

Section DescriptorFacts.

Context {L : McanRegisters} {LS : McanStatusRegisters} {D : Device}.

Lemma da_ret {A} (a : A) : descriptor_after (ret a) (fun m => m).
Proof. intros w a' w' H. inversion H. reflexivity. Qed.

Lemma da_returnError {A} (e : ErrorCode) (f : Mcan.t -> Mcan.t) :
  descriptor_after (returnError (A := A) e) f.
Proof. intros w a w' H. discriminate H. Qed.

Lemma da_assert (b : bool) : descriptor_after (assert b) (fun m => m).
Proof.
  intros w a w' H. unfold assert in H. destruct b; [|discriminate H].
  inversion H. reflexivity.
Qed.

Lemma da_reg_read (r : Reg) : descriptor_after (reg_read r) (fun m => m).
Proof. intros w a w' H. inversion H. reflexivity. Qed.

Lemma da_reg_write (r : Reg) (v : Z) :
  descriptor_after (reg_write r v) (fun m => m).
Proof. intros w a w' H. inversion H. reflexivity. Qed.

Lemma da_modify_mcan (f : Mcan.t -> Mcan.t) :
  descriptor_after (modify_mcan f) f.
Proof. intros w a w' H. inversion H. reflexivity. Qed.

Lemma da_bind {A B} (m : M A) (k : A -> M B) (f g h : Mcan.t -> Mcan.t) :
  descriptor_after m f -> (forall a, descriptor_after (k a) g) ->
  (forall x, h x = g (f x)) ->
  descriptor_after (bind m k) h.
Proof.
  intros Hm Hk Hh w b w' H.
  apply bind_Done_inv in H as (a & w1 & H1 & H2).
  rewrite Hh, <- (Hm _ _ _ H1). exact (Hk _ _ _ _ H2).
Qed.

Lemma da_if_same {A} (c : bool) (m1 m2 : M A) (f : Mcan.t -> Mcan.t) :
  descriptor_after m1 f -> descriptor_after m2 f ->
  descriptor_after (if c then m1 else m2) f.
Proof. destruct c; auto. Qed.

Lemma da_if {A} (c : bool) (m1 m2 : M A) (f1 f2 : Mcan.t -> Mcan.t) :
  descriptor_after m1 f1 -> descriptor_after m2 f2 ->
  descriptor_after (if c then m1 else m2) (fun x => if c then f1 x else f2 x).
Proof. destruct c; auto. Qed.

Lemma da_waitForRegister_loop (address : Reg) (mask : Z) (n : nat) :
  descriptor_after (waitForRegister_loop address mask n) (fun m => m).
Proof.
  induction n as [|n IH]; cbn [waitForRegister_loop].
  - apply da_ret.
  - eapply da_bind; [apply da_reg_read | intro v | intro; reflexivity].
    apply da_if_same; [apply da_ret | apply IH].
Qed.

Lemma da_for_each (n : nat) (body : Z -> M unit) :
  (forall i, descriptor_after (body i) (fun m => m)) ->
  forall from, descriptor_after (for_each from n body) (fun m => m).
Proof.
  intros Hbody. induction n as [|n IH]; intros from; cbn [for_each].
  - apply da_ret.
  - eapply da_bind; [apply Hbody | intros _; apply IH | intro; reflexivity].
Qed.

Ltac da :=
  cbv beta;
  first
    [ apply da_ret
    | apply da_returnError
    | apply da_assert
    | apply da_reg_read
    | apply da_reg_write
    | apply da_modify_mcan
    | apply da_waitForRegister_loop
    | apply da_for_each; intro; da
    | eapply da_bind; [ da | intro; da | intro; reflexivity ]
    | apply da_if_same; da
    | eapply da_if; da ].

Lemma da_setMode (config : Mcan_Config.t) (timeoutLimit : Z) :
  descriptor_after (setMode config timeoutLimit) (fun m => m).
Proof.
  unfold setMode, setPowerDownMode, reg_or, waitForRegisterWithTimeout.
  destruct (Mcan_Config.mode config); da.
Qed.

Lemma da_setInterrupts (config : Mcan_Config.t) :
  descriptor_after (setInterrupts config) (fun m => m).
Proof.
  unfold setInterrupts, changeBitAtOffset. da.
Qed.

Lemma da_setTimings (config : Mcan_Config.t) :
  descriptor_after
    (setNominalTiming config ;;
     (if Mcan_Config.isFdEnabled config
      then
        setDataTiming config ;;
        setTransmitterDelayCompensation
          (Mcan_Config.transmitterDelayCompensation config)
      else ret tt) ;;
     setTimestamp config ;;
     setTimeout (Mcan_Config.timeout config))
    (fun m => m).
Proof.
  unfold setNominalTiming, setDataTiming, setTransmitterDelayCompensation,
    setTimestamp, setTimeout, changeBitAtOffset.
  da.
Qed.

End DescriptorFacts.

Section ConfiguredDescriptor.

Context {L : McanRegisters} {LS : McanStatusRegisters} {D : Device}.

Ltac da :=
  cbv beta;
  first
    [ apply da_ret
    | apply da_returnError
    | apply da_assert
    | apply da_reg_read
    | apply da_reg_write
    | apply da_modify_mcan
    | apply da_waitForRegister_loop
    | apply da_setMode
    | apply da_setInterrupts
    | apply da_for_each; intro; da
    | eapply da_bind; [ da | intro; da | intro; reflexivity ]
    | apply da_if_same; da
    | eapply da_if; da ].

(** [setTxBuffer] followed by the check of its result: when the sequence
    goes on, the Tx descriptor has been assigned. *)
Lemma da_setTxBuffer_checked {B} (config : Mcan_Config.t) (e : ErrorCode)
      (rest : M B) (g : Mcan.t -> Mcan.t) :
  descriptor_after rest g ->
  descriptor_after
    (txOk <- setTxBuffer config ;;
     if negb txOk then returnError e else rest)
    (fun x => g (Mcan.set_tx (Mcan.tx (configuredDescriptor config)) x)).
Proof.
  intros Hrest w b w' H.
  apply bind_Done_inv in H as (ok & w1 & H1 & H2).
  destruct ok; cbn [negb] in H2; [|discriminate H2].
  rewrite (Hrest _ _ _ H2). f_equal.
  unfold setTxBuffer in H1.
  unfold configuredDescriptor. cbn [Mcan.tx].
  destruct (Mcan_TxBufferConfig.isEnabled (Mcan_Config.txBuffer config)).
  - destruct (decodeTxElementSizeInBytes
                (Mcan_TxBufferConfig.elementSize (Mcan_Config.txBuffer config))
              =? MCAN_TXELEMENT_SIZE_INVALID); [discriminate H1|].
    match type of H1 with
    | ?m w = _ =>
        assert (Hda : exists f, descriptor_after m f /\
                                forall x, f x = Mcan.set_tx _ x)
          by (eexists; split; [da | intro; reflexivity])
    end.
    destruct Hda as (f & Hf & Heq). rewrite (Hf _ _ _ H1), Heq. reflexivity.
  - match type of H1 with
    | ?m w = _ =>
        assert (Hda : exists f, descriptor_after m f /\
                                forall x, f x = Mcan.set_tx _ x)
          by (eexists; split; [da | intro; reflexivity])
    end.
    destruct Hda as (f & Hf & Heq). rewrite (Hf _ _ _ H1), Heq. reflexivity.
Qed.

(** [da] for a sequence that contains the check of [setTxBuffer]. *)
Ltac sequence :=
  cbv beta;
  first
    [ eapply da_setTxBuffer_checked; sequence
    | eapply da_bind; [ da | intro; sequence | intro; reflexivity ]
    | apply da_if_same; [ apply da_returnError | sequence ]
    | da ].

(** A configuration that goes through assigns every member of the
    descriptor. *)
Lemma setConfig_descriptor_run (config : Mcan_Config.t) (timeoutLimit : Z) :
  descriptor_after (Mcan_setConfig config timeoutLimit)
    (fun _ => configuredDescriptor config).
Proof.
  assert (H : exists f,
             descriptor_after (Mcan_setConfig config timeoutLimit) f /\
             forall m, f m = configuredDescriptor config).
  { eexists. split.
    - unfold Mcan_setConfig, setMsgRamBaseAddress, SET_FIELD_VALUE,
        setValueAtOffset, waitForRegisterWithTimeout, reg_or, reg_and,
        setNominalTiming, setDataTiming, setTransmitterDelayCompensation,
        setTimestamp, setTimeout, changeBitAtOffset,
        setStandardIdFiltering, setExtendedIdFiltering,
        setRxFifo0, setRxFifo1, setRxBuffer, setTxEventFifo.
      sequence.
    - intros m. cbv beta. unfold configuredDescriptor.
      destruct (Mcan_IdFilter.isIdRejected
                  (Mcan_Config.standardIdFilter config)),
        (Mcan_IdFilter.isIdRejected (Mcan_Config.extendedIdFilter config)),
        (Mcan_RxFifoConfig.isEnabled (Mcan_Config.rxFifo0 config)),
        (Mcan_RxFifoConfig.isEnabled (Mcan_Config.rxFifo1 config)),
        (Mcan_TxBufferConfig.isEnabled (Mcan_Config.txBuffer config)),
        (Mcan_TxEventFifoConfig.isEnabled (Mcan_Config.txEventFifo config));
        reflexivity. }
  destruct H as (f & Hf & Heq). intros w a w' Hrun.
  rewrite (Hf _ _ _ Hrun). apply Heq.
Qed.

End ConfiguredDescriptor.

Section ConfigurationRoundTrip.

Context {L : McanRegisters} {LS : McanStatusRegisters} {D : Device}.

(** X25. A configuration that succeeds leaves a descriptor that depends
    on the configuration alone: every member is assigned, the regions
    that are disabled (and the filter lists of rejected frame kinds) as
    null address and size 0, whatever an earlier configuration or
    [Mcan_init] had left there. *)
Theorem setConfig_assigns_descriptor
        (config : Mcan_Config.t) (timeoutLimit : Z) (w w1 : World) :
  Mcan_setConfig config timeoutLimit w = (Done tt, w1) ->
  mcan w1 = configuredDescriptor config.
Proof.
  intros Hrun.
  exact (setConfig_descriptor_run config timeoutLimit w tt w1 Hrun).
Qed.

Lemma bind_assoc {A B C} (m : M A) (k : A -> M B) (k' : B -> M C)
      (w : World) :
  bind (bind m k) k' w = bind m (fun a => bind (k a) k') w.
Proof. unfold bind. now destruct (m w) as [[a|e|] w1]. Qed.

Lemma reg_read_run (r : Reg) (w : World) :
  exists v s,
    reg_read r w
    = (Done v,
       mkWorld s (ram w) (mcan w) (index_out w) (log w ++ [EvRead r v])).
Proof. eexists. eexists. reflexivity. Qed.

(** One step of a run: the head of the sequence is executed; a value read
    and the state of the device after the read become unknowns. *)
Ltac run_step :=
  cbv beta;
  lazymatch goal with
  | |- context [bind (bind ?m ?k) ?k' ?w] => rewrite (bind_assoc m k k' w)
  | |- context [bind (ret ?a) ?k ?w] =>
      change (bind (ret a) k w) with (k a w)
  | |- context [bind get_mcan ?k ?w] =>
      change (bind get_mcan k w) with (k (mcan w) w);
      cbn [hw ram mcan index_out log]
  | |- context [bind (reg_read ?r) ?k ?w] =>
      let v := fresh "v" in
      let s := fresh "s" in
      let Hr := fresh "Hr" in
      destruct (reg_read_run r w) as (v & s & Hr);
      rewrite (bind_Done _ _ _ _ _ Hr); clear Hr;
      cbn [hw ram mcan index_out log]
  | |- context [bind (reg_write ?r ?v) ?k ?w] =>
      change (bind (reg_write r v) k w)
        with (k tt (mkWorld (dev_write r (u32 v) (hw w)) (ram w) (mcan w)
                      (index_out w) (log w ++ [EvWrite r (u32 v)])));
      cbn [hw ram mcan index_out log]
  | |- context [bind (modify_mcan ?f) ?k ?w] =>
      change (bind (modify_mcan f) k w)
        with (k tt (mkWorld (hw w) (ram w) (f (mcan w)) (index_out w)
                      (log w)));
      cbn [hw ram mcan index_out log]
  | |- context [bind (returnError ?e) ?k ?w] =>
      change (bind (returnError e) k w) with (Failed e, w)
  | |- context [bind getMode ?k ?w] =>
      let a := fresh "fdMode" in
      let w2 := fresh "w" in
      let Hrun := fresh "Hrun" in
      let Hm := fresh "Hm" in
      destruct (reads_only_getMode w) as (a & w2 & Hrun & _ & Hm & _);
      rewrite (bind_Done _ _ _ _ _ Hrun); clear Hrun;
      try rewrite <- Hm
  end.

(** The same for a wait loop: its result is an unknown too. *)
Ltac run_wait :=
  lazymatch goal with
  | |- context [bind (waitForRegister_loop ?r ?m ?n) ?k ?w] =>
      let b := fresh "b" in
      let s := fresh "s" in
      let polls := fresh "polls" in
      let Hrun := fresh "Hrun" in
      destruct (waitForRegister_loop_polls r m n w)
        as (b & s & polls & Hrun & _);
      rewrite (bind_Done _ _ _ _ _ Hrun); clear Hrun;
      cbn [hw ram mcan index_out log]
  end.

(** What [Mcan_getConfig] reports from the descriptor. *)
Lemma getConfig_from_descriptor (old : Mcan_Config.t) (w : World) :
  exists c w',
    Mcan_getConfig old w = (Done c, w') /\
    Mcan_Config.msgRamBaseAddress c = Mcan.msgRamBaseAddress (mcan w) /\
    Mcan_IdFilter.filterListAddress (Mcan_Config.standardIdFilter c)
    = Mcan.rxStdFilterAddress (mcan w) /\
    Mcan_IdFilter.filterListSize (Mcan_Config.standardIdFilter c)
    = Mcan.rxStdFilterSize (mcan w) /\
    Mcan_IdFilter.filterListAddress (Mcan_Config.extendedIdFilter c)
    = Mcan.rxExtFilterAddress (mcan w) /\
    Mcan_IdFilter.filterListSize (Mcan_Config.extendedIdFilter c)
    = Mcan.rxExtFilterSize (mcan w) /\
    Mcan_RxFifoConfig.startAddress (Mcan_Config.rxFifo0 c)
    = Mcan_RxFifo.address (Mcan.rxFifo0 (mcan w)) /\
    Mcan_RxFifoConfig.size (Mcan_Config.rxFifo0 c)
    = Mcan_RxFifo.size (Mcan.rxFifo0 (mcan w)) /\
    Mcan_RxFifoConfig.elementSize (Mcan_Config.rxFifo0 c)
    = encodeRxElementSizeInBytes
        (Mcan_RxFifo.elementSize (Mcan.rxFifo0 (mcan w))) /\
    Mcan_RxFifoConfig.startAddress (Mcan_Config.rxFifo1 c)
    = Mcan_RxFifo.address (Mcan.rxFifo1 (mcan w)) /\
    Mcan_RxFifoConfig.size (Mcan_Config.rxFifo1 c)
    = Mcan_RxFifo.size (Mcan.rxFifo1 (mcan w)) /\
    Mcan_RxFifoConfig.elementSize (Mcan_Config.rxFifo1 c)
    = encodeRxElementSizeInBytes
        (Mcan_RxFifo.elementSize (Mcan.rxFifo1 (mcan w))) /\
    Mcan_Config.rxBuffer c
    = Mcan_RxBufferConfig.mk (Mcan.rxBufferAddress (mcan w))
        (encodeRxElementSizeInBytes (Mcan.rxBufferElementSize (mcan w))) /\
    Mcan_TxBufferConfig.startAddress (Mcan_Config.txBuffer c)
    = Mcan_Tx.bufferAddress (Mcan.tx (mcan w)) /\
    Mcan_TxBufferConfig.bufferSize (Mcan_Config.txBuffer c)
    = Mcan_Tx.bufferSize (Mcan.tx (mcan w)) /\
    Mcan_TxBufferConfig.queueSize (Mcan_Config.txBuffer c)
    = Mcan_Tx.queueSize (Mcan.tx (mcan w)) /\
    Mcan_TxBufferConfig.elementSize (Mcan_Config.txBuffer c)
    = encodeTxElementSizeInBytes (Mcan_Tx.elementSize (Mcan.tx (mcan w))) /\
    Mcan_TxEventFifoConfig.startAddress (Mcan_Config.txEventFifo c)
    = Mcan.txEventFifoAddress (mcan w) /\
    Mcan_TxEventFifoConfig.size (Mcan_Config.txEventFifo c)
    = Mcan.txEventFifoSize (mcan w).
Proof.
  unfold Mcan_getConfig, getMsgRamBaseAddress,
    getNominalTiming, getDataTiming, getTransmitterDelayCompensation,
    getTimestamp, getTimeout, getStandardIdFiltering, getExtendedIdFiltering,
    getRxFifo0, getRxFifo1, getRxBuffer, getTxBuffer, getTxEventFifo,
    getInterrupts.
  repeat run_step.
  eexists. eexists. split; [reflexivity|].
  cbn. repeat split.
Qed.

(** X26. Reading the configuration back after it has been set gives, for
    every member the driver keeps in its descriptor, what was configured:
    the message RAM base address, the dedicated Rx buffer, and for each
    region that was enabled (each filter list whose frames are not
    rejected) its start address, its size and its element size. *)
Theorem setConfig_then_getConfig
        (config old : Mcan_Config.t) (timeoutLimit : Z) (w w1 : World) :
  Mcan_setConfig config timeoutLimit w = (Done tt, w1) ->
  exists c w2,
    Mcan_getConfig old w1 = (Done c, w2) /\
    Mcan_Config.msgRamBaseAddress c = Mcan_Config.msgRamBaseAddress config /\
    Mcan_Config.rxBuffer c = Mcan_Config.rxBuffer config /\
    (Mcan_IdFilter.isIdRejected (Mcan_Config.standardIdFilter config) = false ->
     Mcan_IdFilter.filterListAddress (Mcan_Config.standardIdFilter c)
     = Mcan_IdFilter.filterListAddress (Mcan_Config.standardIdFilter config) /\
     Mcan_IdFilter.filterListSize (Mcan_Config.standardIdFilter c)
     = Mcan_IdFilter.filterListSize (Mcan_Config.standardIdFilter config)) /\
    (Mcan_IdFilter.isIdRejected (Mcan_Config.extendedIdFilter config) = false ->
     Mcan_IdFilter.filterListAddress (Mcan_Config.extendedIdFilter c)
     = Mcan_IdFilter.filterListAddress (Mcan_Config.extendedIdFilter config) /\
     Mcan_IdFilter.filterListSize (Mcan_Config.extendedIdFilter c)
     = Mcan_IdFilter.filterListSize (Mcan_Config.extendedIdFilter config)) /\
    (Mcan_RxFifoConfig.isEnabled (Mcan_Config.rxFifo0 config) = true ->
     Mcan_RxFifoConfig.startAddress (Mcan_Config.rxFifo0 c)
     = Mcan_RxFifoConfig.startAddress (Mcan_Config.rxFifo0 config) /\
     Mcan_RxFifoConfig.size (Mcan_Config.rxFifo0 c)
     = Mcan_RxFifoConfig.size (Mcan_Config.rxFifo0 config) /\
     Mcan_RxFifoConfig.elementSize (Mcan_Config.rxFifo0 c)
     = Mcan_RxFifoConfig.elementSize (Mcan_Config.rxFifo0 config)) /\
    (Mcan_RxFifoConfig.isEnabled (Mcan_Config.rxFifo1 config) = true ->
     Mcan_RxFifoConfig.startAddress (Mcan_Config.rxFifo1 c)
     = Mcan_RxFifoConfig.startAddress (Mcan_Config.rxFifo1 config) /\
     Mcan_RxFifoConfig.size (Mcan_Config.rxFifo1 c)
     = Mcan_RxFifoConfig.size (Mcan_Config.rxFifo1 config) /\
     Mcan_RxFifoConfig.elementSize (Mcan_Config.rxFifo1 c)
     = Mcan_RxFifoConfig.elementSize (Mcan_Config.rxFifo1 config)) /\
    (Mcan_TxBufferConfig.isEnabled (Mcan_Config.txBuffer config) = true ->
     Mcan_TxBufferConfig.startAddress (Mcan_Config.txBuffer c)
     = Mcan_TxBufferConfig.startAddress (Mcan_Config.txBuffer config) /\
     Mcan_TxBufferConfig.bufferSize (Mcan_Config.txBuffer c)
     = Mcan_TxBufferConfig.bufferSize (Mcan_Config.txBuffer config) /\
     Mcan_TxBufferConfig.queueSize (Mcan_Config.txBuffer c)
     = Mcan_TxBufferConfig.queueSize (Mcan_Config.txBuffer config) /\
     Mcan_TxBufferConfig.elementSize (Mcan_Config.txBuffer c)
     = Mcan_TxBufferConfig.elementSize (Mcan_Config.txBuffer config)) /\
    (Mcan_TxEventFifoConfig.isEnabled (Mcan_Config.txEventFifo config) = true ->
     Mcan_TxEventFifoConfig.startAddress (Mcan_Config.txEventFifo c)
     = Mcan_TxEventFifoConfig.startAddress (Mcan_Config.txEventFifo config) /\
     Mcan_TxEventFifoConfig.size (Mcan_Config.txEventFifo c)
     = Mcan_TxEventFifoConfig.size (Mcan_Config.txEventFifo config)).
Proof.
  intros Hrun.
  pose proof (setConfig_descriptor_run config timeoutLimit w tt w1 Hrun)
    as Hdesc.
  destruct (getConfig_from_descriptor old w1)
    as (c & w2 & Hget & Hbase & Hsa & Hss & Hea & Hes & H0a & H0s & H0e
        & H1a & H1s & H1e & Hrb & Hta & Htb & Htq & Hte & Hfa & Hfs).
  exists c, w2. split; [exact Hget|].
  rewrite Hdesc in *. unfold configuredDescriptor in *.
  cbn [Mcan.msgRamBaseAddress Mcan.tx Mcan.rxBufferAddress
       Mcan.rxBufferElementSize Mcan.rxFifo0 Mcan.rxFifo1
       Mcan.txEventFifoAddress Mcan.txEventFifoSize
       Mcan.rxStdFilterAddress Mcan.rxStdFilterSize
       Mcan.rxExtFilterAddress Mcan.rxExtFilterSize] in *.
  split; [exact Hbase|]. split.
  { rewrite Hrb. unfold encodeRxElementSizeInBytes,
      decodeRxElementSizeInBytes. rewrite encode_of_decode.
    now destruct (Mcan_Config.rxBuffer config). }
  split; [intros E; rewrite E in *; now split|].
  split; [intros E; rewrite E in *; now split|].
  split.
  { intros E. rewrite E in *. cbn in H0a, H0s, H0e.
    unfold encodeRxElementSizeInBytes, decodeRxElementSizeInBytes in H0e.
    rewrite encode_of_decode in H0e. now repeat split. }
  split.
  { intros E. rewrite E in *. cbn in H1a, H1s, H1e.
    unfold encodeRxElementSizeInBytes, decodeRxElementSizeInBytes in H1e.
    rewrite encode_of_decode in H1e. now repeat split. }
  split.
  { intros E. rewrite E in *. cbn in Hta, Htb, Htq, Hte.
    unfold encodeTxElementSizeInBytes, decodeTxElementSizeInBytes in Hte.
    rewrite encode_of_decode in Hte. now repeat split. }
  intros E. rewrite E in *. now split.
Qed.

(** The sequence of [Mcan_setConfig] up to the call of [setMode]. *)
Lemma setConfig_to_setMode (config : Mcan_Config.t) (timeoutLimit : Z)
      (w : World) :
  (exists w',
     Mcan_setConfig config timeoutLimit w
     = (Failed Mcan_ErrorCode_InitializationStartTimeout, w') /\
     mcan w'
     = Mcan.set_msgRamBaseAddress (Mcan_Config.msgRamBaseAddress config)
         (mcan w)) \/
  (exists w' rest,
     Mcan_setConfig config timeoutLimit w
     = bind (setMode config timeoutLimit) rest w' /\
     mcan w'
     = Mcan.set_msgRamBaseAddress (Mcan_Config.msgRamBaseAddress config)
         (mcan w)).
Proof.
  unfold Mcan_setConfig, setMsgRamBaseAddress, SET_FIELD_VALUE,
    setValueAtOffset, waitForRegisterWithTimeout, reg_or.
  repeat run_step. run_wait.
  destruct b; cbn [negb].
  - right. repeat run_step. eexists. eexists. split; reflexivity.
  - left. eexists. split; reflexivity.
Qed.

(** X27. [Mcan_setConfig] with [Mcan_Mode_Invalid] never succeeds: it
    fails with [Mcan_ErrorCode_InitializationStartTimeout] or, once
    initialization has started, with [Mcan_ErrorCode_ModeInvalid].  In
    both cases the descriptor keeps the regions it had; only the message
    RAM base address has been replaced. *)
Theorem setConfig_mode_invalid
        (config : Mcan_Config.t) (timeoutLimit : Z) (w : World) :
  Mcan_Config.mode config = Mcan_Mode_Invalid ->
  (fst (Mcan_setConfig config timeoutLimit w)
   = Failed Mcan_ErrorCode_InitializationStartTimeout \/
   fst (Mcan_setConfig config timeoutLimit w)
   = Failed Mcan_ErrorCode_ModeInvalid) /\
  mcan (snd (Mcan_setConfig config timeoutLimit w))
  = Mcan.set_msgRamBaseAddress (Mcan_Config.msgRamBaseAddress config)
      (mcan w).
Proof.
  intros Hmode.
  destruct (setConfig_to_setMode config timeoutLimit w)
    as [(w' & Hrun & Hmcan) | (w' & rest & Hrun & Hmcan)];
    rewrite Hrun.
  - split; [left; reflexivity | exact Hmcan].
  - unfold setMode, reg_or. rewrite Hmode.
    destruct (Mcan_Config.isFdEnabled config); repeat run_step;
      (split; [right; reflexivity | exact Hmcan]).
Qed.


End ConfigurationRoundTrip.

Lemma setConfig_assigns_descriptor_witness :
  mcan (snd (Mcan_setConfig (L := mcan_layout) (D := regfile)
               (sample_config (sample_txBuffer true 4 4)) 10
               (regfile_world [] sample_mcan)))
  = configuredDescriptor (L := mcan_layout)
      (sample_config (sample_txBuffer true 4 4)).
Proof.
  apply (setConfig_assigns_descriptor (L := mcan_layout) (D := regfile)
           (sample_config (sample_txBuffer true 4 4)) 10
           (regfile_world [] sample_mcan)).
  vm_compute. reflexivity.
Defined.

Lemma setConfig_then_getConfig_witness :
  exists c w2,
    Mcan_getConfig (L := mcan_layout) (D := regfile)
      (sample_config (sample_txBuffer false 0 0))
      (snd (Mcan_setConfig (L := mcan_layout) (D := regfile)
              (sample_config (sample_txBuffer true 4 4)) 10
              (regfile_world [] blank_mcan)))
    = (Done c, w2) /\
    Mcan_Config.msgRamBaseAddress c = 541065216 /\
    Mcan_RxFifoConfig.startAddress (Mcan_Config.rxFifo0 c) = 541066752 /\
    Mcan_RxFifoConfig.elementSize (Mcan_Config.rxFifo0 c)
    = Mcan_ElementSize_8 /\
    Mcan_TxBufferConfig.bufferSize (Mcan_Config.txBuffer c) = 4 /\
    Mcan_TxBufferConfig.queueSize (Mcan_Config.txBuffer c) = 4.
Proof.
  destruct (setConfig_then_getConfig (L := mcan_layout) (D := regfile)
              (sample_config (sample_txBuffer true 4 4))
              (sample_config (sample_txBuffer false 0 0)) 10
              (regfile_world [] blank_mcan)
              (snd (Mcan_setConfig (L := mcan_layout) (D := regfile)
                      (sample_config (sample_txBuffer true 4 4)) 10
                      (regfile_world [] blank_mcan))))
    as (c & w2 & Hget & Hbase & _ & _ & _ & Hrx0 & _ & Htx & _).
  - vm_compute. reflexivity.
  - exists c, w2. split; [exact Hget|]. split; [exact Hbase|].
    destruct (Hrx0 eq_refl) as (Ha & _ & He).
    destruct (Htx eq_refl) as (_ & Hb & Hq & _).
    repeat split; assumption.
Defined.

Lemma setConfig_mode_invalid_witness :
  (fst (Mcan_setConfig (L := mcan_layout) (D := regfile)
          (with_mode Mcan_Mode_Invalid
             (sample_config (sample_txBuffer true 4 4))) 10
          (regfile_world [] sample_mcan))
   = Failed Mcan_ErrorCode_InitializationStartTimeout \/
   fst (Mcan_setConfig (L := mcan_layout) (D := regfile)
          (with_mode Mcan_Mode_Invalid
             (sample_config (sample_txBuffer true 4 4))) 10
          (regfile_world [] sample_mcan))
   = Failed Mcan_ErrorCode_ModeInvalid) /\
  mcan (snd (Mcan_setConfig (L := mcan_layout) (D := regfile)
               (with_mode Mcan_Mode_Invalid
                  (sample_config (sample_txBuffer true 4 4))) 10
               (regfile_world [] sample_mcan)))
  = Mcan.set_msgRamBaseAddress 541065216 sample_mcan.
Proof.
  apply (setConfig_mode_invalid (L := mcan_layout) (D := regfile)
           (with_mode Mcan_Mode_Invalid
              (sample_config (sample_txBuffer true 4 4))) 10
           (regfile_world [] sample_mcan)).
  reflexivity.
Defined.


(** ** What a successful configuration has checked *)

Section ConfigurationChecks.

Context {L : McanRegisters} {D : Device}.

Lemma requires_returnError {A} (e : ErrorCode) (P : Prop) :
  requires (returnError (A := A) e) P.
Proof. intros w a w' H. discriminate H. Qed.

Lemma requires_assert (b : bool) : requires (assert b) (b = true).
Proof.
  intros w a w' H. unfold assert in H. now destruct b.
Qed.

Lemma requires_bind_l {A B} (m : M A) (k : A -> M B) (P : Prop) :
  requires m P -> requires (bind m k) P.
Proof.
  intros Hm w b w' H. apply bind_Done_inv in H as (a & w1 & H1 & _).
  exact (Hm _ _ _ H1).
Qed.

Lemma requires_bind_r {A B} (m : M A) (k : A -> M B) (P : Prop) :
  (forall a, requires (k a) P) -> requires (bind m k) P.
Proof.
  intros Hk w b w' H. apply bind_Done_inv in H as (a & w1 & _ & H2).
  exact (Hk _ _ _ _ H2).
Qed.

Lemma requires_if {A} (c : bool) (m1 m2 : M A) (P : Prop) :
  (c = true -> requires m1 P) -> (c = false -> requires m2 P) ->
  requires (if c then m1 else m2) P.
Proof. destruct c; auto. Qed.

(** Skip [n] calls of a sequence. *)
Tactic Notation "skip" integer(n) :=
  do n (apply requires_bind_r; intro).

Lemma requires_setTxBuffer_checked {B} (config : Mcan_Config.t)
      (e : ErrorCode) (rest : M B) :
  requires
    (txOk <- setTxBuffer config ;;
     if negb txOk then returnError e else rest)
    (Mcan_TxBufferConfig.isEnabled (Mcan_Config.txBuffer config) = true ->
     decodeTxElementSizeInBytes
       (Mcan_TxBufferConfig.elementSize (Mcan_Config.txBuffer config))
     <> MCAN_TXELEMENT_SIZE_INVALID /\
     Mcan_TxBufferConfig.bufferSize (Mcan_Config.txBuffer config)
     + Mcan_TxBufferConfig.queueSize (Mcan_Config.txBuffer config) <= 32).
Proof.
  intros w b w' H Hen.
  apply bind_Done_inv in H as (ok & w1 & H1 & H2).
  destruct ok; cbn [negb] in H2; [|discriminate H2].
  unfold setTxBuffer in H1. rewrite Hen in H1.
  match type of H1 with
  | context [?a =? ?b] => destruct (Z.eqb_spec a b) as [E|E]
  end; [discriminate H1|].
  split; [exact E|].
  apply bind_Done_inv in H1 as (u & w2 & Hassert & _).
  apply Z.leb_le. exact (requires_assert _ _ _ _ Hassert).
Qed.

(** X29. [Mcan_setConfig] reports success only for a configuration it has
    checked: the mode is not [Mcan_Mode_Invalid]; the nominal bit timing,
    and with CAN-FD enabled the data bit timing, has a time segment
    before the sample point of at least 1; and an enabled Tx buffer has an
    element size that decodes and at most 32 buffers and queue slots in
    all. *)
Theorem setConfig_success_requires
        (config : Mcan_Config.t) (timeoutLimit : Z) (w w1 : World) :
  Mcan_setConfig config timeoutLimit w = (Done tt, w1) ->
  Mcan_Config.mode config <> Mcan_Mode_Invalid /\
  0 < Mcan_BitTiming.timeSegmentBeforeSamplePoint
        (Mcan_Config.nominalBitTiming config) /\
  (Mcan_Config.isFdEnabled config = true ->
   0 < Mcan_BitTiming.timeSegmentBeforeSamplePoint
         (Mcan_Config.dataBitTiming config)) /\
  (Mcan_TxBufferConfig.isEnabled (Mcan_Config.txBuffer config) = true ->
   decodeTxElementSizeInBytes
     (Mcan_TxBufferConfig.elementSize (Mcan_Config.txBuffer config))
   <> MCAN_TXELEMENT_SIZE_INVALID /\
   Mcan_TxBufferConfig.bufferSize (Mcan_Config.txBuffer config)
   + Mcan_TxBufferConfig.queueSize (Mcan_Config.txBuffer config) <= 32).
Proof.
  intros Hrun.
  refine ((_ : requires (Mcan_setConfig config timeoutLimit) _)
            w tt w1 Hrun).
  clear Hrun.
  unfold Mcan_setConfig. skip 3.
  apply requires_if; intros _; [apply requires_returnError|].
  skip 3.
  assert (Hand : forall (A : Type) (m : M A) (P Q : Prop),
             requires m P -> requires m Q -> requires m (P /\ Q))
    by (intros A m P Q HP HQ ? ? ? H; split; eauto).
  apply Hand; [|apply requires_bind_r; intros _; apply Hand;
                [|apply requires_bind_r; intros _; apply Hand]].
  - apply requires_bind_l. unfold setMode. apply requires_bind_r. intros _.
    destruct (Mcan_Config.mode config);
      try (intros ? ? ? _; discriminate).
    apply requires_returnError.
  - apply requires_bind_l. unfold setNominalTiming.
    apply requires_bind_l.
    intros ? ? ? H. apply Z.ltb_lt.
    exact (requires_assert _ _ _ _ H).
  - apply requires_bind_l. apply requires_if; intros Hfd.
    + unfold setDataTiming. apply requires_bind_l, requires_bind_l.
      intros ? ? ? H _. apply Z.ltb_lt.
      exact (requires_assert _ _ _ _ H).
    + intros ? ? ? _ Hfd'. congruence.
  - skip 8. apply requires_setTxBuffer_checked.
Qed.

End ConfigurationChecks.

(** ** The Tx queue status and the push *)

Section QueueStatusFacts.

Context {L : McanRegisters} {LS : McanStatusRegisters} {D : Device}.

Lemma returns_ret {A} (a : A) : returns (ret a).
Proof. intros w. now exists a, w. Qed.

Lemma returns_bind {A B} (m : M A) (k : A -> M B) :
  returns m -> (forall a, returns (k a)) -> returns (bind m k).
Proof.
  intros Hm Hk w. destruct (Hm w) as (a & w1 & Hrun).
  rewrite (bind_Done _ _ _ _ _ Hrun). apply Hk.
Qed.

Lemma returns_total {A} (m : M A) :
  (forall w, exists a, fst (m w) = Done a) -> returns m.
Proof.
  intros H w. destruct (H w) as (a & Ha). exists a, (snd (m w)).
  rewrite <- Ha. now destruct (m w).
Qed.

Ltac returns_step :=
  lazymatch goal with
  | |- returns (ret _) => apply returns_ret
  | |- returns (bind _ _) => apply returns_bind; [|intro]
  | |- returns (if ?c then _ else _) => destruct c
  | |- returns get_mcan => apply returns_total; intro; eexists; reflexivity
  | |- returns (modify_ram _) =>
      apply returns_total; intro; eexists; reflexivity
  | |- returns (ram_or32 _ _ _) =>
      apply returns_total; intro; eexists; reflexivity
  | |- returns (reg_read _) =>
      apply returns_total; intro; eexists; reflexivity
  | |- returns (reg_write _ _) =>
      apply returns_total; intro; eexists; reflexivity
  end.

(** [txAddElement] always returns. *)
Lemma txAddElement_returns
      (element : Mcan_TxElement.t) (baseAddress index : Z) :
  returns (txAddElement element baseAddress index).
Proof.
  unfold txAddElement, changeBitAtOffset. cbv zeta.
  repeat (returns_step; cbv beta zeta).
Qed.

(** X30. [Mcan_getTxQueueStatus] reads the queue status register once
    and does nothing else; the queue is reported full exactly when
    [Mcan_txQueuePush], run on the same register value, fails with
    [Mcan_ErrorCode_TxFifoFull]. *)
Theorem getTxQueueStatus_and_push
        (element : Mcan_TxElement.t) (w : World) :
  exists isFull,
    Mcan_getTxQueueStatus w
    = (Done isFull,
       mkWorld (snd (dev_read txfqs (hw w))) (ram w) (mcan w) (index_out w)
         (log w ++ [EvRead txfqs (u32 (fst (dev_read txfqs (hw w))))])) /\
    (isFull = true
     <-> fst (Mcan_txQueuePush element w) = Failed Mcan_ErrorCode_TxFifoFull).
Proof.
  unfold Mcan_getTxQueueStatus, Mcan_txQueuePush.
  eexists. split; [reflexivity|].
  unfold bind at 1. cbn [reg_read].
  destruct (IS_BIT_SET MCAN_TXFQS_TFQF (u32 (fst (dev_read txfqs (hw w)))));
    [split; reflexivity|].
  split; [discriminate|]. intros H. exfalso. revert H.
  unfold bind at 1. cbn [set_index_out].
  unfold bind at 1. cbn [get_mcan].
  match goal with
  | |- context [bind (txAddElement ?e ?p ?i) _ ?w1] =>
      destruct (txAddElement_returns e p i w1) as (added & w' & Hrun)
  end.
  rewrite (bind_Done _ _ _ _ _ Hrun).
  destruct added; cbn [negb]; discriminate.
Qed.

End QueueStatusFacts.

Lemma setConfig_success_requires_witness :
  Mcan_Config.mode (sample_config (sample_txBuffer true 4 4))
  <> Mcan_Mode_Invalid /\
  0 < Mcan_BitTiming.timeSegmentBeforeSamplePoint
        (Mcan_Config.nominalBitTiming
           (sample_config (sample_txBuffer true 4 4))) /\
  (Mcan_Config.isFdEnabled (sample_config (sample_txBuffer true 4 4)) = true ->
   0 < Mcan_BitTiming.timeSegmentBeforeSamplePoint
         (Mcan_Config.dataBitTiming
            (sample_config (sample_txBuffer true 4 4)))) /\
  (Mcan_TxBufferConfig.isEnabled
     (Mcan_Config.txBuffer (sample_config (sample_txBuffer true 4 4))) = true ->
   decodeTxElementSizeInBytes (L := mcan_layout)
     (Mcan_TxBufferConfig.elementSize
        (Mcan_Config.txBuffer (sample_config (sample_txBuffer true 4 4))))
   <> MCAN_TXELEMENT_SIZE_INVALID (McanRegisters := mcan_layout) /\
   Mcan_TxBufferConfig.bufferSize
     (Mcan_Config.txBuffer (sample_config (sample_txBuffer true 4 4)))
   + Mcan_TxBufferConfig.queueSize
       (Mcan_Config.txBuffer (sample_config (sample_txBuffer true 4 4)))
   <= 32).
Proof.
  apply (setConfig_success_requires (L := mcan_layout) (D := regfile)
           (sample_config (sample_txBuffer true 4 4)) 10
           (regfile_world [] blank_mcan)
           (snd (Mcan_setConfig (L := mcan_layout) (D := regfile)
                   (sample_config (sample_txBuffer true 4 4)) 10
                   (regfile_world [] blank_mcan)))).
  vm_compute. reflexivity.
Defined.
